(** * opentunnel: the tunnel registry and the ingress forwarder

    A shallow embedding of
      - [server/backend/app/services/registry.py]       (TunnelRegistry),
      - [server/backend/app/services/tunnel_service.py] (TunnelService.forward_request),
      - [server/backend/app/api/v1/tunnels.py]          (tunnel_ws),
      - [client/cli.py]                                 (forward_request_to_local),
    followed by the properties of the specification that concern them.

    Coroutines are cut at their [await]s: every stretch of code that runs
    without suspension is one function on the state of the process, and
    what the environment decides (a write that fails, a deadline that
    elapses, the clock, the random source) is an argument of that
    function. Tunnel objects, futures and WebSockets are kept by identity
    in the state, since tasks hold on to them across suspensions.
    [json.dumps] followed by [json.loads] is taken to give back the value
    it was given, so a message is the same value on both ends of the
    connection. An exception is a class and a message; [None] results and
    [Raise] stand for the exceptions of the library functions. *)

From Stdlib Require Import NArith ZArith List Bool Lia Floats.
From Stdlib.Strings Require Import String Ascii Byte.
From stdpp Require Import base option list gmap strings.
Import ListNotations.

Local Open Scope string_scope.
Local Open Scope N_scope.

(* ===================================================================== *)
(** * Python values used by the code *)
(* ===================================================================== *)

Module Py.

(** A [str] whose code points are below 256 is a Rocq [string]: one
    character per code point (Starlette decodes header bytes as latin-1). *)

(** [str.lower] on one such code point: A-Z, and U+00C0..U+00DE except
    the multiplication sign U+00D7, move up by 32. *)
Definition lower_char (c : ascii) : ascii :=
  let n := N_of_ascii c in
  if ((65 <=? n) && (n <=? 90)) || ((192 <=? n) && (n <=? 222) && negb (n =? 215))
  then ascii_of_N (n + 32)
  else c.

Fixpoint lower (s : string) : string :=
  match s with
  | EmptyString => EmptyString
  | String c s' => String (lower_char c) (lower s')
  end.

(** A [dict] with [str] keys, in insertion order. *)
Definition dict (V : Type) : Type := list (string * V).

(** [d.get(k)] *)
Fixpoint dict_get {V} (d : dict V) (k : string) : option V :=
  match d with
  | [] => None
  | (k', v) :: d' => if String.eqb k' k then Some v else dict_get d' k
  end.

(** [d[k] = v]: an existing key keeps its place, a new key goes last. *)
Fixpoint dict_set {V} (d : dict V) (k : string) (v : V) : dict V :=
  match d with
  | [] => [(k, v)]
  | (k', v') :: d' =>
      if String.eqb k' k then (k', v) :: d' else (k', v') :: dict_set d' k v
  end.

(** [d.pop(k, None)], the value dropped. *)
Fixpoint dict_pop {V} (d : dict V) (k : string) : dict V :=
  match d with
  | [] => []
  | (k', v') :: d' =>
      if String.eqb k' k then d' else (k', v') :: dict_pop d' k
  end.

Definition dict_keys {V} (d : dict V) : list string := fst <$> d.
Definition dict_values {V} (d : dict V) : list V := snd <$> d.

(** [{f(k): g(v) for k, v in items}] for [f = str.lower], [g] the identity
    on [str]: items are entered left to right with [d[k] = v]. *)
Definition dict_of_items {V} (f : string -> string) (items : list (string * V)) : dict V :=
  fold_left (fun d kv => dict_set d (f (fst kv)) (snd kv)) items [].

(** [s.encode("utf-8")] for code points below 256. *)
Definition utf8_char (c : ascii) : list byte :=
  let n := N_of_ascii c in
  if n <? 128 then [byte_of_ascii c]
  else [byte_of_ascii (ascii_of_N (N.lor 192 (N.shiftr n 6)));
        byte_of_ascii (ascii_of_N (N.lor 128 (N.land n 63)))].

Definition encode_utf8 (s : string) : list byte :=
  flat_map utf8_char (list_ascii_of_string s).

(** [range(n)] *)
Definition range (n : nat) : list N := map N.of_nat (seq 0 n).

(** Truth value of a [str] or [bytes]. *)
Definition str_truthy (s : string) : bool :=
  match s with EmptyString => false | _ => true end.
Definition bytes_truthy (b : list byte) : bool :=
  match b with [] => false | _ => true end.

(** [s.encode("ascii")]: [None] stands for UnicodeEncodeError. The bytes
    are kept as the text they spell. *)
Fixpoint encode_ascii (s : string) : option string :=
  match s with
  | EmptyString => Some EmptyString
  | String c s' =>
      if N_of_ascii c <? 128
      then match encode_ascii s' with
           | Some r => Some (String c r)
           | None => None
           end
      else None
  end.

End Py.

(* ===================================================================== *)
(** * base64 (the [base64] module over [binascii]) *)
(* ===================================================================== *)

Module Base64.

Definition alphabet : string :=
  "ABCDEFGHIJKLMNOPQRSTUVWXYZabcdefghijklmnopqrstuvwxyz0123456789+/".

Definition BASE64_PAD : ascii := "="%char.

(** [table_b2a_base64[n]] *)
Definition table_b2a (n : N) : ascii :=
  match String.get (N.to_nat n) alphabet with
  | Some c => c
  | None => BASE64_PAD
  end.

Fixpoint index_of (c : ascii) (s : string) (i : N) : option N :=
  match s with
  | EmptyString => None
  | String c' s' => if Ascii.eqb c' c then Some i else index_of c s' (i + 1)
  end.

(** [table_a2b_base64[c]], with [None] for the entries that are not a
    digit of the alphabet. *)
Definition table_a2b (c : ascii) : option N := index_of c alphabet 0.

Definition byte_of_N (n : N) : byte :=
  match Byte.of_N (n mod 256) with
  | Some b => b
  | None => x00
  end.

(** The four digits of a full group of three bytes, and the digits of
    the one or two bytes left at the end ([binascii.b2a_base64]). *)
Definition digit0 (a : N) : N := N.shiftr a 2.
Definition digit1 (a b : N) : N := N.lor (N.shiftl (N.land a 3) 4) (N.shiftr b 4).
Definition digit2 (b c : N) : N := N.lor (N.shiftl (N.land b 15) 2) (N.shiftr c 6).
Definition digit3 (c : N) : N := N.land c 63.

(** [base64.b64encode(b).decode("ascii")] *)
Fixpoint b64encode (bs : list byte) : string :=
  match bs with
  | [] => EmptyString
  | [a] =>
      let a := Byte.to_N a in
      String (table_b2a (digit0 a)) (String (table_b2a (digit1 a 0))
        (String BASE64_PAD (String BASE64_PAD EmptyString)))
  | [a; b] =>
      let a := Byte.to_N a in let b := Byte.to_N b in
      String (table_b2a (digit0 a)) (String (table_b2a (digit1 a b))
        (String (table_b2a (digit2 b 0)) (String BASE64_PAD EmptyString)))
  | a :: b :: c :: rest =>
      let a := Byte.to_N a in let b := Byte.to_N b in let c := Byte.to_N c in
      String (table_b2a (digit0 a)) (String (table_b2a (digit1 a b))
        (String (table_b2a (digit2 b c)) (String (table_b2a (digit3 c))
          (b64encode rest))))
  end.

(** [binascii.a2b_base64(data, strict_mode=False)]: the loop over the
    input with its four variables; [None] stands for [binascii.Error]. *)
Fixpoint a2b_loop (data : string) (quad_pos leftchar pads : N) (out : list byte)
  : option (list byte) :=
  match data with
  | EmptyString => if quad_pos =? 0 then Some out else None
  | String this_ch data' =>
      if Ascii.eqb this_ch BASE64_PAD then
        if 2 <=? quad_pos then
          if 4 <=? quad_pos + (pads + 1) then Some out
          else a2b_loop data' quad_pos leftchar (pads + 1) out
        else a2b_loop data' quad_pos leftchar pads out
      else
        match table_a2b this_ch with
        | None => a2b_loop data' quad_pos leftchar pads out
        | Some d =>
            if quad_pos =? 0 then a2b_loop data' 1 d 0 out
            else if quad_pos =? 1 then
              a2b_loop data' 2 (N.land d 15) 0
                (out ++ [byte_of_N (N.lor (N.shiftl leftchar 2) (N.shiftr d 4))])
            else if quad_pos =? 2 then
              a2b_loop data' 3 (N.land d 3) 0
                (out ++ [byte_of_N (N.lor (N.shiftl leftchar 4) (N.shiftr d 2))])
            else
              a2b_loop data' 0 0 0
                (out ++ [byte_of_N (N.lor (N.shiftl leftchar 6) d)])
        end
  end.

Definition a2b_base64 (data : string) : option (list byte) :=
  a2b_loop data 0 0 0 [].

(** [base64.b64decode(s.encode("ascii"))] *)
Definition b64decode_str (s : string) : option (list byte) :=
  match Py.encode_ascii s with
  | Some data => a2b_base64 data
  | None => None
  end.

End Base64.

(* ===================================================================== *)
(** * Exceptions, JSON values and the frames on the wire *)
(* ===================================================================== *)

Module Exc.

(** The exception classes that the code raises, lets through or catches. *)
Inductive exn_class :=
  | ValueError | PermissionError | ConnectionError | BrokenPipeError
  | ConnectionResetError | TimeoutError | CancelledError | RuntimeError
  | AttributeError | TypeError | OverflowError | UnicodeEncodeError
  | BinasciiError | JSONDecodeError | WebSocketDisconnect.

Record exn := Exn { exn_class_of : exn_class; exn_msg : string }.

(** [isinstance(e, ConnectionError)], the test of [except ConnectionError]. *)
Definition is_ConnectionError (e : exn) : bool :=
  match exn_class_of e with
  | ConnectionError | BrokenPipeError | ConnectionResetError => true
  | _ => false
  end.

(** [isinstance(e, Exception)], the test of [except Exception]:
    CancelledError derives from BaseException only. *)
Definition is_Exception (e : exn) : bool :=
  match exn_class_of e with
  | CancelledError => false
  | _ => true
  end.

(** [isinstance(e, WebSocketDisconnect)] *)
Definition is_WebSocketDisconnect (e : exn) : bool :=
  match exn_class_of e with
  | WebSocketDisconnect => true
  | _ => false
  end.

Inductive result (A : Type) :=
  | Ok (a : A)
  | Raise (e : exn).
Arguments Ok {A} a.
Arguments Raise {A} e.

(** Sequencing: an exception ends the computation ([x ← r; k]). *)
#[global] Instance result_bind : MBind result := fun A B k r =>
  match r with
  | Ok a => k a
  | Raise e => Raise e
  end.

End Exc.

Module Wire.
Import Exc.

(** What [json.loads] returns. *)
#[local] Unset Elimination Schemes.
Inductive json :=
  | JNull
  | JBool (b : bool)
  | JNum (n : Z)
  | JFloat (f : float)
  | JStr (s : string)
  | JArr (items : list json)
  | JObj (fields : Py.dict json).
#[local] Set Elimination Schemes.

(** Truth value of a decoded value ([if not v]). *)
Definition truthy (v : json) : bool :=
  match v with
  | JNull => false
  | JBool b => b
  | JNum n => negb (n =? 0)%Z
  | JFloat f => negb (PrimFloat.eqb f 0%float)
  | JStr s => Py.str_truthy s
  | JArr l => match l with [] => false | _ => true end
  | JObj d => match d with [] => false | _ => true end
  end.

(** [v.get(key)] and [v.get(key, default)]: only a dict has [get]. *)
Definition get_default (v : json) (key : string) (default : json) : result json :=
  match v with
  | JObj d => Ok (match Py.dict_get d key with Some x => x | None => default end)
  | _ => Raise (Exn AttributeError "object has no attribute 'get'")
  end.

Definition get (v : json) (key : string) : result json := get_default v key JNull.

(** [v == s] for a [str] literal [s]. *)
Definition eq_str (v : json) (s : string) : bool :=
  match v with
  | JStr s' => String.eqb s' s
  | _ => false
  end.

(** The payload that the forwarder builds and the registry sends. *)
Record Payload := mkPayload {
  correlation_id : string;
  method : string;
  path : string;
  query : Py.dict (list string);
  headers : Py.dict string;
  body_b64 : option string;
}.

(** [base64.b64encode(b).decode("ascii") if b else None], the [body_b64]
    field for the bytes [b]. *)
Definition body_field (b : list byte) : option string :=
  if Py.bytes_truthy b then Some (Base64.b64encode b) else None.

(** Frames written by the server: [{"type": "request", **payload}] and
    [{"type": "ping", "ts": ...}]. *)
Inductive frame :=
  | Request (p : Payload)
  | Ping (ts : float).

End Wire.

(* ===================================================================== *)
(** * [uuid.uuid4().hex] *)
(* ===================================================================== *)

Module Uuid.

Definition hexdigits : string := "0123456789abcdef".

Definition hexdigit (n : N) : ascii :=
  match String.get (N.to_nat n) hexdigits with
  | Some c => c
  | None => "0"%char
  end.

Definition is_hexdigit (c : ascii) : bool :=
  match Base64.index_of c hexdigits 0 with
  | Some _ => true
  | None => false
  end.

(** ['%032x' % n] for [n] below [2^128]. *)
Definition hex32 (n : N) : string :=
  string_of_list_ascii
    (map (fun i => hexdigit (N.land (N.shiftr n (4 * N.of_nat i)) 15)) (rev (seq 0 32))).

(** [UUID(bytes=os.urandom(16), version=4).int]: the random bytes read as
    a big-endian number, variant and version bits forced. *)
Definition uuid4_int (random : N) : N :=
  let int := random mod 2 ^ 128 in
  let int := N.ldiff int (N.shiftl 0xc000 48) in
  let int := N.lor int (N.shiftl 0x8000 48) in
  let int := N.ldiff int (N.shiftl 0xf000 64) in
  N.lor int (N.shiftl 4 76).

Definition uuid4_hex (random : N) : string := hex32 (uuid4_int random).

End Uuid.

(* ===================================================================== *)
(** * [services/registry.py] *)
(* ===================================================================== *)

Module Registry.
Import Exc Wire.

(** A WebSocket, a Tunnel object and a Future are known by their identity
    ([tunnel.websocket is websocket]). *)
Definition WebSocket : Type := nat.

(** [asyncio.Future] *)
Inductive Future :=
  | FPending
  | FResult (message : json)
  | FCancelled.

Definition done (f : Future) : bool :=
  match f with FPending => false | _ => true end.

Record PendingRequest := mkPendingRequest {
  future : nat;
  pr_created_at : float;
}.

Record Tunnel := mkTunnel {
  route : string;
  token : string;
  description : option string;
  created_at : float;
  last_seen : option float;
  websocket : option WebSocket;
  connected : bool;
  pending : gmap string PendingRequest;
}.

(** A row of the table behind [TunnelDBService], with the columns that
    [validate_token] and [update_last_connected] read or write. *)
Record TunnelToken := mkTunnelToken {
  tt_route : string;
  tt_token : string;
  tt_is_active : bool;
  tt_last_connected_at : option float;
}.

(** The state of the process: the Tunnel objects and the Futures by
    identity, the two dicts of the registry, the optional database, and a
    record of what was done to the WebSockets. *)
Record state := mkState {
  tunnels : gmap nat Tunnel;
  futures : gmap nat Future;
  _route_to_tunnel : Py.dict nat;
  _token_to_route : gmap string string;
  _db_service : option (list TunnelToken);
  closed : list (WebSocket * option Z);
  sent : list (WebSocket * frame);
}.

(** [TunnelRegistry(db_service)] *)
Definition init (db_service : option (list TunnelToken)) : state :=
  mkState ∅ ∅ [] ∅ db_service [] [].

Definition set_tunnels (st : state) (ts : gmap nat Tunnel) : state :=
  mkState ts (futures st) (_route_to_tunnel st) (_token_to_route st)
    (_db_service st) (closed st) (sent st).

Definition set_futures (st : state) (fs : gmap nat Future) : state :=
  mkState (tunnels st) fs (_route_to_tunnel st) (_token_to_route st)
    (_db_service st) (closed st) (sent st).

Definition set_db (st : state) (db : option (list TunnelToken)) : state :=
  mkState (tunnels st) (futures st) (_route_to_tunnel st) (_token_to_route st)
    db (closed st) (sent st).

(** [await websocket.close(code)]; an exception of [close] is swallowed
    wherever the registry calls it. *)
Definition ws_close (st : state) (ws : WebSocket) (code : option Z) : state :=
  mkState (tunnels st) (futures st) (_route_to_tunnel st) (_token_to_route st)
    (_db_service st) ((ws, code) :: closed st) (sent st).

(** A frame that [send_json] has written. *)
Definition ws_sent (st : state) (ws : WebSocket) (f : frame) : state :=
  mkState (tunnels st) (futures st) (_route_to_tunnel st) (_token_to_route st)
    (_db_service st) (closed st) ((ws, f) :: sent st).

(** Assignments to the attributes of one Tunnel object. *)
Definition with_connection (t : Tunnel) (ws : option WebSocket) (c : bool)
    (seen : float) : Tunnel :=
  mkTunnel (route t) (token t) (description t) (created_at t) (Some seen) ws c (pending t).

Definition with_last_seen (t : Tunnel) (seen : float) : Tunnel :=
  mkTunnel (route t) (token t) (description t) (created_at t) (Some seen)
    (websocket t) (connected t) (pending t).

Definition with_pending (t : Tunnel) (p : gmap string PendingRequest) : Tunnel :=
  mkTunnel (route t) (token t) (description t) (created_at t) (last_seen t)
    (websocket t) (connected t) p.

(** [self._route_to_tunnel.get(route)], as the object it names. *)
Definition lookup_route (st : state) (r : string) : option (nat * Tunnel) :=
  match Py.dict_get (_route_to_tunnel st) r with
  | Some o =>
      match tunnels st !! o with
      | Some t => Some (o, t)
      | None => None
      end
  | None => None
  end.

(** [create_tunnel]: [random] is what [uuid4] draws, [now] what
    [time.time()] reads. *)
Definition create_tunnel (st : state) (now : float) (random : N)
    (r : string) (descr : option string) : result (state * nat) :=
  match Py.dict_get (_route_to_tunnel st) r with
  | Some _ => Raise (Exn ValueError "Route already exists")
  | None =>
      let tok := Uuid.uuid4_hex random in
      let o := fresh (dom (tunnels st)) in
      let tunnel := mkTunnel r tok descr now None None false ∅ in
      Ok (mkState (<[o := tunnel]> (tunnels st)) (futures st)
            (Py.dict_set (_route_to_tunnel st) r o)
            (<[tok := r]> (_token_to_route st))
            (_db_service st) (closed st) (sent st), o)
  end.

(** [get_tunnel] *)
Definition get_tunnel (st : state) (r : string) : option Tunnel :=
  snd <$> lookup_route st r.

(** [list_tunnels]: a copy of the dict. *)
Definition list_tunnels (st : state) : Py.dict nat := _route_to_tunnel st.

(** [delete_tunnel] *)
Definition delete_tunnel (st : state) (r : string) : state * bool :=
  match lookup_route st r with
  | None => (st, false)
  | Some (o, tunnel) =>
      let st1 :=
        mkState (tunnels st) (futures st)
          (Py.dict_pop (_route_to_tunnel st) r)
          (delete (token tunnel) (_token_to_route st))
          (_db_service st) (closed st) (sent st) in
      let st2 :=
        match websocket tunnel with
        | Some ws => ws_close st1 ws None
        | None => st1
        end in
      (st2, true)
  end.

(** [TunnelDBService.validate_token]: the first active row with the token. *)
Definition validate_token (db : list TunnelToken) (tok : string) : option TunnelToken :=
  List.find (fun row => String.eqb (tt_token row) tok && tt_is_active row) db.

(** [TunnelDBService.update_last_connected]: the first row with the route. *)
Fixpoint update_last_connected (db : list TunnelToken) (r : string) (utcnow : float)
  : list TunnelToken :=
  match db with
  | [] => []
  | row :: db' =>
      if String.eqb (tt_route row) r
      then mkTunnelToken (tt_route row) (tt_token row) (tt_is_active row) (Some utcnow) :: db'
      else row :: update_last_connected db' r utcnow
  end.

(** [attach_websocket], before the lock: the token is checked against
    the database when there is one. *)
Definition attach_validate (st : state) (utcnow : float) (tok : string) : result state :=
  match _db_service st with
  | None => Ok st
  | Some db =>
      match validate_token db tok with
      | None => Raise (Exn PermissionError "Invalid token")
      | Some db_token =>
          if negb (tt_is_active db_token)
          then Raise (Exn PermissionError "Invalid token")
          else Ok (set_db st (Some (update_last_connected db (tt_route db_token) utcnow)))
      end
  end.

(** [attach_websocket], under the lock. *)
Definition attach_bind (st : state) (now : float) (tok : string) (ws : WebSocket)
  : result (state * nat) :=
  match _token_to_route st !! tok with
  | None => Raise (Exn PermissionError "Invalid token")
  | Some r =>
      if negb (Py.str_truthy r) then Raise (Exn PermissionError "Invalid token")
      else
        match lookup_route st r with
        | None => Raise (Exn PermissionError "Unknown route")
        | Some (o, tunnel) =>
            Ok (set_tunnels st
                  (<[o := with_connection tunnel (Some ws) true now]> (tunnels st)), o)
        end
  end.

Definition attach_websocket (st : state) (utcnow now : float) (tok : string)
    (ws : WebSocket) : result (state * nat) :=
  st1 ← attach_validate st utcnow tok;
  attach_bind st1 now tok ws.

(** [tunnel.websocket is websocket] *)
Definition websocket_is (t : Tunnel) (ws : WebSocket) : bool :=
  match websocket t with
  | Some w => Nat.eqb w ws
  | None => false
  end.

(** [for tunnel in self._route_to_tunnel.values(): if tunnel.websocket is
    websocket: ...; break]: the tunnel on which the loop body runs. *)
Fixpoint find_websocket (ts : gmap nat Tunnel) (values : list nat) (ws : WebSocket)
  : option (nat * Tunnel) :=
  match values with
  | [] => None
  | o :: values' =>
      match ts !! o with
      | Some t => if websocket_is t ws then Some (o, t) else find_websocket ts values' ws
      | None => find_websocket ts values' ws
      end
  end.

Definition tunnel_of_websocket (st : state) (ws : WebSocket) : option (nat * Tunnel) :=
  find_websocket (tunnels st) (Py.dict_values (_route_to_tunnel st)) ws.

(** [detach_websocket] *)
Definition detach_websocket (st : state) (now : float) (ws : WebSocket) : state :=
  match tunnel_of_websocket st ws with
  | Some (o, tunnel) =>
      set_tunnels st (<[o := with_connection tunnel None false now]> (tunnels st))
  | None => st
  end.

(** The local variables of [send_ingress_request] that live across its
    [await]s. *)
Record Ticket := mkTicket {
  tk_websocket : WebSocket;
  tk_correlation_id : string;
  tk_future : nat;
  tk_payload : Payload;
}.

(** [payload["correlation_id"] = correlation_id] *)
Definition set_correlation_id (p : Payload) (cid : string) : Payload :=
  mkPayload cid (method p) (path p) (query p) (headers p) (body_b64 p).

(** [send_ingress_request], first stretch under the lock. *)
Definition send_ingress_begin (st : state) (now : float) (random : N)
    (r : string) (payload : Payload) : result (state * Ticket) :=
  match lookup_route st r with
  | None => Raise (Exn ConnectionError "Tunnel not connected")
  | Some (o, tunnel) =>
      if negb (connected tunnel) then Raise (Exn ConnectionError "Tunnel not connected")
      else
        match websocket tunnel with
        | None => Raise (Exn ConnectionError "Tunnel not connected")
        | Some ws =>
            let cid := correlation_id payload in
            let cid := if negb (Py.str_truthy cid) then Uuid.uuid4_hex random else cid in
            let payload := set_correlation_id payload cid in
            let fut := fresh (dom (futures st)) in
            let p := <[cid := mkPendingRequest fut now]> (pending tunnel) in
            Ok (mkState (<[o := with_pending tunnel p]> (tunnels st))
                  (<[fut := FPending]> (futures st))
                  (_route_to_tunnel st) (_token_to_route st)
                  (_db_service st) (closed st) (sent st),
                mkTicket ws cid fut payload)
        end
  end.

(** [await websocket.send_json({"type": "request", **payload})]: the
    write succeeds, or raises [e] when [failure = Some e]. It stands
    outside the [try]. *)
Definition send_ingress_write (st : state) (tk : Ticket) (failure : option exn)
  : result state :=
  match failure with
  | None => Ok (ws_sent st (tk_websocket tk) (Request (tk_payload tk)))
  | Some e => Raise e
  end.

(** [await asyncio.wait_for(future, timeout)] when the task runs again:
    the result if the future has one; if it has none and the deadline has
    elapsed, the future is cancelled and TimeoutError raised. [None]: the
    task stays suspended. *)
Definition wait_for (st : state) (fut : nat) (elapsed : bool)
  : option (state * result json) :=
  match futures st !! fut with
  | Some (FResult m) => Some (st, Ok m)
  | Some FCancelled => Some (st, Raise (Exn CancelledError ""))
  | Some FPending =>
      if elapsed
      then Some (set_futures st (<[fut := FCancelled]> (futures st)),
                 Raise (Exn TimeoutError ""))
      else None
  | None => None
  end.

(** The [finally] block of [send_ingress_request]. *)
Definition send_ingress_finally (st : state) (r : string) (cid : string) : state :=
  match lookup_route st r with
  | Some (o, tunnel) =>
      set_tunnels st
        (<[o := with_pending tunnel (delete cid (pending tunnel))]> (tunnels st))
  | None => st
  end.

(** [send_ingress_request] from the [try] to its end. *)
Definition send_ingress_finish (st : state) (r : string) (tk : Ticket) (elapsed : bool)
  : option (state * result json) :=
  match wait_for st (tk_future tk) elapsed with
  | Some (st1, res) => Some (send_ingress_finally st1 r (tk_correlation_id tk), res)
  | None => None
  end.

(** [handle_client_message] *)
Definition handle_client_message (st : state) (now : float) (ws : WebSocket)
    (message : json) : result state :=
  msg_type ← get message "type";
  if eq_str msg_type "pong" then
    Ok (match tunnel_of_websocket st ws with
        | Some (o, tunnel) =>
            set_tunnels st (<[o := with_last_seen tunnel now]> (tunnels st))
        | None => st
        end)
  else if negb (eq_str msg_type "response") then Ok st
  else
    cid ← get message "correlation_id";
    if negb (truthy cid) then Ok st
    else
      match tunnel_of_websocket st ws with
      | None => Ok st
      | Some (o, tunnel) =>
          match cid with
          | JStr s =>
              match pending tunnel !! s with
              | Some p =>
                  match futures st !! future p with
                  | Some f =>
                      if negb (done f)
                      then Ok (set_futures st (<[future p := FResult message]> (futures st)))
                      else Ok st
                  | None => Ok st
                  end
              | None => Ok st
              end
          | JArr _ | JObj _ => Raise (Exn TypeError "unhashable type")
          | _ => Ok st
          end
      end.


(** The [except] block of [ping_connected], for one tunnel of the list. *)
Definition ping_failed (st : state) (now : float) (o : nat) : state :=
  match tunnels st !! o with
  | Some tunnel =>
      let st1 :=
        match websocket tunnel with
        | Some ws => ws_close st ws None
        | None => st
        end in
      set_tunnels st1 (<[o := with_connection tunnel None false now]> (tunnels st1))
  | None => st
  end.

(** Whether the write of one turn of [ping_connected] raises something
    that [except Exception] lets through: the websocket is there and
    [send_json] raises a CancelledError. *)
Definition ping_cancelled (st : state) (o : nat) (failure : option exn) : bool :=
  match tunnels st !! o with
  | Some tunnel =>
      match websocket tunnel, failure with
      | Some _, Some e => negb (is_Exception e)
      | _, _ => false
      end
  | None => false
  end.

(** One turn of the loop of [ping_connected]: the ping is written, or the
    write raises.  An [Exception] (also the AttributeError of a tunnel that
    has lost its websocket since the list was built) runs the [except]
    block; a CancelledError passes it and leaves the registry as it is. *)
Definition ping_one (st : state) (now : float) (o : nat) (failure : option exn) : state :=
  match tunnels st !! o with
  | Some tunnel =>
      match websocket tunnel, failure with
      | Some ws, None => ws_sent st ws (Ping now)
      | Some ws, Some e => if is_Exception e then ping_failed st now o else st
      | None, _ => ping_failed st now o
      end
  | None => st
  end.

End Registry.

(* ===================================================================== *)
(** * [services/tunnel_service.py]: [TunnelService.forward_request] *)
(* ===================================================================== *)

Module TunnelService.
Import Exc Wire Registry.

(** What [forward_request] reads of the Starlette [Request]:
    [request.method], [request.headers.items()],
    [request.query_params.multi_items()] and [await request.body()]. *)
Record HttpRequest := mkHttpRequest {
  req_method : string;
  req_headers : list (string * string);
  req_query_params : list (string * string);
  req_body : list byte;
}.

(** The arguments of [Response(content=, status_code=, headers=)]. *)
Record Response := mkResponse {
  status_code : Z;
  resp_headers : Py.dict string;
  content : list byte;
}.

(** How a call of [forward_request] ends. *)
Inductive outcome :=
  | Returned (r : Response)
  | RaisedHTTPException (status : Z) (detail : string)
  | Raised (e : exn).

(** [query_params.setdefault(key, []).append(value)] over the items. *)
Definition collect_query (items : list (string * string)) : Py.dict (list string) :=
  fold_left
    (fun d kv =>
       let old := match Py.dict_get d (fst kv) with Some l => l | None => [] end in
       Py.dict_set d (fst kv) (old ++ [snd kv])%list)
    items [].

(** The [payload] dict. *)
Definition build_payload (request : HttpRequest) (rest_of_path : string) : Payload :=
  let body_bytes := req_body request in
  mkPayload
    ""
    (req_method request)
    (if Py.str_truthy rest_of_path then "/" ++ rest_of_path else "/")
    (collect_query (req_query_params request))
    (Py.dict_of_items Py.lower (req_headers request))
    (body_field body_bytes).

(** The one handler around [send_ingress_request]: [except ConnectionError]. *)
Definition translate (e : exn) : outcome :=
  if is_ConnectionError e
  then RaisedHTTPException 502 "Tunnel not connected"
  else Raised e.

(** A call is over, or suspended inside [send_ingress_request]. *)
Inductive progress :=
  | Finished (o : outcome)
  | Suspended (tk : Ticket).

(** [forward_request] up to the first suspension of [send_ingress_request]. *)
Definition forward_request_begin (st : state) (now : float) (random : N)
    (request : HttpRequest) (r : string) (rest_of_path : string) : state * progress :=
  match send_ingress_begin st now random r (build_payload request rest_of_path) with
  | Ok (st', tk) => (st', Suspended tk)
  | Raise e => (st, Finished (translate e))
  end.

(** ... across the write of the request frame. *)
Definition forward_request_write (st : state) (tk : Ticket) (failure : option exn)
  : state * progress :=
  match send_ingress_write st tk failure with
  | Ok st' => (st', Suspended tk)
  | Raise e => (st, Finished (translate e))
  end.

Section Render.

(** Python's [int] on a [str] and on a [float]. *)
Variable int_of_str : string -> result Z.
Variable int_of_float : float -> result Z.

(** [int(v)] *)
Definition py_int (v : json) : result Z :=
  match v with
  | JNum n => Ok n
  | JBool b => Ok (if b then 1 else 0)%Z
  | JStr s => int_of_str s
  | JFloat f => int_of_float f
  | _ => Raise (Exn TypeError "int() argument must be a string or a number")
  end.

(** [base64.b64decode(body_b64.encode("ascii")) if body_b64 else b""] *)
Definition decode_body (v : json) : result (list byte) :=
  if negb (truthy v) then Ok []
  else
    match v with
    | JStr s =>
        match Py.encode_ascii s with
        | None => Raise (Exn UnicodeEncodeError "")
        | Some data =>
            match Base64.a2b_base64 data with
            | Some b => Ok b
            | None => Raise (Exn BinasciiError "")
            end
        end
    | _ => Raise (Exn AttributeError "object has no attribute 'encode'")
    end.

Fixpoint str_values (d : Py.dict json) : option (Py.dict string) :=
  match d with
  | [] => Some []
  | (k, JStr s) :: d' =>
      match str_values d' with
      | Some r => Some ((k, s) :: r)
      | None => None
      end
  | _ => None
  end.

(** [headers = resp.get("headers", {}) or {}] as [Response] takes it: a
    dict of strings. *)
Definition response_headers (v : json) : result (Py.dict string) :=
  if negb (truthy v) then Ok []
  else
    match v with
    | JObj d =>
        match str_values d with
        | Some h => Ok h
        | None => Raise (Exn AttributeError "object has no attribute 'encode'")
        end
    | _ => Raise (Exn AttributeError "object has no attribute 'items'")
    end.

(** The lines of [forward_request] after the [try]. *)
Definition render_response (resp : json) : result Response :=
  sc ← get_default resp "status_code" (JNum 502);
  status ← py_int sc;
  hv ← get_default resp "headers" (JObj []);
  bv ← get resp "body_b64";
  body ← decode_body bv;
  hdrs ← response_headers hv;
  Ok (mkResponse status hdrs body).

Definition outcome_of (r : result json) : outcome :=
  match r with
  | Raise e => translate e
  | Ok resp =>
      match render_response resp with
      | Ok response => Returned response
      | Raise e => Raised e
      end
  end.

(** [forward_request] from the wait for the response to its end. *)
Definition forward_request_finish (st : state) (r : string) (tk : Ticket)
    (elapsed : bool) : option (state * outcome) :=
  match send_ingress_finish st r tk elapsed with
  | Some (st', res) => Some (st', outcome_of res)
  | None => None
  end.

End Render.

End TunnelService.

(* ===================================================================== *)
(** * [main.py]: what the application answers to an [HTTPException] *)
(* ===================================================================== *)

(** [create_app] registers handlers for [RequestValidationError] and
    [ValidationError] only, so an [HTTPException] raised by an endpoint is
    answered by the handler that FastAPI installs by default,
    [fastapi.exception_handlers.http_exception_handler]:
    [JSONResponse({"detail": exc.detail}, status_code=exc.status_code)],
    or a bare [Response] for a status that allows no body. *)
Module Framework.

(** What the public caller receives: status, media type, body. *)
Record HttpReply := mkHttpReply {
  reply_status : Z;
  reply_media_type : option string;
  reply_body : list byte;
}.

(** The double quote and the backslash. *)
Definition quote : string := String "034"%char EmptyString.
Definition backslash : ascii := "092"%char.

(** One character of a [str] as [json.dumps(..., ensure_ascii=False)]
    writes it: the quote, the backslash and the control characters are
    escaped. *)
Definition json_escape (c : ascii) : string :=
  let n := N_of_ascii c in
  if n =? 34 then String backslash quote
  else if n =? 92 then String backslash (String backslash EmptyString)
  else if n =? 8 then String backslash "b"
  else if n =? 12 then String backslash "f"
  else if n =? 10 then String backslash "n"
  else if n =? 13 then String backslash "r"
  else if n =? 9 then String backslash "t"
  else if n <? 32
       then String backslash "u00"
            ++ String (Uuid.hexdigit (n / 16)) (String (Uuid.hexdigit (n mod 16)) EmptyString)
       else String c EmptyString.

(** [json.dumps(s, ensure_ascii=False)] for a [str] *)
Definition json_str (s : string) : string :=
  quote ++ String.concat EmptyString (map json_escape (list_ascii_of_string s)) ++ quote.

(** [is_body_allowed_for_status_code] *)
Definition is_body_allowed_for_status_code (status : Z) : bool :=
  negb ((status <? 200)%Z || (status =? 204)%Z || (status =? 205)%Z || (status =? 304)%Z).

(** [http_exception_handler]; [JSONResponse.render] is [json.dumps] with
    separators [(",", ":")], encoded in UTF-8. *)
Definition http_exception_handler (status : Z) (detail : string) : HttpReply :=
  if negb (is_body_allowed_for_status_code status)
  then mkHttpReply status None []
  else mkHttpReply status (Some "application/json")
         (Py.encode_utf8 ("{" ++ json_str "detail" ++ ":" ++ json_str detail ++ "}")).

End Framework.

(* ===================================================================== *)
(** * [client/cli.py]: the tunnel client *)
(* ===================================================================== *)

Module Client.
Import Exc Wire.

(** The arguments of [client.request(method, url, params=, headers=,
    content=)]; an empty [params] or [headers] is passed as [None]. *)
Record LocalRequest := mkLocalRequest {
  lr_method : string;
  lr_url : string;
  lr_params : list (string * string);
  lr_headers : Py.dict string;
  lr_content : option (list byte);
}.

(** What the client reads of the httpx response: [resp.status_code],
    [resp.headers.items()], [resp.content]. *)
Record LocalResponse := mkLocalResponse {
  lresp_status_code : Z;
  lresp_headers : list (string * string);
  lresp_content : list byte;
}.

(** [s.rstrip("/")] *)
Fixpoint rstrip_slash (s : string) : string :=
  match s with
  | EmptyString => EmptyString
  | String c s' =>
      match rstrip_slash s' with
      | EmptyString => if Ascii.eqb c "/" then EmptyString else String c EmptyString
      | r => String c r
      end
  end.

(** The [params] list built from the [query] dict of lists. *)
Definition flatten_query (q : Py.dict (list string)) : list (string * string) :=
  flat_map (fun kv => map (fun item => (fst kv, item)) (snd kv)) q.

(** The dict returned by [forward_request_to_local]. *)
Definition response_dict (status : Z) (hdrs : Py.dict string) (body_b64 : option string)
  : Py.dict json :=
  [ ("status_code", JNum status);
    ("headers", JObj (map (fun kv => (fst kv, JStr (snd kv))) hdrs));
    ("body_b64", match body_b64 with Some b => JStr b | None => JNull end) ].

(** [base64.b64decode(s.encode("ascii"))]: a character above 127 raises
    UnicodeEncodeError, text that is not base64 raises binascii.Error. *)
Definition b64decode_ascii (s : string) : result (list byte) :=
  match Py.encode_ascii s with
  | None => Raise (Exn UnicodeEncodeError "'ascii' codec can't encode character")
  | Some data =>
      match Base64.a2b_base64 data with
      | Some bytes => Ok bytes
      | None => Raise (Exn BinasciiError "")
      end
  end.

Section Local.

(** The local HTTP server behind [httpx]: a response, or the exception
    that [client.request] raises. *)
Variable local_server : LocalRequest -> result LocalResponse.

(** [forward_request_to_local]: the message is the request frame as the
    server wrote it.  [except Exception] turns what [client.request]
    raises into a 502 answer, a CancelledError apart. *)
Definition forward_request_to_local (local_base : string) (request_msg : Payload)
  : result (Py.dict json) :=
  let method := method request_msg in
  let path := path request_msg in
  let query := query request_msg in
  let headers := headers request_msg in
  body ← match body_b64 request_msg with
         | Some b =>
             if Py.str_truthy b
             then bytes ← b64decode_ascii b; Ok (Some bytes)
             else Ok None
         | None => Ok None
         end;
  let local_base := rstrip_slash local_base in
  let url := local_base ++ path in
  let params := flatten_query query in
  let headers := Py.dict_pop headers "host" in
  let headers := Py.dict_pop headers "connection" in
  match local_server (mkLocalRequest method url params headers body) with
  | Raise exc =>
      if is_Exception exc
      then Ok (response_dict 502 [("content-type", "text/plain")]
                 (Some (Base64.b64encode (Py.encode_utf8 (exn_msg exc)))))
      else Raise exc
  | Ok resp =>
      let resp_headers := Py.dict_of_items (fun k => k) (lresp_headers resp) in
      let body_b64 := body_field (lresp_content resp) in
      Ok (response_dict (lresp_status_code resp) resp_headers body_b64)
  end.

(** [run_connector] on a frame of type [request]: the message written
    back ([json.dumps] on the client, [json.loads] on the server). *)
Definition on_request (local_base : string) (msg : Payload) : result json :=
  let correlation_id := correlation_id msg in
  resp_payload ← forward_request_to_local local_base msg;
  let resp_payload := Py.dict_set resp_payload "type" (JStr "response") in
  let resp_payload := Py.dict_set resp_payload "correlation_id" (JStr correlation_id) in
  Ok (JObj resp_payload).

End Local.


(** One of them. *)
Definition echo_server (rq : LocalRequest) : result LocalResponse :=
  Ok (mkLocalResponse 200 []
        (match lr_content rq with Some b => b | None => [] end)).

End Client.

(* ===================================================================== *)
(** * [api/v1/tunnels.py]: the WebSocket endpoint *)
(* ===================================================================== *)

Module Endpoint.
Import Exc Wire Registry.

(** What [await websocket.receive_json()] does when it returns control:
    a decoded value, or an exception (WebSocketDisconnect when the peer
    is gone, JSONDecodeError on text that is not JSON, ...). *)
Inductive received :=
  | RecvJson (message : json)
  | RecvRaises (e : exn).

(** The two [except] clauses of [tunnel_ws]; CancelledError is not an
    [Exception] and passes through both. *)
Definition on_exception (st : state) (now : float) (ws : WebSocket) (e : exn) : state :=
  if is_WebSocketDisconnect e then detach_websocket st now ws
  else
    match exn_class_of e with
    | CancelledError => st
    | _ => ws_close (detach_websocket st now ws) ws None
    end.

(** One turn of the [while True] loop of [tunnel_ws]; the flag tells
    whether the loop goes on. *)
Definition tunnel_ws_turn (st : state) (now : float) (ws : WebSocket) (r : received)
  : state * bool :=
  match r with
  | RecvJson message =>
      match handle_client_message st now ws message with
      | Ok st' => (st', true)
      | Raise e => (on_exception st now ws e, false)
      end
  | RecvRaises e => (on_exception st now ws e, false)
  end.

(** What the first stretch of [tunnel_ws] decides, reading the token of
    the query string and, under the lock, the two tables: the close code
    of a refusal, or the token with which the handler goes on. *)
Inductive checked :=
  | Refused (code : Z)
  | Passed (tok : string).

Definition tunnel_ws_check (st : state) (tok : option string) : checked :=
  match tok with
  | None => Refused 4401
  | Some tok =>
      if negb (Py.str_truthy tok) then Refused 4401
      else
        match _token_to_route st !! tok with
        | None => Refused 4403
        | Some r =>
            if negb (Py.str_truthy r) then Refused 4403
            else
              match lookup_route st r with
              | None => Refused 4404
              | Some _ => Passed tok
              end
        end
  end.

(** The second stretch, after [await websocket.accept()]:
    [registry.attach_websocket] stands before the [try], so what it raises
    leaves the handler.  The lock was released in between: the state is the
    one of that later moment, not the one that was checked. *)
Definition tunnel_ws_attach (st : state) (utcnow now : float) (tok : string)
    (ws : WebSocket) : result (state * bool) :=
  '(st', _) ← attach_websocket st utcnow now tok ws;
  Ok (st', true).

(** [tunnel_ws] before the loop when no other task runs between the check
    and the attach: the socket is refused, or accepted and attached. *)
Definition tunnel_ws_open (st : state) (utcnow now : float) (tok : option string)
    (ws : WebSocket) : result (state * bool) :=
  match tunnel_ws_check st tok with
  | Refused code => Ok (ws_close st ws (Some code), false)
  | Passed tok => tunnel_ws_attach st utcnow now tok ws
  end.

End Endpoint.

(* ===================================================================== *)
(** * Runs of the process *)
(* ===================================================================== *)

Module Run.
Import Exc Wire Registry.

(** One uninterrupted stretch of some task. *)
Inductive step : state -> state -> Prop :=
  | step_create st now random r descr st' o :
      create_tunnel st now random r descr = Ok (st', o) -> step st st'
  | step_delete st r :
      step st (fst (delete_tunnel st r))
  | step_attach_validate st utcnow tok st' :
      attach_validate st utcnow tok = Ok st' -> step st st'
  | step_attach_bind st now tok ws st' o :
      attach_bind st now tok ws = Ok (st', o) -> step st st'
  | step_detach st now ws :
      step st (detach_websocket st now ws)
  | step_send_begin st now random r payload st' tk :
      send_ingress_begin st now random r payload = Ok (st', tk) -> step st st'
  | step_send_write st tk st' :
      send_ingress_write st tk None = Ok st' -> step st st'
  | step_wait_for st fut elapsed st' res :
      wait_for st fut elapsed = Some (st', res) -> step st st'
  | step_send_finally st r cid :
      step st (send_ingress_finally st r cid)
  | step_handle st now ws message st' :
      handle_client_message st now ws message = Ok st' -> step st st'
  | step_ping st now o failure :
      step st (ping_one st now o failure)
  | step_ws_close st ws code :
      step st (ws_close st ws code).

(** The states that a registry started with [db] can be in. *)
Inductive reachable (db : option (list TunnelToken)) : state -> Prop :=
  | reachable_init : reachable db (init db)
  | reachable_step st st' : reachable db st -> step st st' -> reachable db st'.

(** The sessions of the registry: the Tunnel objects its dict holds. *)
Definition session (st : state) (o : nat) (t : Tunnel) : Prop :=
  o ∈ Py.dict_values (_route_to_tunnel st) ∧ tunnels st !! o = Some t.

(** A route with an attached session. *)
Definition attached (st : state) (r : string) : Prop :=
  ∃ o t ws, lookup_route st r = Some (o, t) ∧ connected t = true ∧ websocket t = Some ws.

(** A Tunnel object is attached or detached, nothing in between. *)
Definition coherent (t : Tunnel) : Prop :=
  (connected t = true ∧ websocket t ≠ None) ∨ (connected t = false ∧ websocket t = None).

(** What every stretch of code keeps: a route is entered once in the
    dict, under it stands a Tunnel object of that route, and every Tunnel
    object is coherent. *)
Record inv_of (ts : gmap nat Tunnel) (d : Py.dict nat) : Prop := mkInv {
  inv_nodup : NoDup (Py.dict_keys d);
  inv_route : ∀ r o, (r, o) ∈ d → ∃ t, ts !! o = Some t ∧ route t = r;
  inv_coherent : ∀ o t, ts !! o = Some t → coherent t;
}.

Definition inv (st : state) : Prop := inv_of (tunnels st) (_route_to_tunnel st).

End Run.

(* ===================================================================== *)
(** * A run of the service, for concrete checks *)
(* ===================================================================== *)

Module Scenario.
Import Exc Wire Registry TunnelService.

Definition state_of {A} (r : result (state * A)) (otherwise : state) : state :=
  match r with
  | Ok (st, _) => st
  | Raise _ => otherwise
  end.

(** Route [svc] is created on a registry without database ... *)
Definition random_token : N := 0x0123456789abcdef0123456789abcdef.
Definition svc_token : string := Uuid.uuid4_hex random_token.

Definition st_created : state :=
  state_of (create_tunnel (init None) 10%float random_token "svc" None) (init None).

(** ... and a client attaches with the token, as WebSocket 1. *)
Definition st_attached : state :=
  state_of (attach_websocket st_created 11%float 11%float svc_token 1%nat) st_created.

(** [POST /r/svc/echo?x=1&x=2] with three headers and a two-byte body. *)
Definition post_request : HttpRequest :=
  mkHttpRequest "POST"
    [("Host", "edge.example"); ("Accept", "text/plain"); ("TE", "trailers")]
    [("x", "1"); ("x", "2")]
    ["h"%byte; "i"%byte].

Definition random_cid : N := 0xfedcba9876543210fedcba9876543210.

Definition begun : state * progress :=
  forward_request_begin st_attached 12%float random_cid post_request "svc" "echo".

(** The request is in flight: its ticket, and the state it left. *)
Definition st_inflight : state := fst begun.

Definition ticket : Ticket :=
  match snd begun with
  | Suspended tk => tk
  | Finished _ => mkTicket 0%nat "" 0%nat (build_payload post_request "echo")
  end.

(** While the request is in flight: a second client attaches with the
    same token as WebSocket 2; or the first client goes away; or the
    write of the request frame fails; or the deadline elapses. *)
Definition st_reattached : state :=
  state_of (attach_websocket st_inflight 13%float 13%float svc_token 2%nat) st_inflight.

Definition st_detached : state := detach_websocket st_inflight 13%float 1%nat.

Definition write_error : exn := Exn RuntimeError "Cannot call send once a close message has been sent.".

Definition after_failed_write : state * progress :=
  forward_request_write st_inflight ticket (Some write_error).

(** Python's [int] on a [str] and on a [float], for the concrete checks:
    the responses in them carry an integer status. *)
Definition no_int_of_str (s : string) : result Z := Raise (Exn ValueError "invalid literal for int()").
Definition no_int_of_float (f : float) : result Z := Raise (Exn OverflowError "cannot convert float to integer").

Definition after_timeout : option (state * outcome) :=
  forward_request_finish no_int_of_str no_int_of_float st_inflight "svc" ticket true.

Definition st_timed_out : state :=
  match after_timeout with
  | Some (st, _) => st
  | None => st_inflight
  end.

(** The response that comes too late. *)
Definition late_response : json :=
  JObj [("type", JStr "response");
        ("correlation_id", JStr (tk_correlation_id ticket));
        ("status_code", JNum 200);
        ("headers", JObj []);
        ("body_b64", JNull)].

(** A frame that is not JSON arrives on the attached connection. *)
Definition malformed : Endpoint.received :=
  Endpoint.RecvRaises (Exn JSONDecodeError "Expecting value: line 1 column 1 (char 0)").

Definition after_malformed : state * bool :=
  Endpoint.tunnel_ws_turn st_attached 13%float 1%nat malformed.

End Scenario.

(* ===================================================================== *)
(** * [core/config.py]: [Settings.get_base_urls] *)
(* ===================================================================== *)

Module Config.

(** The three settings that [get_base_urls] reads. *)
Record Settings := mkSettings {
  api_base_url : string;
  ws_base_url : string;
  public_base_url : string;
}.

(** The dict with keys ["api"], ["ws"] and ["public"]. *)
Record BaseUrls := mkBaseUrls {
  api : string;
  ws : string;
  public : string;
}.

Definition get_base_urls (self : Settings) : BaseUrls :=
  let public_base :=
    if Py.str_truthy (public_base_url self) then public_base_url self
    else api_base_url self in
  mkBaseUrls (Client.rstrip_slash (api_base_url self))
             (Client.rstrip_slash (ws_base_url self))
             (Client.rstrip_slash public_base).

End Config.

(* ===================================================================== *)
(** * [services/tunnel_service.py]: creating and deleting tunnels *)
(* ===================================================================== *)

Module Management.
Import Exc Wire Registry.

(** [TunnelDBService.get_tunnel_token]: the first row with the route. *)
Definition get_tunnel_token (db : list TunnelToken) (r : string) : option TunnelToken :=
  List.find (fun row => String.eqb (tt_route row) r) db.

(** [TunnelDBService.create_tunnel_token]: the row is added with the
    column defaults ([is_active] true, no [last_connected_at]); [None]
    stands for the IntegrityError of the commit when the route or the
    token is already in the table (both columns are unique). The columns
    that no query of the services reads back are not kept. *)
Definition create_tunnel_token (db : list TunnelToken) (r tok : string)
  : option (list TunnelToken) :=
  if existsb (fun row => String.eqb (tt_route row) r || String.eqb (tt_token row) tok) db
  then None
  else Some (db ++ [mkTunnelToken r tok true None])%list.

(** [TunnelDBService.delete_tunnel_token]: the row found by
    [get_tunnel_token] is deleted. *)
Fixpoint delete_tunnel_token (db : list TunnelToken) (r : string)
  : list TunnelToken * bool :=
  match db with
  | [] => ([], false)
  | row :: db' =>
      if String.eqb (tt_route row) r then (db', true)
      else let '(rest, found) := delete_tunnel_token db' r in (row :: rest, found)
  end.

(** [CreateTunnelResponse] *)
Record CreateTunnelResponse := mkCreateTunnelResponse {
  ctr_route : string;
  ctr_token : string;
  ctr_public_url : string;
  ctr_ws_url : string;
}.

(** How [TunnelService.create_tunnel] and [TunnelService.delete_tunnel]
    end. *)
Inductive outcome (A : Type) :=
  | Returned (a : A)
  | RaisedHTTPException (status : Z) (detail : string)
  | Raised (e : exn)
  | RaisedIntegrityError.
Arguments Returned {A} a.
Arguments RaisedHTTPException {A} status detail.
Arguments Raised {A} e.
Arguments RaisedIntegrityError {A}.

(** The service works on the registry and on its own database session. *)
Record service := mkService {
  registry : state;
  table : list TunnelToken;
}.

(** [TunnelService.create_tunnel], run without interruption. *)
Definition create_tunnel (settings : Config.Settings) (sv : service) (now : float)
    (random : N) (r : string) (descr : option string)
  : service * outcome CreateTunnelResponse :=
  match get_tunnel_token (table sv) r with
  | Some _ => (sv, RaisedHTTPException 409 "Route already exists")
  | None =>
      match Registry.create_tunnel (registry sv) now random r descr with
      | Raise e => (sv, Raised e)
      | Ok (reg, o) =>
          let tok := Uuid.uuid4_hex random in
          match create_tunnel_token (table sv) r tok with
          | None => (mkService reg (table sv), RaisedIntegrityError)
          | Some db =>
              let urls := Config.get_base_urls settings in
              (mkService reg db,
               Returned (mkCreateTunnelResponse r tok
                           (Config.public urls ++ "/r/" ++ r)
                           (Config.ws urls ++ "/ws/tunnel?token=" ++ tok)))
          end
      end
  end.

(** [TunnelService.delete_tunnel], run without interruption; the
    response is [DeleteTunnelResponse(route, removed=True)]. *)
Definition delete_tunnel (sv : service) (r : string) : service * outcome (string * bool) :=
  let '(reg, removed) := Registry.delete_tunnel (registry sv) r in
  if negb removed then (mkService reg (table sv), RaisedHTTPException 404 "Not found")
  else (mkService reg (fst (delete_tunnel_token (table sv) r)), Returned (r, true)).

End Management.

(* ===================================================================== *)
(** * The background loops: pings on the server, reconnection on the client *)
(* ===================================================================== *)

Module Loops.
Import Exc Wire Registry.

(** The [for] loop of [ping_connected] over the list built under the
    lock: a CancelledError out of a write ends the round there, any other
    outcome goes on with the next tunnel. *)
Fixpoint ping_round (now : nat -> float) (failure : nat -> option exn) (l : list nat)
    (st : state) : state :=
  match l with
  | [] => st
  | o :: l' =>
      if ping_cancelled st o (failure o) then st
      else ping_round now failure l' (ping_one st (now o) o (failure o))
  end.



(** [run_connector] of the client: one turn of its [while True]. When the
    connection is made the delay is set back to 1; when the turn ends (the
    connection could not be made, or was lost) the client sleeps for the
    delay and doubles it, up to 30. *)
Definition connector_turn (reconnect_delay : Z) (connected : bool) : Z * Z :=
  let reconnect_delay := if connected then 1%Z else reconnect_delay in
  (reconnect_delay, Z.min (reconnect_delay * 2) 30).

(** The sleeps of a run of [run_connector], turn after turn. *)
Fixpoint connector_sleeps (reconnect_delay : Z) (turns : list bool) : list Z :=
  match turns with
  | [] => []
  | connected :: turns' =>
      let '(slept, next) := connector_turn reconnect_delay connected in
      slept :: connector_sleeps next turns'
  end.

End Loops.

(* ===================================================================== *)
(** * More that every run keeps *)
(* ===================================================================== *)

Module Invariants.
Import Exc Wire Registry.

(** Every token of the token index leads to a session of the registry
    that bears it. *)
Definition tokens_resolve (st : state) : Prop :=
  ∀ tok r, _token_to_route st !! tok = Some r →
    ∃ o t, (r, o) ∈ _route_to_tunnel st ∧ tunnels st !! o = Some t ∧ token t = tok.

(** What a frame of the client cannot touch in a Tunnel object. *)
Definition binding (t : Tunnel) : string * string * option WebSocket * bool * gmap string PendingRequest :=
  (route t, token t, websocket t, connected t, pending t).

(** The values of a key in a list of items, in order. *)
Definition values_of (k : string) (items : list (string * string)) : list string :=
  snd <$> List.filter (fun kv => String.eqb (fst kv) k) items.

(** What a key of the query dict holds once further values of it have
    been collected. *)
Definition collected (old : option (list string)) (vs : list string) : option (list string) :=
  match old, vs with
  | None, [] => None
  | _, _ => Some (default [] old ++ vs)%list
  end.

(** Every pending request has its future, and no two pending requests,
    of one session or of two, share a future. *)
Definition pending_futures (st : state) : Prop :=
  (∀ o t cid p, tunnels st !! o = Some t → pending t !! cid = Some p →
     is_Some (futures st !! future p))
  ∧ (∀ o1 t1 cid1 p1 o2 t2 cid2 p2,
       tunnels st !! o1 = Some t1 → pending t1 !! cid1 = Some p1 →
       tunnels st !! o2 = Some t2 → pending t2 !! cid2 = Some p2 →
       future p1 = future p2 → o1 = o2 ∧ cid1 = cid2).

(** [s.endswith("/")] and ["/" * n]. *)
Fixpoint ends_with_slash (s : string) : bool :=
  match s with
  | EmptyString => false
  | String c EmptyString => Ascii.eqb c "/"
  | String _ s' => ends_with_slash s'
  end.

Fixpoint slashes (n : nat) : string :=
  match n with
  | O => EmptyString
  | S n' => String "/" (slashes n')
  end.

End Invariants.

(* ===================================================================== *)
(** * More states of the run, for concrete checks *)
(* ===================================================================== *)

Module Cases.
Import Exc Wire Registry TunnelService Scenario.

(** The client answers the request in flight, then answers it again. *)
Definition first_response : json :=
  JObj [("status_code", JNum 200);
        ("headers", JObj [("content-type", JStr "text/plain")]);
        ("body_b64", JStr "aGk=");
        ("type", JStr "response");
        ("correlation_id", JStr (tk_correlation_id ticket))].

Definition second_response : json :=
  JObj [("status_code", JNum 500);
        ("type", JStr "response");
        ("correlation_id", JStr (tk_correlation_id ticket))].

Definition st_answered : state :=
  match handle_client_message st_inflight 14%float 1%nat first_response with
  | Ok st => st
  | Raise _ => st_inflight
  end.

(** A registry with a database in which the token of [svc] has been
    deactivated. *)
Definition st_revoked : state :=
  set_db st_created (Some [mkTunnelToken "svc" svc_token false None]).

(** Settings with trailing slashes and no public base URL, and the
    service over an empty registry and an empty table. *)
Definition settings : Config.Settings :=
  Config.mkSettings "http://api.example/" "ws://api.example//" "".

Definition sv_empty : Management.service := Management.mkService (init None) [].

(** A service restarted: its registry is empty, its table has [svc]. *)
Definition sv_restarted : Management.service :=
  Management.mkService (init None) [mkTunnelToken "svc" svc_token true None].

(** A service whose registry has [svc] and whose table does not. *)
Definition sv_orphan : Management.service := Management.mkService st_created [].

End Cases.

(* ===================================================================== *)
(** * Properties *)
(* ===================================================================== *)

Local Open Scope list_scope.

Section Base64_facts.
Import Base64.

Lemma in_range (k : nat) (n : N) : n < N.of_nat k -> In n (Py.range k).
Proof.
  intros Hn. unfold Py.range. apply in_map_iff. exists (N.to_nat n). split.
  - apply N2Nat.id.
  - apply in_seq. lia.
Qed.

Lemma forall_range1 (k : nat) (P : N -> bool) :
  forallb P (Py.range k) = true -> forall n, n < N.of_nat k -> P n = true.
Proof.
  intros H n Hn. rewrite forallb_forall in H. apply H. by apply in_range.
Qed.

Lemma forall_range2 (k : nat) (P : N -> N -> bool) :
  forallb (fun a => forallb (P a) (Py.range k)) (Py.range k) = true ->
  forall a b, a < N.of_nat k -> b < N.of_nat k -> P a b = true.
Proof.
  intros H a b Ha Hb.
  pose proof (forall_range1 k _ H a Ha) as H1. cbv beta in H1.
  exact (forall_range1 k _ H1 b Hb).
Qed.

Lemma to_N_lt (b : byte) : Byte.to_N b < 256.
Proof. pose proof (Byte.to_N_bounded b). lia. Qed.

Lemma byte_of_to_N (b : byte) : byte_of_N (Byte.to_N b) = b.
Proof.
  unfold byte_of_N. rewrite N.mod_small by apply to_N_lt.
  by rewrite Byte.of_to_N.
Qed.

End Base64_facts.

Section Base64_roundtrip.
Import Base64.

Lemma table_a2b_b2a (n : N) : n < 64 -> table_a2b (table_b2a n) = Some n.
Proof.
  intros Hn.
  pose proof (forall_range1 64
    (fun n => match table_a2b (table_b2a n) with
              | Some m => m =? n | None => false end)) as H.
  specialize (H ltac:(vm_compute; reflexivity) n Hn). cbv beta in H.
  destruct (table_a2b (table_b2a n)) as [m|]; [|done].
  apply N.eqb_eq in H. by subst.
Qed.

Lemma table_b2a_not_pad (n : N) : n < 64 -> Ascii.eqb (table_b2a n) BASE64_PAD = false.
Proof.
  intros Hn.
  pose proof (forall_range1 64
    (fun n => negb (Ascii.eqb (table_b2a n) BASE64_PAD))) as H.
  specialize (H ltac:(vm_compute; reflexivity) n Hn). cbv beta in H.
  by apply negb_true_iff in H.
Qed.

Lemma table_b2a_ascii (n : N) : n < 64 -> (N_of_ascii (table_b2a n) <? 128) = true.
Proof.
  exact (forall_range1 64 (fun n => N_of_ascii (table_b2a n) <? 128)
           ltac:(vm_compute; reflexivity) n).
Qed.

(** Facts on two bytes, by running through the 65536 pairs. *)
Ltac by_pairs a b P :=
  let H := fresh in
  pose proof (forall_range2 256 P ltac:(vm_compute; reflexivity)
                (Byte.to_N a) (Byte.to_N b) (to_N_lt a) (to_N_lt b)) as H;
  cbv beta in H.

Lemma digits_lt (a b : byte) :
  digit0 (Byte.to_N a) < 64 ∧ digit1 (Byte.to_N a) (Byte.to_N b) < 64 ∧
  digit2 (Byte.to_N a) (Byte.to_N b) < 64 ∧ digit3 (Byte.to_N a) < 64 ∧
  digit1 (Byte.to_N a) 0 < 64 ∧ digit2 (Byte.to_N a) 0 < 64.
Proof.
  by_pairs a b (fun a b => (digit0 a <? 64) && (digit1 a b <? 64) && (digit2 a b <? 64)
                           && (digit3 a <? 64) && (digit1 a 0 <? 64) && (digit2 a 0 <? 64)).
  repeat (apply andb_true_iff in H as [H ?]).
  repeat split; by apply N.ltb_lt.
Qed.

Lemma first_byte (a b : byte) :
  byte_of_N (N.lor (N.shiftl (digit0 (Byte.to_N a)) 2)
                   (N.shiftr (digit1 (Byte.to_N a) (Byte.to_N b)) 4)) = a
  ∧ N.land (digit1 (Byte.to_N a) (Byte.to_N b)) 15 = N.shiftr (Byte.to_N b) 4.
Proof.
  by_pairs a b (fun a b =>
    (N.lor (N.shiftl (digit0 a) 2) (N.shiftr (digit1 a b) 4) =? a)
    && (N.land (digit1 a b) 15 =? N.shiftr b 4)).
  apply andb_true_iff in H as [H1 H2].
  apply N.eqb_eq in H1, H2. rewrite H1, H2. split; [apply byte_of_to_N | done].
Qed.

Lemma second_byte (b c : byte) :
  byte_of_N (N.lor (N.shiftl (N.shiftr (Byte.to_N b) 4) 4)
                   (N.shiftr (digit2 (Byte.to_N b) (Byte.to_N c)) 2)) = b
  ∧ byte_of_N (N.lor (N.shiftl (N.land (digit2 (Byte.to_N b) (Byte.to_N c)) 3) 6)
                     (digit3 (Byte.to_N c))) = c.
Proof.
  by_pairs b c (fun b c =>
    (N.lor (N.shiftl (N.shiftr b 4) 4) (N.shiftr (digit2 b c) 2) =? b)
    && (N.lor (N.shiftl (N.land (digit2 b c) 3) 6) (digit3 c) =? c)).
  apply andb_true_iff in H as [H1 H2].
  apply N.eqb_eq in H1, H2. rewrite H1, H2. split; apply byte_of_to_N.
Qed.

Lemma last_bytes (a b : byte) :
  byte_of_N (N.lor (N.shiftl (digit0 (Byte.to_N a)) 2)
                   (N.shiftr (digit1 (Byte.to_N a) 0) 4)) = a
  ∧ byte_of_N (N.lor (N.shiftl (N.shiftr (Byte.to_N b) 4) 4)
                     (N.shiftr (digit2 (Byte.to_N b) 0) 2)) = b.
Proof.
  by_pairs a b (fun a b =>
    (N.lor (N.shiftl (digit0 a) 2) (N.shiftr (digit1 a 0) 4) =? a)
    && (N.lor (N.shiftl (N.shiftr b 4) 4) (N.shiftr (digit2 b 0) 2) =? b)).
  apply andb_true_iff in H as [H1 H2].
  apply N.eqb_eq in H1, H2. rewrite H1, H2. split; apply byte_of_to_N.
Qed.

(** One digit read by the loop of [a2b_base64]. *)
Lemma a2b_loop_digit (n : N) (data : string) (quad_pos leftchar pads : N) (out : list byte) :
  n < 64 ->
  a2b_loop (String (table_b2a n) data) quad_pos leftchar pads out =
    if quad_pos =? 0 then a2b_loop data 1 n 0 out
    else if quad_pos =? 1 then
      a2b_loop data 2 (N.land n 15) 0
        (out ++ [byte_of_N (N.lor (N.shiftl leftchar 2) (N.shiftr n 4))])
    else if quad_pos =? 2 then
      a2b_loop data 3 (N.land n 3) 0
        (out ++ [byte_of_N (N.lor (N.shiftl leftchar 4) (N.shiftr n 2))])
    else
      a2b_loop data 0 0 0 (out ++ [byte_of_N (N.lor (N.shiftl leftchar 6) n)]).
Proof.
  intros Hn. cbn [a2b_loop].
  by rewrite (table_b2a_not_pad n Hn), (table_a2b_b2a n Hn).
Qed.

(** Decoding what was encoded, from any point between two groups. *)
Lemma a2b_loop_b64encode (bs : list byte) : ∀ (lc pads : N) (out : list byte),
  a2b_loop (b64encode bs) 0 lc pads out = Some (out ++ bs).
Proof.
  induction bs as [bs IH] using (induction_ltof1 _ (@length byte)).
  unfold ltof in IH. intros lc pads out.
  destruct bs as [|a [|b [|c rest]]].
  - cbn. by rewrite app_nil_r.
  - cbn [b64encode].
    destruct (digits_lt a a) as (H0 & _ & _ & _ & H1 & _).
    rewrite (a2b_loop_digit _ _ _ _ _ _ H0). cbn [N.eqb].
    rewrite (a2b_loop_digit _ _ _ _ _ _ H1). cbn -[digit0 digit1 byte_of_N].
    by destruct (last_bytes a a) as [-> _].
  - cbn [b64encode].
    destruct (digits_lt a b) as (H0 & H1 & _).
    destruct (digits_lt b b) as (_ & _ & _ & _ & _ & H2).
    rewrite (a2b_loop_digit _ _ _ _ _ _ H0). cbn [N.eqb].
    rewrite (a2b_loop_digit _ _ _ _ _ _ H1). cbn [N.eqb Pos.eqb].
    rewrite (a2b_loop_digit _ _ _ _ _ _ H2). cbn -[digit0 digit1 digit2 byte_of_N].
    destruct (first_byte a b) as [-> ->].
    destruct (last_bytes b b) as [_ ->].
    by rewrite <- app_assoc.
  - cbn [b64encode].
    destruct (digits_lt a b) as (H0 & H1 & _).
    destruct (digits_lt b c) as (_ & _ & H2 & _).
    destruct (digits_lt c c) as (_ & _ & _ & H3 & _).
    rewrite (a2b_loop_digit _ _ _ _ _ _ H0). cbn [N.eqb].
    rewrite (a2b_loop_digit _ _ _ _ _ _ H1). cbn [N.eqb Pos.eqb].
    rewrite (a2b_loop_digit _ _ _ _ _ _ H2). cbn [N.eqb Pos.eqb].
    rewrite (a2b_loop_digit _ _ _ _ _ _ H3). cbn [N.eqb Pos.eqb].
    destruct (first_byte a b) as [-> ->].
    destruct (second_byte b c) as [-> ->].
    rewrite IH by (cbn; lia).
    by rewrite <- !app_assoc.
Qed.

Lemma encode_ascii_b64encode (bs : list byte) :
  Py.encode_ascii (b64encode bs) = Some (b64encode bs).
Proof.
  induction bs as [bs IH] using (induction_ltof1 _ (@length byte)).
  unfold ltof in IH.
  destruct bs as [|a [|b [|c rest]]]; [done| | |].
  - destruct (digits_lt a a) as (H0 & _ & _ & _ & H1 & _).
    cbn [b64encode Py.encode_ascii].
    by rewrite !table_b2a_ascii.
  - destruct (digits_lt a b) as (H0 & H1 & _).
    destruct (digits_lt b b) as (_ & _ & _ & _ & _ & H2).
    cbn [b64encode Py.encode_ascii].
    by rewrite !table_b2a_ascii.
  - destruct (digits_lt a b) as (H0 & H1 & _).
    destruct (digits_lt b c) as (_ & _ & H2 & _).
    destruct (digits_lt c c) as (_ & _ & _ & H3 & _).
    cbn [b64encode Py.encode_ascii].
    rewrite !table_b2a_ascii by done.
    by rewrite IH by (cbn; lia).
Qed.

(** [b64decode(b64encode(b)) == b] *)
Lemma b64decode_b64encode (bs : list byte) : b64decode_str (b64encode bs) = Some bs.
Proof.
  unfold b64decode_str, a2b_base64.
  by rewrite encode_ascii_b64encode, a2b_loop_b64encode.
Qed.

Lemma b64encode_truthy (bs : list byte) :
  Py.str_truthy (b64encode bs) = Py.bytes_truthy bs.
Proof. by destruct bs as [|a [|b [|c rest]]]. Qed.

End Base64_roundtrip.

(* --------------------------------------------------------------------- *)
(** ** Dicts *)

Section Dict_facts.
Context {V : Type}.
Implicit Types (d : Py.dict V) (k : string) (v : V).

Lemma dict_get_Some d k v : Py.dict_get d k = Some v → (k, v) ∈ d.
Proof.
  induction d as [|[k' v'] d IH]; [done|]. cbn.
  destruct (String.eqb_spec k' k) as [->|Hne].
  - intros [= ->]. left.
  - intros H. right. auto.
Qed.

Lemma dict_get_None d k : Py.dict_get d k = None ↔ k ∉ Py.dict_keys d.
Proof.
  induction d as [|[k' v'] d IH]; cbn.
  - split; [intros _; apply not_elem_of_nil | done].
  - destruct (String.eqb_spec k' k) as [->|Hne].
    + split; [done|]. intros H. exfalso. apply H. left.
    + rewrite IH. rewrite not_elem_of_cons.
      split; [intros ?; split; [congruence | done] | by intros [_ ?]].
Qed.

Lemma dict_get_NoDup d k v :
  NoDup (Py.dict_keys d) → (k, v) ∈ d → Py.dict_get d k = Some v.
Proof.
  induction d as [|[k' v'] d IH]; cbn.
  - intros _ H. by apply elem_of_nil in H.
  - intros Hnd H. apply NoDup_cons in Hnd as [Hk Hnd].
    apply elem_of_cons in H as [[= <- <-]|H].
    + by rewrite String.eqb_refl.
    + destruct (String.eqb_spec k' k) as [->|Hne]; [|auto].
      exfalso. apply Hk. unfold Py.dict_keys.
      change k with (fst (k, v)). by apply list_elem_of_fmap_2.
Qed.

Lemma dict_set_new d k v : Py.dict_get d k = None → Py.dict_set d k v = d ++ [(k, v)].
Proof.
  induction d as [|[k' v'] d IH]; [done|]. cbn.
  destruct (String.eqb_spec k' k) as [->|Hne]; [done|].
  intros H. by rewrite IH.
Qed.

Lemma dict_pop_sublist d k : sublist (Py.dict_pop d k) d.
Proof.
  induction d as [|[k' v'] d IH]; cbn; [done|].
  destruct (String.eqb k' k).
  - by apply sublist_cons.
  - by apply sublist_skip.
Qed.

Lemma dict_pop_get d k : NoDup (Py.dict_keys d) → Py.dict_get (Py.dict_pop d k) k = None.
Proof.
  induction d as [|[k' v'] d IH]; cbn; [done|].
  intros Hnd. apply NoDup_cons in Hnd as [Hk Hnd].
  destruct (String.eqb_spec k' k) as [->|Hne].
  - by apply dict_get_None.
  - cbn. destruct (String.eqb_spec k' k); [done|auto].
Qed.

End Dict_facts.

(* --------------------------------------------------------------------- *)
(** ** The registry *)

Section Registry_facts.
Import Exc Wire Registry Run.

Lemma lookup_route_Some st r o t :
  lookup_route st r = Some (o, t) →
  (r, o) ∈ _route_to_tunnel st ∧ tunnels st !! o = Some t.
Proof.
  unfold lookup_route.
  destruct (Py.dict_get (_route_to_tunnel st) r) as [o'|] eqn:Hd; [|done].
  destruct (tunnels st !! o') as [t'|] eqn:Ht; [|done].
  intros [= <- <-]. split; [by apply dict_get_Some | done].
Qed.

Lemma find_websocket_Some ts values ws o t :
  find_websocket ts values ws = Some (o, t) →
  o ∈ values ∧ ts !! o = Some t ∧ websocket t = Some ws.
Proof.
  induction values as [|o' values IH]; [done|]. cbn.
  destruct (ts !! o') as [t'|] eqn:Ht.
  - destruct (websocket_is t' ws) eqn:Hw.
    + intros [= <- <-]. split; [left|]. split; [done|].
      unfold websocket_is in Hw. destruct (websocket t') as [w|]; [|done].
      apply Nat.eqb_eq in Hw. by subst.
    + intros H. destruct (IH H) as (? & ? & ?). split; [by right | done].
  - intros H. destruct (IH H) as (? & ? & ?). split; [by right | done].
Qed.

Lemma tunnel_of_websocket_Some st ws o t :
  tunnel_of_websocket st ws = Some (o, t) →
  session st o t ∧ websocket t = Some ws.
Proof.
  intros H. apply find_websocket_Some in H as (? & ? & ?). by split.
Qed.

(** Assigning to attributes of a Tunnel object other than its route keeps
    the invariant, as long as the object stays coherent. *)
Lemma inv_of_update ts d o t t' :
  inv_of ts d → ts !! o = Some t → route t' = route t → coherent t' →
  inv_of (<[o := t']> ts) d.
Proof.
  intros [Hnd Hr Hc] Ho Hroute Hcoh. split; [done| |].
  - intros r o1 Hin. destruct (Hr r o1 Hin) as (t1 & Ht1 & Hrt1).
    destruct (decide (o = o1)) as [<-|Hne].
    + exists t'. rewrite lookup_insert_eq. split; [done|]. congruence.
    + exists t1. by rewrite lookup_insert_ne.
  - intros o1 t1. destruct (decide (o = o1)) as [<-|Hne].
    + rewrite lookup_insert_eq. by intros [= <-].
    + rewrite lookup_insert_ne by done. apply Hc.
Qed.

Lemma coherent_with_connection_None t now : coherent (with_connection t None false now).
Proof. by right. Qed.

Lemma coherent_with_connection_Some t ws now :
  coherent (with_connection t (Some ws) true now).
Proof. by left. Qed.

Lemma inv_init db : inv (init db).
Proof.
  split; cbn.
  - constructor.
  - intros r o H. by apply elem_of_nil in H.
  - intros o t H. by rewrite lookup_empty in H.
Qed.

Lemma inv_create st now random r descr st' o :
  inv st → create_tunnel st now random r descr = Ok (st', o) → inv st'.
Proof.
  intros [Hnd Hr Hc]. unfold create_tunnel.
  destruct (Py.dict_get (_route_to_tunnel st) r) eqn:Hget; [done|].
  intros [= <- <-]. unfold inv. cbn.
  rewrite dict_set_new by done.
  assert (tunnels st !! fresh (dom (tunnels st)) = None) as Hfresh.
  { apply not_elem_of_dom. apply is_fresh. }
  split.
  - unfold Py.dict_keys. rewrite fmap_app. cbn.
    apply NoDup_app. split; [done|]. split; [|apply NoDup_singleton].
    intros k Hk ->%list_elem_of_singleton. by apply dict_get_None in Hget.
  - intros r1 o1 [Hin|Hin]%elem_of_app.
    + destruct (Hr r1 o1 Hin) as (t1 & Ht1 & Hrt1). exists t1. split; [|done].
      rewrite lookup_insert_ne; [done|]. intros <-. congruence.
    + apply list_elem_of_singleton in Hin as [= -> ->].
      eexists. by rewrite lookup_insert_eq.
  - intros o1 t1. destruct (decide (fresh (dom (tunnels st)) = o1)) as [<-|Hne].
    + rewrite lookup_insert_eq. intros [= <-]. by right.
    + rewrite lookup_insert_ne by done. apply Hc.
Qed.

Lemma inv_delete st r : inv st → inv (fst (delete_tunnel st r)).
Proof.
  intros [Hnd Hr Hc]. unfold delete_tunnel.
  destruct (lookup_route st r) as [[o t]|]; [|done].
  assert (inv_of (tunnels st) (Py.dict_pop (_route_to_tunnel st) r)) as Hinv.
  { split; [| |done].
    - eapply sublist_NoDup; [exact Hnd|].
      unfold Py.dict_keys. apply fmap_sublist, dict_pop_sublist.
    - intros r1 o1 Hin. apply Hr.
      eapply sublist_subseteq; [apply dict_pop_sublist | done]. }
  cbn. by destruct (websocket t).
Qed.

Lemma coherent_with_pending t p : coherent t → coherent (with_pending t p).
Proof. done. Qed.

Lemma coherent_with_last_seen t now : coherent t → coherent (with_last_seen t now).
Proof. done. Qed.

Lemma inv_attach_validate st utcnow tok st' :
  inv st → attach_validate st utcnow tok = Ok st' → inv st'.
Proof.
  intros Hinv. unfold attach_validate.
  destruct (_db_service st) as [db|]; [|by intros [= <-]].
  destruct (validate_token db tok) as [row|]; [|done].
  destruct (tt_is_active row); [|done]. by intros [= <-].
Qed.

Lemma inv_attach_bind st now tok ws st' o :
  inv st → attach_bind st now tok ws = Ok (st', o) → inv st'.
Proof.
  intros Hinv. unfold attach_bind.
  destruct (_token_to_route st !! tok) as [r|]; [|done].
  destruct (Py.str_truthy r); [|done]. cbn.
  destruct (lookup_route st r) as [[o' t]|] eqn:Hl; [|done].
  intros [= <- <-]. apply lookup_route_Some in Hl as [_ Ht].
  unfold inv. cbn. eapply inv_of_update; [done..|].
  apply coherent_with_connection_Some.
Qed.

Lemma inv_detach st now ws : inv st → inv (detach_websocket st now ws).
Proof.
  intros Hinv. unfold detach_websocket.
  destruct (tunnel_of_websocket st ws) as [[o t]|] eqn:Hf; [|done].
  apply tunnel_of_websocket_Some in Hf as [[_ Ht] _].
  unfold inv. cbn. eapply inv_of_update; [done..|].
  apply coherent_with_connection_None.
Qed.

Lemma inv_send_begin st now random r payload st' tk :
  inv st → send_ingress_begin st now random r payload = Ok (st', tk) → inv st'.
Proof.
  intros Hinv. unfold send_ingress_begin.
  destruct (lookup_route st r) as [[o t]|] eqn:Hl; [|done].
  destruct (connected t); [|done]. cbn.
  destruct (websocket t) as [w|] eqn:Hw; [|done].
  intros [= <- <-]. apply lookup_route_Some in Hl as [_ Ht].
  unfold inv. cbn. eapply inv_of_update; [done..|].
  apply coherent_with_pending. by eapply inv_coherent.
Qed.

Lemma inv_wait_for st fut elapsed st' res :
  inv st → wait_for st fut elapsed = Some (st', res) → inv st'.
Proof.
  intros Hinv. unfold wait_for.
  destruct (futures st !! fut) as [[| |]|]; [|by intros [= <- <-]..|done].
  destruct elapsed; [|done]. by intros [= <- <-].
Qed.

Lemma inv_send_finally st r cid : inv st → inv (send_ingress_finally st r cid).
Proof.
  intros Hinv. unfold send_ingress_finally.
  destruct (lookup_route st r) as [[o t]|] eqn:Hl; [|done].
  apply lookup_route_Some in Hl as [_ Ht].
  unfold inv. cbn. eapply inv_of_update; [done..|].
  apply coherent_with_pending. by eapply inv_coherent.
Qed.

Lemma inv_handle st now ws message st' :
  inv st → handle_client_message st now ws message = Ok st' → inv st'.
Proof.
  intros Hinv. unfold handle_client_message.
  destruct (get message "type") as [msg_type|]; [|done]. cbn.
  destruct (eq_str msg_type "pong").
  { intros [= <-].
    destruct (tunnel_of_websocket st ws) as [[o t]|] eqn:Hf; [|done].
    apply tunnel_of_websocket_Some in Hf as [[_ Ht] _].
    unfold inv. cbn. eapply inv_of_update; [done..|].
    apply coherent_with_last_seen. by eapply inv_coherent. }
  destruct (eq_str msg_type "response"); [|by intros [= <-]]. cbn.
  destruct (get message "correlation_id") as [cid|]; [|done]. cbn.
  destruct (truthy cid); [|by intros [= <-]]. cbn.
  destruct (tunnel_of_websocket st ws) as [[o t]|]; [|by intros [= <-]].
  destruct cid; try (by intros [= <-]); try done.
  destruct (pending t !! s) as [p|]; [|by intros [= <-]].
  destruct (futures st !! future p) as [f|]; [|by intros [= <-]].
  destruct (done f); by intros [= <-].
Qed.

Lemma inv_ping_failed st now o : inv st → inv (ping_failed st now o).
Proof.
  intros Hinv. unfold ping_failed.
  destruct (tunnels st !! o) as [t|] eqn:Ht; [|done].
  unfold inv.
  destruct (websocket t); cbn;
    (eapply inv_of_update; [done..|apply coherent_with_connection_None]).
Qed.

Lemma inv_ping_one st now o failure : inv st → inv (ping_one st now o failure).
Proof.
  intros Hinv. unfold ping_one.
  destruct (tunnels st !! o) as [t|] eqn:Ht; [|done].
  destruct (websocket t), failure as [e|]; try destruct (is_Exception e);
    try done; by apply inv_ping_failed.
Qed.

(** Every stretch of code keeps the invariant. *)
Lemma inv_step st st' : inv st → step st st' → inv st'.
Proof.
  intros Hinv Hstep. destruct Hstep.
  - by eapply inv_create.
  - by apply inv_delete.
  - by eapply inv_attach_validate.
  - by eapply inv_attach_bind.
  - by apply inv_detach.
  - by eapply inv_send_begin.
  - cbn in *. by simplify_eq.
  - by eapply inv_wait_for.
  - by apply inv_send_finally.
  - by eapply inv_handle.
  - by apply inv_ping_one.
  - done.
Qed.

Lemma inv_reachable db st : reachable db st → inv st.
Proof.
  induction 1 as [|st st' _ IH Hstep]; [apply inv_init | by eapply inv_step].
Qed.

(** Under the invariant a route names one session, and two sessions of
    one route are one object. *)
Lemma inv_session_route st o t :
  inv st → session st o t → (route t, o) ∈ _route_to_tunnel st.
Proof.
  intros [Hnd Hr Hc] [Hin Ht].
  unfold Py.dict_values in Hin. apply list_elem_of_fmap in Hin as ([r o'] & -> & Hin).
  cbn in *. destruct (Hr r o' Hin) as (t' & Ht' & <-).
  assert (t' = t) as -> by congruence. done.
Qed.

Lemma inv_session_unique st o1 t1 o2 t2 :
  inv st → session st o1 t1 → session st o2 t2 → route t1 = route t2 → o1 = o2.
Proof.
  intros Hinv H1 H2 Heq.
  pose proof (inv_session_route _ _ _ Hinv H1) as Hin1.
  pose proof (inv_session_route _ _ _ Hinv H2) as Hin2.
  rewrite Heq in Hin1. destruct Hinv as [Hnd _ _].
  apply (dict_get_NoDup _ _ _ Hnd) in Hin1, Hin2. congruence.
Qed.

End Registry_facts.

(* --------------------------------------------------------------------- *)
(** ** Claims on the registry *)

Section Registry_claims.
Import Exc Wire Registry TunnelService Run Scenario.

(** C9. In every state that the process can reach, whatever the
    operations run so far (create, delete, attach, detach, the handling of
    a failed ping, and the others), a route is entered at most once in the
    registry, two sessions of the same route are the same session, and
    every session is either connected with a connection handle or not
    connected without one, never both. *)
Theorem sessions_unique_and_coherent db st :
  reachable db st →
  NoDup (Py.dict_keys (_route_to_tunnel st))
  ∧ (∀ o1 t1 o2 t2,
       session st o1 t1 → session st o2 t2 → route t1 = route t2 → o1 = o2)
  ∧ (∀ o t, session st o t →
       ((connected t = true ∧ websocket t ≠ None)
        ∨ (connected t = false ∧ websocket t = None))
       ∧ ¬ ((connected t = true ∧ websocket t ≠ None)
            ∧ (connected t = false ∧ websocket t = None))).
Proof.
  intros Hreach. pose proof (inv_reachable _ _ Hreach) as Hinv.
  split; [apply Hinv|]. split.
  - intros o1 t1 o2 t2. by apply inv_session_unique.
  - intros o t [_ Ht]. split.
    + by eapply inv_coherent.
    + intros [[H1 _] [H2 _]]. congruence.
Qed.

Lemma st_attached_reachable : reachable None st_attached.
Proof.
  eapply reachable_step.
  - eapply reachable_step; [apply reachable_init|].
    eapply (step_create _ 10%float random_token "svc" None st_created 0%nat).
    vm_compute. reflexivity.
  - eapply (step_attach_bind st_created 11%float svc_token 1%nat st_attached 0%nat).
    vm_compute. reflexivity.
Defined.

Lemma sessions_unique_and_coherent_witness :
  NoDup (Py.dict_keys (_route_to_tunnel st_attached))
  ∧ (∀ o1 t1 o2 t2,
       session st_attached o1 t1 → session st_attached o2 t2 →
       route t1 = route t2 → o1 = o2)
  ∧ (∀ o t, session st_attached o t →
       ((connected t = true ∧ websocket t ≠ None)
        ∨ (connected t = false ∧ websocket t = None))
       ∧ ¬ ((connected t = true ∧ websocket t ≠ None)
            ∧ (connected t = false ∧ websocket t = None))).
Proof.
  exact (sessions_unique_and_coherent None st_attached st_attached_reachable).
Defined.

(** The route [svc] was created and never attached: the forwarder raises
    HTTPException(502, "Tunnel not connected"), and what the public caller
    receives for it is a JSON object with media type application/json,
    not the plain text "Tunnel not connected". *)
Lemma not_connected_is_not_plain_text :
  forward_request_begin st_created 12%float random_cid post_request "svc" ""
    = (st_created, Finished (RaisedHTTPException 502 "Tunnel not connected"))
  ∧ Framework.reply_status (Framework.http_exception_handler 502 "Tunnel not connected")
    = 502%Z
  ∧ Framework.reply_media_type (Framework.http_exception_handler 502 "Tunnel not connected")
    = Some "application/json"
  ∧ Framework.reply_body (Framework.http_exception_handler 502 "Tunnel not connected")
    ≠ Py.encode_utf8 "Tunnel not connected".
Proof.
  split; [vm_compute; reflexivity|]. split; [reflexivity|]. split; [reflexivity|].
  vm_compute. discriminate.
Qed.

(** C7, as the code has it. When the route of an ingress request has no
    attached session (the route is absent, was never attached, or is
    detached), the call into the registry fails with ConnectionError
    "Tunnel not connected", and the forwarder ends with
    HTTPException(502, "Tunnel not connected"), leaving the state as it
    was; the public caller receives status 502 with media type
    application/json and the body [{"detail":"Tunnel not connected"}]. *)
Theorem not_connected_is_502 st now random request r rest_of_path :
  ¬ attached st r →
  send_ingress_begin st now random r (build_payload request rest_of_path)
    = Raise (Exn ConnectionError "Tunnel not connected")
  ∧ forward_request_begin st now random request r rest_of_path
    = (st, Finished (RaisedHTTPException 502 "Tunnel not connected"))
  ∧ (∀ status detail,
       forward_request_begin st now random request r rest_of_path
       = (st, Finished (RaisedHTTPException status detail)) →
       Framework.http_exception_handler status detail
       = Framework.mkHttpReply 502 (Some "application/json")
           (Py.encode_utf8
              ("{" ++ Framework.quote ++ "detail" ++ Framework.quote ++ ":"
               ++ Framework.quote ++ "Tunnel not connected" ++ Framework.quote ++ "}"))).
Proof.
  intros Hno.
  assert (send_ingress_begin st now random r (build_payload request rest_of_path)
          = Raise (Exn ConnectionError "Tunnel not connected")) as Hbegin.
  { unfold send_ingress_begin.
    destruct (lookup_route st r) as [[o t]|] eqn:Hl; [|done].
    destruct (connected t) eqn:Hc; [|done]. cbn.
    destruct (websocket t) as [ws|] eqn:Hw; [|done].
    exfalso. apply Hno. by exists o, t, ws. }
  split; [done|].
  assert (forward_request_begin st now random request r rest_of_path
          = (st, Finished (RaisedHTTPException 502 "Tunnel not connected"))) as Hfwd.
  { unfold forward_request_begin. by rewrite Hbegin. }
  split; [done|]. intros status detail. rewrite Hfwd. intros [= <- <-].
  vm_compute. reflexivity.
Qed.

Lemma not_connected_is_502_witness :
  send_ingress_begin st_created 12%float random_cid "svc" (build_payload post_request "")
    = Raise (Exn ConnectionError "Tunnel not connected")
  ∧ forward_request_begin st_created 12%float random_cid post_request "svc" ""
    = (st_created, Finished (RaisedHTTPException 502 "Tunnel not connected"))
  ∧ (∀ status detail,
       forward_request_begin st_created 12%float random_cid post_request "svc" ""
       = (st_created, Finished (RaisedHTTPException status detail)) →
       Framework.http_exception_handler status detail
       = Framework.mkHttpReply 502 (Some "application/json")
           (Py.encode_utf8
              ("{" ++ Framework.quote ++ "detail" ++ Framework.quote ++ ":"
               ++ Framework.quote ++ "Tunnel not connected" ++ Framework.quote ++ "}"))).
Proof.
  apply (not_connected_is_502 st_created 12%float random_cid post_request "svc" "").
  intros (o & t & ws & Hl & Hc & Hw).
  vm_compute in Hl. injection Hl as <- <-. discriminate Hc.
Defined.

Lemma length_string_of_list_ascii (l : list ascii) :
  String.length (string_of_list_ascii l) = length l.
Proof. induction l as [|c l IH]; cbn; [done | by rewrite IH]. Qed.

Lemma hexdigit_is_hexdigit (n : N) : n < 16 → Uuid.is_hexdigit (Uuid.hexdigit n) = true.
Proof.
  exact (forall_range1 16 (fun n => Uuid.is_hexdigit (Uuid.hexdigit n))
           ltac:(vm_compute; reflexivity) n).
Qed.

Lemma hex32_length (n : N) : String.length (Uuid.hex32 n) = 32%nat.
Proof.
  unfold Uuid.hex32. by rewrite length_string_of_list_ascii, length_map.
Qed.

Lemma hex32_hexdigits (n : N) :
  forallb Uuid.is_hexdigit (list_ascii_of_string (Uuid.hex32 n)) = true.
Proof.
  unfold Uuid.hex32. rewrite list_ascii_of_string_of_list_ascii.
  apply forallb_forall. intros c Hc. apply in_map_iff in Hc as (i & <- & _).
  apply hexdigit_is_hexdigit.
  pose proof (N.land_ones (N.shiftr n (4 * N.of_nat i)) 4) as Hland.
  change (N.ones 4) with 15 in Hland. rewrite Hland.
  by apply N.mod_lt.
Qed.

Lemma hexdigit_inj (a b : N) :
  a < 16 → b < 16 → Uuid.hexdigit a = Uuid.hexdigit b → a = b.
Proof.
  intros Ha Hb Heq.
  pose proof (forall_range2 16
    (fun a b => implb (Ascii.eqb (Uuid.hexdigit a) (Uuid.hexdigit b)) (a =? b))
    ltac:(vm_compute; reflexivity) a b Ha Hb) as H.
  cbv beta in H. rewrite Heq, Ascii.eqb_refl in H. cbn in H. by apply N.eqb_eq.
Qed.

Lemma nibble_lt (n : N) (i : nat) : N.land (N.shiftr n (4 * N.of_nat i)) 15 < 16.
Proof.
  pose proof (N.land_ones (N.shiftr n (4 * N.of_nat i)) 4) as Hland.
  change (N.ones 4) with 15 in Hland. rewrite Hland. by apply N.mod_lt.
Qed.

(** The 32 digits determine the 128 low bits. *)
Lemma hex32_bits (n m : N) :
  Uuid.hex32 n = Uuid.hex32 m → ∀ k, k < 128 → N.testbit n k = N.testbit m k.
Proof.
  unfold Uuid.hex32. intros Heq k Hk.
  apply (f_equal list_ascii_of_string) in Heq.
  rewrite !list_ascii_of_string_of_list_ascii in Heq.
  pose proof (ext_in_map Heq (N.to_nat (k / 4))) as Hi. cbv beta in Hi.
  assert (k / 4 < 32) as Hq by (apply N.Div0.div_lt_upper_bound; exact Hk).
  assert (In (N.to_nat (k / 4)) (rev (seq 0 32))) as Hin.
  { apply in_rev. rewrite rev_involutive. apply in_seq.
    revert Hq. generalize (k / 4). intros q Hq. lia. }
  specialize (Hi Hin). apply hexdigit_inj in Hi; [|apply nibble_lt..].
  rewrite N2Nat.id in Hi.
  apply (f_equal (fun x => N.testbit x (k mod 4))) in Hi.
  rewrite !N.land_spec, !N.shiftr_spec' in Hi.
  change 15 with (N.ones 4) in Hi.
  rewrite N.ones_spec_low in Hi by (apply N.mod_lt; lia).
  rewrite !andb_true_r in Hi.
  replace (k mod 4 + 4 * (k / 4)) with k in Hi; [done|].
  pose proof (N.Div0.div_mod k 4). lia.
Qed.

(** Outside the six bits of variant and version, the identifier has the
    bits of the draw. *)
Lemma uuid4_int_bits (random k : N) :
  k < 128 → k ≠ 62 → k ≠ 63 → ¬ (76 ≤ k ≤ 79) →
  N.testbit (Uuid.uuid4_int random) k = N.testbit random k.
Proof.
  intros Hk H62 H63 Hv.
  pose proof (forall_range1 128
    (fun k => (k =? 62) || (k =? 63) || ((76 <=? k) && (k <=? 79))
              || (negb (N.testbit (N.shiftl 0xc000 48) k)
                  && negb (N.testbit (N.shiftl 0x8000 48) k)
                  && negb (N.testbit (N.shiftl 0xf000 64) k)
                  && negb (N.testbit (N.shiftl 4 76) k)))
    ltac:(vm_compute; reflexivity) k Hk) as H.
  cbv beta in H.
  apply N.eqb_neq in H62, H63. rewrite H62, H63 in H.
  assert ((76 <=? k) && (k <=? 79) = false) as Hv'.
  { apply andb_false_iff. destruct (N.leb_spec 76 k); [|by left].
    right. apply N.leb_gt. lia. }
  rewrite Hv' in H. cbn [orb] in H.
  apply andb_true_iff in H as [H Hd]. apply andb_true_iff in H as [H Hc].
  apply andb_true_iff in H as [Ha Hb].
  apply negb_true_iff in Ha, Hb, Hc, Hd.
  unfold Uuid.uuid4_int. cbv zeta.
  rewrite N.lor_spec, N.ldiff_spec, N.lor_spec, N.ldiff_spec, Ha, Hb, Hc, Hd.
  cbn [negb orb]. rewrite !andb_true_r, !orb_false_r.
  by apply N.mod_pow2_bits_low.
Qed.

Lemma uuid4_hex_draw (random random' : N) :
  Uuid.uuid4_hex random' = Uuid.uuid4_hex random →
  ∀ k, k < 128 → k ≠ 62 → k ≠ 63 → ¬ (76 ≤ k ≤ 79) →
       N.testbit random' k = N.testbit random k.
Proof.
  intros Heq k Hk H62 H63 Hv.
  rewrite <- (uuid4_int_bits random' k), <- (uuid4_int_bits random k) by done.
  by apply hex32_bits.
Qed.
(** C10. For every public request that the forwarder hands to an
    attached session, the correlation id under which the call is pending,
    and the one on the request frame written to the connection, is the
    hex form of the identifier drawn for this call: 32 hexadecimal digits
    (128 bits), the same whatever the method, headers, query parameters,
    path or body of the request.  The id is minted from the draw: a draw
    that gives the same id agrees with the draw of this call on each of
    the 122 bits below 2^128 that variant and version do not fix, so two
    calls whose draws differ in one of those bits bear different ids. *)
Theorem correlation_id_is_minted st now random request r rest_of_path st' tk :
  forward_request_begin st now random request r rest_of_path = (st', Suspended tk) →
  tk_correlation_id tk = Uuid.uuid4_hex random
  ∧ (∀ st1 st2, send_ingress_write st1 tk None = Ok st2 →
       ∃ p, sent st2 = (tk_websocket tk, Request p) :: sent st1
            ∧ correlation_id p = Uuid.uuid4_hex random)
  ∧ String.length (Uuid.uuid4_hex random) = 32%nat
  ∧ forallb Uuid.is_hexdigit (list_ascii_of_string (Uuid.uuid4_hex random)) = true
  ∧ (∀ request' rest', ∃ st'' tk',
       forward_request_begin st now random request' r rest' = (st'', Suspended tk')
       ∧ tk_correlation_id tk' = tk_correlation_id tk)
  ∧ (∀ random' request' rest' st'' tk',
       forward_request_begin st now random' request' r rest' = (st'', Suspended tk') →
       tk_correlation_id tk' = tk_correlation_id tk →
       ∀ k, k < 128 → k ≠ 62 → k ≠ 63 → ¬ (76 ≤ k ≤ 79) →
            N.testbit random' k = N.testbit random k).
Proof.
  unfold forward_request_begin, send_ingress_begin.
  destruct (lookup_route st r) as [[o t]|] eqn:Hl; [|done].
  destruct (connected t) eqn:Hc; [|done]. cbn -[Uuid.uuid4_hex].
  destruct (websocket t) as [ws|] eqn:Hw; [|done].
  intros [= <- <-]. cbn -[Uuid.uuid4_hex]. split; [done|]. split.
  { intros st1 st2 [= <-]. eexists. split; [reflexivity | done]. }
  split; [apply hex32_length|]. split; [apply hex32_hexdigits|]. split.
  { intros request' rest'. do 2 eexists. split; reflexivity. }
  intros random' request' rest' st'' tk' [= <- <-]. cbn -[Uuid.uuid4_hex].
  apply uuid4_hex_draw.
Qed.

Lemma correlation_id_is_minted_witness :
  tk_correlation_id ticket = Uuid.uuid4_hex random_cid
  ∧ (∀ st1 st2, send_ingress_write st1 ticket None = Ok st2 →
       ∃ p, sent st2 = (tk_websocket ticket, Request p) :: sent st1
            ∧ correlation_id p = Uuid.uuid4_hex random_cid)
  ∧ String.length (Uuid.uuid4_hex random_cid) = 32%nat
  ∧ forallb Uuid.is_hexdigit (list_ascii_of_string (Uuid.uuid4_hex random_cid)) = true
  ∧ (∀ request' rest', ∃ st'' tk',
       forward_request_begin st_attached 12%float random_cid request' "svc" rest'
         = (st'', Suspended tk')
       ∧ tk_correlation_id tk' = tk_correlation_id ticket)
  ∧ (∀ random' request' rest' st'' tk',
       forward_request_begin st_attached 12%float random' request' "svc" rest'
         = (st'', Suspended tk') →
       tk_correlation_id tk' = tk_correlation_id ticket →
       ∀ k, k < 128 → k ≠ 62 → k ≠ 63 → ¬ (76 ≤ k ≤ 79) →
            N.testbit random' k = N.testbit random_cid k).
Proof.
  apply (correlation_id_is_minted st_attached 12%float random_cid post_request
           "svc" "echo" st_inflight ticket).
  vm_compute. reflexivity.
Defined.

Lemma attach_validate_Ok st utcnow tok st' :
  attach_validate st utcnow tok = Ok st' → ∃ db, st' = set_db st db.
Proof.
  unfold attach_validate.
  destruct (_db_service st) as [db|] eqn:Hdb.
  - destruct (validate_token db tok) as [row|]; [|done].
    destruct (tt_is_active row); [|done]. intros [= <-]. by eexists.
  - intros [= <-]. exists None. destruct st. cbn in *. by subst.
Qed.

(** C2, as the code has it. When a connection attaches to a route whose
    session is already attached, the new connection takes the place of the
    previous one in the session, which stays connected and gets a new
    last_seen; the registry does not close the previous connection, and
    the pending entries and their futures are left as they are. *)
Theorem reattach_replaces_handle st utcnow now tok ws st' o t ws_old :
  attach_websocket st utcnow now tok ws = Ok (st', o) →
  tunnels st !! o = Some t → connected t = true → websocket t = Some ws_old →
  (∃ t', tunnels st' !! o = Some t'
         ∧ websocket t' = Some ws ∧ connected t' = true ∧ last_seen t' = Some now
         ∧ pending t' = pending t)
  ∧ closed st' = closed st ∧ futures st' = futures st ∧ sent st' = sent st.
Proof.
  unfold attach_websocket. intros Hatt Ht _ _.
  destruct (attach_validate st utcnow tok) as [st1|] eqn:Hv; [|done].
  apply attach_validate_Ok in Hv as [db ->]. cbn in Hatt.
  unfold attach_bind in Hatt. cbn in Hatt.
  destruct (_token_to_route st !! tok) as [r|]; [|done].
  destruct (Py.str_truthy r); [|done]. cbn in Hatt.
  unfold lookup_route in Hatt. cbn in Hatt.
  destruct (Py.dict_get (_route_to_tunnel st) r) as [o'|]; [|done].
  destruct (tunnels st !! o') as [t1|] eqn:Ht1; [|done].
  injection Hatt as <- <-. cbn. rewrite lookup_insert_eq.
  assert (t1 = t) as -> by congruence.
  split; [|done]. by eexists.
Qed.

Lemma reattach_replaces_handle_witness :
  (∃ t', tunnels st_reattached !! 0%nat = Some t'
         ∧ websocket t' = Some 2%nat ∧ connected t' = true
         ∧ last_seen t' = Some 13%float
         ∧ pending t' = pending (default (mkTunnel "" "" None 0%float None None false ∅)
                                    (tunnels st_inflight !! 0%nat)))
  ∧ closed st_reattached = closed st_inflight
  ∧ futures st_reattached = futures st_inflight
  ∧ sent st_reattached = sent st_inflight.
Proof.
  apply (reattach_replaces_handle st_inflight 13%float 13%float svc_token 2%nat
           st_reattached 0%nat _ 1%nat); vm_compute; reflexivity.
Defined.

(** C2 as stated fails: after the second client has attached, the first
    connection has not been closed and the request in flight is still
    pending, its future unresolved. *)
Lemma reattach_neither_closes_nor_drains :
  attach_websocket st_inflight 13%float 13%float svc_token 2%nat = Ok (st_reattached, 0%nat)
  ∧ closed st_reattached = []
  ∧ futures st_reattached !! tk_future ticket = Some FPending
  ∧ (∃ t, get_tunnel st_reattached "svc" = Some t
          ∧ websocket t = Some 2%nat
          ∧ pending t !! tk_correlation_id ticket
            = Some (mkPendingRequest (tk_future ticket) 12%float)).
Proof.
  split; [vm_compute; reflexivity|]. split; [vm_compute; reflexivity|].
  split; [vm_compute; reflexivity|].
  eexists. split; [vm_compute; reflexivity|]. split; vm_compute; reflexivity.
Qed.

(** C3, as the code has it. When a connection is detached, by
    [detach_websocket] or by the receive loop that ends on a disconnect,
    the first session that holds it becomes not connected and loses its
    connection handle; its pending entries and their futures are left as
    they are. *)
Theorem detach_marks_disconnected st now ws o t msg :
  tunnel_of_websocket st ws = Some (o, t) →
  (∃ t', tunnels (detach_websocket st now ws) !! o = Some t'
         ∧ connected t' = false ∧ websocket t' = None ∧ last_seen t' = Some now
         ∧ pending t' = pending t)
  ∧ futures (detach_websocket st now ws) = futures st
  ∧ Endpoint.tunnel_ws_turn st now ws (Endpoint.RecvRaises (Exn WebSocketDisconnect msg))
    = (detach_websocket st now ws, false).
Proof.
  intros Hf. unfold Endpoint.tunnel_ws_turn, Endpoint.on_exception. cbn.
  unfold detach_websocket. rewrite Hf. cbn. rewrite lookup_insert_eq.
  split; [|done]. by eexists.
Qed.

Lemma detach_marks_disconnected_witness :
  (∃ t', tunnels st_detached !! 0%nat = Some t'
         ∧ connected t' = false ∧ websocket t' = None ∧ last_seen t' = Some 13%float
         ∧ pending t' = pending (default (mkTunnel "" "" None 0%float None None false ∅)
                                    (tunnels st_inflight !! 0%nat)))
  ∧ futures st_detached = futures st_inflight
  ∧ Endpoint.tunnel_ws_turn st_inflight 13%float 1%nat
      (Endpoint.RecvRaises (Exn WebSocketDisconnect "1006"))
    = (st_detached, false).
Proof.
  apply (detach_marks_disconnected st_inflight 13%float 1%nat 0%nat _ "1006").
  vm_compute. reflexivity.
Defined.

(** C3 as stated fails: after the detach the request in flight is still
    in the pending table and its future is unresolved. *)
Lemma detach_does_not_drain :
  futures st_detached !! tk_future ticket = Some FPending
  ∧ (∃ t, get_tunnel st_detached "svc" = Some t
          ∧ connected t = false
          ∧ pending t !! tk_correlation_id ticket
            = Some (mkPendingRequest (tk_future ticket) 12%float)).
Proof.
  split; [vm_compute; reflexivity|].
  eexists. split; [vm_compute; reflexivity|]. split; vm_compute; reflexivity.
Qed.

End Registry_claims.

(* --------------------------------------------------------------------- *)
(** ** Claims on the failures of a forwarded request *)

Section Failure_claims.
Import Exc Wire Registry TunnelService Run Scenario.

Variable int_of_str : string → result Z.
Variable int_of_float : float → result Z.

(** C4, as the code has it. When the write of the request frame fails,
    the exception of the write leaves [send_ingress_request] as it is (no
    TransportError is made of it), and the forwarder ends with status 502
    exactly when that exception is a ConnectionError; any other exception
    leaves the forwarder as it is. *)
Theorem failed_write_propagates st tk e :
  send_ingress_write st tk (Some e) = Raise e
  ∧ snd (forward_request_write st tk (Some e))
    = Finished (if is_ConnectionError e
                then RaisedHTTPException 502 "Tunnel not connected"
                else Raised e).
Proof. split; [done|]. cbn. unfold translate. by destruct (is_ConnectionError e). Qed.

(** C4 as stated fails: the write fails with a RuntimeError, the
    forwarder ends with that exception and not with status 502, and the
    pending entry of the call is still in the table. *)
Lemma failed_write_is_not_502 :
  after_failed_write = (st_inflight, Finished (Raised write_error))
  ∧ (∃ t, get_tunnel (fst after_failed_write) "svc" = Some t
          ∧ pending t !! tk_correlation_id ticket
            = Some (mkPendingRequest (tk_future ticket) 12%float)).
Proof.
  split; [vm_compute; reflexivity|].
  eexists. split; vm_compute; reflexivity.
Qed.

Lemma lookup_route_set_futures st fs r :
  lookup_route (set_futures st fs) r = lookup_route st r.
Proof. done. Qed.

Lemma lookup_route_update st r o t t' :
  lookup_route st r = Some (o, t) →
  lookup_route (set_tunnels st (<[o := t']> (tunnels st))) r = Some (o, t').
Proof.
  unfold lookup_route. cbn.
  destruct (Py.dict_get (_route_to_tunnel st) r) as [o1|]; [|done].
  destruct (tunnels st !! o1) as [t1|]; [|done].
  intros [= -> ->]. by rewrite lookup_insert_eq.
Qed.

(** A [response] message for a correlation id that the session of its
    connection does not hold changes nothing. *)
Lemma handle_response_unknown st now ws fields cid :
  Py.dict_get fields "type" = Some (JStr "response") →
  Py.dict_get fields "correlation_id" = Some (JStr cid) →
  (∀ o t, tunnel_of_websocket st ws = Some (o, t) → pending t !! cid = None) →
  handle_client_message st now ws (JObj fields) = Ok st.
Proof.
  intros Hty Hcid Hpend. unfold handle_client_message. cbn.
  rewrite Hty, Hcid. cbn.
  destruct (Py.str_truthy cid); [|done]. cbn.
  destruct (tunnel_of_websocket st ws) as [[o t]|] eqn:Hf; [|done].
  by rewrite (Hpend o t).
Qed.

(** C1, as the code has it. When the deadline of a forwarded request
    elapses before its future has a result, [forward_request] ends with
    the TimeoutError of [wait_for], which it does not catch: it builds no
    response of status 504. The future is cancelled, the pending entry of
    the correlation id is removed from the session of the route, and a
    response frame that arrives afterwards on that session's connection
    with this correlation id leaves the state as it is. *)
Theorem timeout_is_not_caught st r tk :
  futures st !! tk_future tk = Some FPending →
  ∃ st',
    forward_request_finish int_of_str int_of_float st r tk true
      = Some (st', Raised (Exn TimeoutError ""))
    ∧ futures st' !! tk_future tk = Some FCancelled
    ∧ (∀ o t, lookup_route st' r = Some (o, t) → pending t !! tk_correlation_id tk = None)
    ∧ (∀ now ws fields,
         Py.dict_get fields "type" = Some (JStr "response") →
         Py.dict_get fields "correlation_id" = Some (JStr (tk_correlation_id tk)) →
         tunnel_of_websocket st' ws = lookup_route st' r →
         handle_client_message st' now ws (JObj fields) = Ok st').
Proof.
  intros Hfut.
  unfold forward_request_finish, send_ingress_finish, wait_for. rewrite Hfut.
  eexists. split; [reflexivity|].
  set (st1 := set_futures st (<[tk_future tk := FCancelled]> (futures st))).
  assert (∀ o t, lookup_route (send_ingress_finally st1 r (tk_correlation_id tk)) r
                 = Some (o, t) → pending t !! tk_correlation_id tk = None) as Hgone.
  { intros o t. unfold send_ingress_finally.
    destruct (lookup_route st1 r) as [[o1 t1]|] eqn:Hl; [|by rewrite Hl].
    rewrite (lookup_route_update _ _ _ _ _ Hl). intros [= <- <-]. cbn.
    apply lookup_delete_eq. }
  split; [|split; [done|]].
  - unfold send_ingress_finally. destruct (lookup_route st1 r) as [[o1 t1]|]; cbn;
      apply lookup_insert_eq.
  - intros now ws fields Hty Hcid Hsame.
    apply (handle_response_unknown _ _ _ _ _ Hty Hcid).
    intros o t Hf. rewrite Hsame in Hf. by apply (Hgone o t).
Qed.

End Failure_claims.

Section Failure_run.
Import Exc Wire Registry TunnelService Run Scenario.

Lemma timeout_is_not_caught_witness :
  ∃ st',
    forward_request_finish no_int_of_str no_int_of_float st_inflight "svc" ticket true
      = Some (st', Raised (Exn TimeoutError ""))
    ∧ futures st' !! tk_future ticket = Some FCancelled
    ∧ (∀ o t, lookup_route st' "svc" = Some (o, t) →
              pending t !! tk_correlation_id ticket = None)
    ∧ (∀ now ws fields,
         Py.dict_get fields "type" = Some (JStr "response") →
         Py.dict_get fields "correlation_id" = Some (JStr (tk_correlation_id ticket)) →
         tunnel_of_websocket st' ws = lookup_route st' "svc" →
         handle_client_message st' now ws (JObj fields) = Ok st').
Proof.
  apply (timeout_is_not_caught no_int_of_str no_int_of_float st_inflight "svc" ticket).
  vm_compute. reflexivity.
Defined.

(** C1 as stated fails: the deadline elapses and the forwarder ends with
    an uncaught TimeoutError, not with a response or an error of status
    504; the late response is dropped all the same. *)
Lemma timeout_is_not_504 :
  after_timeout = Some (st_timed_out, Raised (Exn TimeoutError ""))
  ∧ (∀ detail, snd <$> after_timeout ≠ Some (RaisedHTTPException 504 detail))
  ∧ (∀ response, status_code response = 504%Z →
                 snd <$> after_timeout ≠ Some (Returned response))
  ∧ handle_client_message st_timed_out 50%float 1%nat late_response = Ok st_timed_out.
Proof.
  assert (after_timeout = Some (st_timed_out, Raised (Exn TimeoutError ""))) as Heq
    by (vm_compute; reflexivity).
  split; [done|]. rewrite Heq. split; [done|]. split; [done|].
  vm_compute. reflexivity.
Qed.

End Failure_run.

(* --------------------------------------------------------------------- *)
(** ** Claims on inbound frames and on request headers *)

Section Frame_claims.
Import Exc Wire Registry TunnelService Endpoint Scenario.

(** C6, as the code has it. On an attached connection, a frame that
    decodes to an object of unknown type, or to an object without a type
    field, is ignored: the whole state is as before (last_seen too) and
    the receive loop goes on. A frame that is not JSON ends the receive
    loop: the session of the connection is detached and the connection is
    closed. *)
Theorem unknown_ignored_malformed_detaches st now ws :
  (∀ fields,
     eq_str (default JNull (Py.dict_get fields "type")) "pong" = false →
     eq_str (default JNull (Py.dict_get fields "type")) "response" = false →
     tunnel_ws_turn st now ws (RecvJson (JObj fields)) = (st, true))
  ∧ (∀ msg,
       tunnel_ws_turn st now ws (RecvRaises (Exn JSONDecodeError msg))
       = (ws_close (detach_websocket st now ws) ws None, false)).
Proof.
  split; [|done].
  intros fields Hpong Hresp. unfold tunnel_ws_turn, handle_client_message. cbn.
  destruct (Py.dict_get fields "type") as [ty|]; cbn in *.
  - by rewrite Hpong, Hresp.
  - done.
Qed.

Lemma unknown_ignored_malformed_detaches_witness :
  tunnel_ws_turn st_attached 13%float 1%nat
    (RecvJson (JObj [("type", JStr "hello"); ("ts", JNum 5)])) = (st_attached, true)
  ∧ tunnel_ws_turn st_attached 13%float 1%nat (RecvJson (JObj [("ts", JNum 5)]))
    = (st_attached, true)
  ∧ tunnel_ws_turn st_attached 13%float 1%nat malformed
    = (ws_close (detach_websocket st_attached 13%float 1%nat) 1%nat None, false).
Proof.
  destruct (unknown_ignored_malformed_detaches st_attached 13%float 1%nat) as [H1 H2].
  split; [|split].
  - apply H1; reflexivity.
  - apply H1; reflexivity.
  - apply H2.
Defined.

(** C6 as stated fails: after a frame that is not JSON the receive loop
    has stopped, the session is no longer connected and the connection
    has been closed. *)
Lemma malformed_frame_disconnects :
  snd after_malformed = false
  ∧ closed (fst after_malformed) = [(1%nat, None)]
  ∧ (∃ t, get_tunnel (fst after_malformed) "svc" = Some t
          ∧ connected t = false ∧ websocket t = None)
  ∧ (∃ t, get_tunnel st_attached "svc" = Some t
          ∧ connected t = true ∧ websocket t = Some 1%nat).
Proof.
  split; [vm_compute; reflexivity|]. split; [vm_compute; reflexivity|].
  split; eexists; (split; [vm_compute; reflexivity|]); split; vm_compute; reflexivity.
Qed.

Lemma dict_set_keys {V} (d : Py.dict V) (k k' : string) (v : V) :
  k ∈ Py.dict_keys (Py.dict_set d k' v) ↔ k = k' ∨ k ∈ Py.dict_keys d.
Proof.
  unfold Py.dict_keys. induction d as [|[k1 v1] d IH]; cbn.
  - rewrite list_elem_of_singleton. split; [by left|].
    intros [H|H]; [done | by apply elem_of_nil in H].
  - destruct (String.eqb_spec k1 k') as [->|Hne]; cbn.
    + rewrite elem_of_cons. tauto.
    + rewrite !elem_of_cons, IH. tauto.
Qed.

Lemma fold_dict_set_keys {V} (f : string → string) (items : list (string * V)) (k : string) :
  ∀ d : Py.dict V,
    k ∈ Py.dict_keys (fold_left (λ d kv, Py.dict_set d (f (fst kv)) (snd kv)) items d)
    ↔ k ∈ Py.dict_keys d ∨ ∃ k0 v, (k0, v) ∈ items ∧ k = f k0.
Proof.
  induction items as [|[k1 v1] items IH]; intros d.
  - cbn. split; [by left|].
    intros [H|(k0 & v & H & _)]; [done|]. by apply elem_of_nil in H.
  - cbn [fold_left]. split.
    + intros H. apply IH in H as [H|(k0 & v & H & ->)].
      * apply dict_set_keys in H as [->|H]; [|by left].
        right. exists k1, v1. split; [left | done].
      * right. exists k0, v. split; [by right | done].
    + intros H. apply IH. destruct H as [H|(k0 & v & H & ->)].
      * left. apply dict_set_keys. by right.
      * apply elem_of_cons in H as [[= -> ->]|H].
        -- left. apply dict_set_keys. by left.
        -- right. by exists k0, v.
Qed.

Lemma dict_of_items_keys {V} (f : string → string) (items : list (string * V)) (k : string) :
  k ∈ Py.dict_keys (Py.dict_of_items f items) ↔ ∃ k0 v, (k0, v) ∈ items ∧ k = f k0.
Proof.
  unfold Py.dict_of_items. rewrite fold_dict_set_keys. split.
  - intros [H|H]; [by apply elem_of_nil in H | done].
  - intros H. by right.
Qed.

(** C5, as the code has it. For every public HTTP request that the
    forwarder translates into a request frame, the names of the headers
    map are the lower-cased names of the headers of the request, all of
    them: the forwarder strips no header, so host, connection and the
    hop-by-hop headers of the request are on the frame. *)
Theorem headers_lowercased_none_stripped request rest_of_path k :
  k ∈ Py.dict_keys (headers (build_payload request rest_of_path))
  ↔ ∃ name value, (name, value) ∈ req_headers request ∧ k = Py.lower name.
Proof. apply dict_of_items_keys. Qed.

(** C5 as stated fails: the Host and TE headers of the request are on
    the request frame that the registry writes. *)
Lemma host_and_te_are_forwarded :
  headers (build_payload post_request "echo")
    = [("host", "edge.example"); ("accept", "text/plain"); ("te", "trailers")]
  ∧ send_ingress_write st_inflight ticket None
    = Ok (ws_sent st_inflight 1%nat (Request (tk_payload ticket)))
  ∧ Py.dict_get (headers (tk_payload ticket)) "host" = Some "edge.example"
  ∧ Py.dict_get (headers (tk_payload ticket)) "te" = Some "trailers".
Proof. repeat split; vm_compute; reflexivity. Qed.

End Frame_claims.

(* --------------------------------------------------------------------- *)
(** ** The body of a request through the tunnel and back *)

Section Echo.
Import Exc Wire Registry TunnelService Client Scenario.

Variable int_of_str : string → result Z.
Variable int_of_float : float → result Z.
Variable local_server : LocalRequest → result LocalResponse.
Variable local_base : string.



Lemma b64decode_ascii_b64encode (B : list byte) :
  b64decode_ascii (Base64.b64encode B) = Ok B.
Proof.
  pose proof (b64decode_b64encode B) as Hdec.
  unfold Base64.b64decode_str in Hdec. unfold b64decode_ascii.
  destruct (Py.encode_ascii (Base64.b64encode B)) as [data|]; [|done].
  by rewrite Hdec.
Qed.

Lemma decode_body_field (B : list byte) :
  decode_body (match body_field B with Some b => JStr b | None => JNull end) = Ok B.
Proof.
  unfold body_field, decode_body. destruct (Py.bytes_truthy B) eqn:HB.
  - cbn [truthy]. rewrite b64encode_truthy, HB. cbn [negb].
    pose proof (b64decode_b64encode B) as Hdec. unfold Base64.b64decode_str in Hdec.
    destruct (Py.encode_ascii (Base64.b64encode B)) as [data|]; [|done].
    by rewrite Hdec.
  - destruct B; [done | discriminate].
Qed.




Lemma uuid4_hex_truthy (random : N) : Py.str_truthy (Uuid.uuid4_hex random) = true.
Proof.
  pose proof (hex32_length (Uuid.uuid4_int random)) as Hlen.
  unfold Uuid.uuid4_hex. by destruct (Uuid.hex32 _).
Qed.


End Echo.

Section Echo_run.
Import Exc Wire Registry TunnelService Client Scenario.



(** The whole exchange on the run of [Scenario]: the frame is written,
    the client answers, the message is handled, the call returns. *)
Example echo_run :
  ∃ st2 msg st3 st4 response,
    forward_request_write st_inflight ticket None = (st2, Suspended ticket)
    ∧ on_request echo_server "http://localhost:3000/" (tk_payload ticket) = Ok msg
    ∧ handle_client_message st2 14%float 1%nat msg = Ok st3
    ∧ forward_request_finish no_int_of_str no_int_of_float st3 "svc" ticket false
      = Some (st4, Returned response)
    ∧ response = mkResponse 200 [] ["h"%byte; "i"%byte]
    ∧ get_tunnel st4 "svc" = Some (mkTunnel "svc" svc_token None 10%float
                                     (Some 11%float) (Some 1%nat) true ∅).
Proof.
  do 5 eexists. split; [vm_compute; reflexivity|]. split; [vm_compute; reflexivity|].
  split; [vm_compute; reflexivity|]. split; [vm_compute; reflexivity|].
  split; vm_compute; reflexivity.
Qed.

End Echo_run.

(* --------------------------------------------------------------------- *)
(** ** Values computed by the model *)

Example b64encode_hi : Base64.b64encode ["h"%byte; "i"%byte] = "aGk=".
Proof. reflexivity. Qed.

Example b64encode_binary :
  Base64.b64encode [x00; xff; xfe; x10] = "AP/+EA==".
Proof. reflexivity. Qed.

Example b64decode_skips_newline :
  Base64.b64decode_str (String "a" (String "G" (String (ascii_of_N 10) "k=")))
  = Some ["h"%byte; "i"%byte].
Proof. reflexivity. Qed.

Example b64decode_padding_missing : Base64.b64decode_str "aGk" = None.
Proof. reflexivity. Qed.

Example lower_header : Py.lower "Content-Type" = "content-type".
Proof. reflexivity. Qed.

Example uuid4_hex_bits :
  Uuid.uuid4_hex 0 = "00000000000040008000000000000000"
  ∧ Uuid.uuid4_hex (2 ^ 128 - 1) = "ffffffffffff4fffbfffffffffffffff".
Proof. split; vm_compute; reflexivity. Qed.

Example query_multiplicity :
  TunnelService.collect_query [("a", "1"); ("a", "2"); ("b", "3")]
  = [("a", ["1"; "2"]); ("b", ["3"])].
Proof. reflexivity. Qed.

Example rstrip_slash_base : Client.rstrip_slash "http://localhost:3000//" = "http://localhost:3000".
Proof. reflexivity. Qed.

(* ===================================================================== *)
(** * Further properties of the code *)
(* ===================================================================== *)

(* --------------------------------------------------------------------- *)
(** ** Routes: create, look up, delete *)

Section Route_facts.
Import Exc Wire Registry TunnelService Run Scenario.

Lemma dict_get_set_eq {V} (d : Py.dict V) (k : string) (v : V) :
  Py.dict_get (Py.dict_set d k v) k = Some v.
Proof.
  induction d as [|[k' v'] d IH]; cbn.
  - by rewrite String.eqb_refl.
  - destruct (String.eqb_spec k' k) as [->|Hne]; cbn.
    + by rewrite String.eqb_refl.
    + destruct (String.eqb_spec k' k); [done | exact IH].
Qed.

Lemma dict_get_set_ne {V} (d : Py.dict V) (k k' : string) (v : V) :
  k ≠ k' → Py.dict_get (Py.dict_set d k' v) k = Py.dict_get d k.
Proof.
  intros Hne. induction d as [|[k1 v1] d IH]; cbn.
  - destruct (String.eqb_spec k' k); [congruence | done].
  - destruct (String.eqb_spec k1 k') as [->|Hne1]; cbn.
    + destruct (String.eqb_spec k' k); [congruence | done].
    + destruct (String.eqb_spec k1 k); [done | exact IH].
Qed.

Lemma dict_get_pop_ne {V} (d : Py.dict V) (k k' : string) :
  k ≠ k' → Py.dict_get (Py.dict_pop d k') k = Py.dict_get d k.
Proof.
  intros Hne. induction d as [|[k1 v1] d IH]; cbn; [done|].
  destruct (String.eqb_spec k1 k') as [->|Hne1]; cbn.
  - destruct (String.eqb_spec k' k); [congruence | done].
  - destruct (String.eqb_spec k1 k); [done | exact IH].
Qed.

(** Under the invariant the dict and the objects agree: a route of the
    dict has its Tunnel object. *)
Lemma lookup_route_None st r :
  inv st → lookup_route st r = None → Py.dict_get (_route_to_tunnel st) r = None.
Proof.
  intros [_ Hr _]. unfold lookup_route.
  destruct (Py.dict_get (_route_to_tunnel st) r) as [o|] eqn:Hd; [|done].
  destruct (Hr r o (dict_get_Some _ _ _ Hd)) as (t & -> & _). done.
Qed.

Lemma lookup_route_session st o t :
  inv st → session st o t → lookup_route st (route t) = Some (o, t).
Proof.
  intros Hinv Hs. pose proof (inv_session_route _ _ _ Hinv Hs) as Hin.
  destruct Hinv as [Hnd _ _]. destruct Hs as [_ Ht].
  unfold lookup_route. by rewrite (dict_get_NoDup _ _ _ Hnd Hin), Ht.
Qed.

(** X1. A route that is not in the registry can be created: afterwards
    it resolves to a session that is not connected, has no pending
    request and bears the token just minted, the token leads to the route,
    the other routes resolve as before, and a second creation of the same
    route is refused with ValueError. *)
Theorem create_then_get st now random r descr :
  inv st → Py.dict_get (_route_to_tunnel st) r = None →
  ∃ st' o,
    create_tunnel st now random r descr = Ok (st', o)
    ∧ get_tunnel st' r
      = Some (mkTunnel r (Uuid.uuid4_hex random) descr now None None false ∅)
    ∧ _token_to_route st' !! Uuid.uuid4_hex random = Some r
    ∧ (∀ r', r' ≠ r → get_tunnel st' r' = get_tunnel st r')
    ∧ (∀ now' random' descr',
         create_tunnel st' now' random' r descr'
         = Raise (Exn ValueError "Route already exists")).
Proof.
  intros Hinv Hnone. unfold create_tunnel. rewrite Hnone.
  do 2 eexists. split; [reflexivity|].
  unfold get_tunnel, lookup_route. cbn -[Uuid.uuid4_hex].
  rewrite dict_get_set_eq, !lookup_insert_eq. split; [done|]. split; [done|]. split.
  - intros r' Hne. rewrite dict_get_set_ne by done.
    destruct (Py.dict_get (_route_to_tunnel st) r') as [o'|] eqn:Hd; [|done].
    destruct Hinv as [_ Hr _].
    destruct (Hr r' o' (dict_get_Some _ _ _ Hd)) as (t & Ht & _).
    rewrite lookup_insert_ne; [done|].
    intros <-. pose proof (is_fresh (dom (tunnels st))) as Hf.
    apply Hf. apply elem_of_dom. by eexists.
  - done.
Qed.

Lemma create_then_get_witness :
  ∃ st' o,
    create_tunnel st_attached 20%float 5 "ghost" None = Ok (st', o)
    ∧ get_tunnel st' "ghost"
      = Some (mkTunnel "ghost" (Uuid.uuid4_hex 5) None 20%float None None false ∅)
    ∧ _token_to_route st' !! Uuid.uuid4_hex 5 = Some "ghost"
    ∧ (∀ r', r' ≠ "ghost" → get_tunnel st' r' = get_tunnel st_attached r')
    ∧ (∀ now' random' descr',
         create_tunnel st' now' random' "ghost" descr'
         = Raise (Exn ValueError "Route already exists")).
Proof.
  apply (create_then_get st_attached 20%float 5 "ghost" None).
  - exact (inv_reachable None st_attached st_attached_reachable).
  - vm_compute. reflexivity.
Defined.

(** X2. Deleting a route tells whether it was there; afterwards the route
    does not resolve, an ingress request to it fails with ConnectionError
    (not connected), the token of the deleted session can no longer
    attach, the connection the session held has been closed, and every
    other route resolves as before. *)
Theorem delete_then_gone st r :
  inv st →
  snd (delete_tunnel st r) = bool_decide (is_Some (get_tunnel st r))
  ∧ get_tunnel (fst (delete_tunnel st r)) r = None
  ∧ (∀ now random payload,
       send_ingress_begin (fst (delete_tunnel st r)) now random r payload
       = Raise (Exn ConnectionError "Tunnel not connected"))
  ∧ (∀ t now ws,
       get_tunnel st r = Some t →
       attach_bind (fst (delete_tunnel st r)) now (token t) ws
       = Raise (Exn PermissionError "Invalid token"))
  ∧ (∀ t, get_tunnel st r = Some t →
       closed (fst (delete_tunnel st r))
       = match websocket t with
         | Some ws => (ws, None) :: closed st
         | None => closed st
         end)
  ∧ (∀ r', r' ≠ r → get_tunnel (fst (delete_tunnel st r)) r' = get_tunnel st r').
Proof.
  intros Hinv.
  assert (lookup_route (fst (delete_tunnel st r)) r = None) as Hgone.
  { unfold delete_tunnel.
    destruct (lookup_route st r) as [[o t]|] eqn:Hl; [|done].
    assert (Py.dict_get (Py.dict_pop (_route_to_tunnel st) r) r = None) as Hd
      by (apply dict_pop_get, Hinv).
    unfold lookup_route. destruct (websocket t); cbn; by rewrite Hd. }
  split; [|split; [|split; [|split; [|split]]]].
  - unfold delete_tunnel, get_tunnel. by destruct (lookup_route st r) as [[o t]|].
  - unfold get_tunnel. by rewrite Hgone.
  - intros now random payload. unfold send_ingress_begin. by rewrite Hgone.
  - intros t now ws. unfold get_tunnel, delete_tunnel.
    destruct (lookup_route st r) as [[o t']|]; [|done]. intros [= ->].
    unfold attach_bind. destruct (websocket t); cbn; by rewrite lookup_delete_eq.
  - intros t. unfold get_tunnel, delete_tunnel.
    destruct (lookup_route st r) as [[o t']|]; [|done]. intros [= ->].
    by destruct (websocket t).
  - intros r' Hne. unfold get_tunnel, delete_tunnel.
    destruct (lookup_route st r) as [[o t]|]; [|done].
    unfold lookup_route. destruct (websocket t); cbn; by rewrite dict_get_pop_ne.
Qed.

Lemma delete_then_gone_witness :
  snd (delete_tunnel st_attached "svc") = bool_decide (is_Some (get_tunnel st_attached "svc"))
  ∧ get_tunnel (fst (delete_tunnel st_attached "svc")) "svc" = None
  ∧ (∀ now random payload,
       send_ingress_begin (fst (delete_tunnel st_attached "svc")) now random "svc" payload
       = Raise (Exn ConnectionError "Tunnel not connected"))
  ∧ (∀ t now ws,
       get_tunnel st_attached "svc" = Some t →
       attach_bind (fst (delete_tunnel st_attached "svc")) now (token t) ws
       = Raise (Exn PermissionError "Invalid token"))
  ∧ (∀ t, get_tunnel st_attached "svc" = Some t →
       closed (fst (delete_tunnel st_attached "svc"))
       = match websocket t with
         | Some ws => (ws, None) :: closed st_attached
         | None => closed st_attached
         end)
  ∧ (∀ r', r' ≠ "svc" →
       get_tunnel (fst (delete_tunnel st_attached "svc")) r' = get_tunnel st_attached r').
Proof.
  apply (delete_then_gone st_attached "svc").
  exact (inv_reachable None st_attached st_attached_reachable).
Defined.

End Route_facts.
(* --------------------------------------------------------------------- *)
(** ** Connections: attach, detach, and what client frames can do *)

Section Connection_facts.
Import Exc Wire Registry TunnelService Run Scenario Invariants Cases.



(** X4. After the connection of a session has been detached, the route
    of the session is not attached: an ingress request to it ends at once
    with status 502, "Tunnel not connected". *)
Theorem detach_then_not_connected st now ws o t :
  inv st → tunnel_of_websocket st ws = Some (o, t) →
  ¬ attached (detach_websocket st now ws) (route t)
  ∧ (∀ now' random request rest_of_path,
       forward_request_begin (detach_websocket st now ws) now' random request
         (route t) rest_of_path
       = (detach_websocket st now ws,
          Finished (RaisedHTTPException 502 "Tunnel not connected"))).
Proof.
  intros Hinv Hf.
  pose proof (tunnel_of_websocket_Some _ _ _ _ Hf) as [Hs _].
  pose proof (lookup_route_session _ _ _ Hinv Hs) as Hl.
  assert (¬ attached (detach_websocket st now ws) (route t)) as Hno.
  { unfold detach_websocket. rewrite Hf.
    intros (o' & t' & ws' & Hl' & Hc & _).
    rewrite (lookup_route_update st (route t) o t _ Hl) in Hl'.
    by injection Hl' as <- <-. }
  split; [done|]. intros now' random request rest_of_path.
  unfold forward_request_begin, send_ingress_begin.
  destruct (lookup_route (detach_websocket st now ws) (route t)) as [[o' t']|] eqn:Hl';
    [|done].
  destruct (connected t') eqn:Hc; [|done]. cbn.
  destruct (websocket t') as [ws'|] eqn:Hw; [|done].
  exfalso. apply Hno. by exists o', t', ws'.
Qed.

Lemma st_inflight_inv : inv st_inflight.
Proof.
  apply (inv_send_begin st_attached 12%float random_cid "svc"
           (build_payload post_request "echo") st_inflight ticket).
  - exact (inv_reachable None st_attached st_attached_reachable).
  - vm_compute. reflexivity.
Defined.

Lemma detach_then_not_connected_witness :
  ∃ t, tunnel_of_websocket st_inflight 1%nat = Some (0%nat, t)
    ∧ ¬ attached (detach_websocket st_inflight 13%float 1%nat) (route t)
    ∧ (∀ now' random request rest_of_path,
         forward_request_begin (detach_websocket st_inflight 13%float 1%nat) now' random
           request (route t) rest_of_path
         = (detach_websocket st_inflight 13%float 1%nat,
            Finished (RaisedHTTPException 502 "Tunnel not connected"))).
Proof.
  eexists. split; [vm_compute; reflexivity|].
  apply (detach_then_not_connected st_inflight 13%float 1%nat 0%nat _ st_inflight_inv).
  vm_compute. reflexivity.
Defined.

Lemma done_future_step st st' f fs :
  step st st' → futures st !! f = Some fs → done fs = true →
  futures st' !! f = Some fs.
Proof.
  intros Hstep Hf Hdone. destruct Hstep as
    [st now random r descr st' o H | st r | st utcnow tok st' H | st now tok ws st' o H
    | st now ws | st now random r payload st' tk H | st tk st' H
    | st fut elapsed st' res H | st r cid | st now ws message st' H
    | st now o failure | st ws code].
  - unfold create_tunnel in H.
    destruct (Py.dict_get (_route_to_tunnel st) r); [done|]. by injection H as <- <-.
  - unfold delete_tunnel. destruct (lookup_route st r) as [[o t]|]; [|done].
    by destruct (websocket t).
  - apply attach_validate_Ok in H as [db ->]. done.
  - unfold attach_bind in H.
    destruct (_token_to_route st !! tok) as [r|]; [|done].
    destruct (Py.str_truthy r); [|done]. cbn in H.
    destruct (lookup_route st r) as [[o' t]|]; [|done]. by injection H as <- <-.
  - unfold detach_websocket. by destruct (tunnel_of_websocket st ws) as [[o t]|].
  - unfold send_ingress_begin in H.
    destruct (lookup_route st r) as [[o t]|]; [|done].
    destruct (connected t); [|done]. cbn in H.
    destruct (websocket t); [|done]. injection H as <- <-. cbn.
    rewrite lookup_insert_ne; [done|].
    intros Heq. pose proof (is_fresh (dom (futures st))) as Hfresh.
    apply Hfresh. rewrite Heq. apply elem_of_dom. by eexists.
  - cbn in H. by injection H as <-.
  - unfold wait_for in H.
    destruct (futures st !! fut) as [[| |]|] eqn:Hfut; try done.
    + destruct elapsed; [|done]. injection H as <- <-. cbn.
      rewrite lookup_insert_ne; [done|]. intros ->.
      rewrite Hfut in Hf. injection Hf as <-. done.
    + by injection H as <- <-.
    + by injection H as <- <-.
  - unfold send_ingress_finally. by destruct (lookup_route st r) as [[o t]|].
  - unfold handle_client_message in H.
    destruct (get message "type") as [msg_type|]; [|done]. cbn in H.
    destruct (eq_str msg_type "pong").
    { injection H as <-. by destruct (tunnel_of_websocket st ws) as [[o t]|]. }
    destruct (eq_str msg_type "response"); [|by injection H as <-]. cbn in H.
    destruct (get message "correlation_id") as [cid|]; [|done]. cbn in H.
    destruct (truthy cid); [|by injection H as <-]. cbn in H.
    destruct (tunnel_of_websocket st ws) as [[o t]|]; [|by injection H as <-].
    destruct cid; try (by injection H as <-); try done.
    destruct (pending t !! s) as [p|]; [|by injection H as <-].
    destruct (futures st !! future p) as [f0|] eqn:Hf0; [|by injection H as <-].
    destruct (done f0) eqn:Hd0; [by injection H as <-|].
    injection H as <-. cbn. rewrite lookup_insert_ne; [done|].
    intros Heq. rewrite Heq in Hf0. congruence.
  - unfold ping_one. destruct (tunnels st !! o) as [t|] eqn:Ht; [|done].
    unfold ping_failed. rewrite Ht.
    destruct (websocket t), failure as [e|]; try destruct (is_Exception e); done.
  - done.
Qed.

(** X5. A future that has a result, or is cancelled, stays as it is
    through every stretch of code of every task, however many follow: a
    waiting call is resolved at most once, and a later response, timeout
    or detach cannot change what it was resolved with. *)
Theorem resolved_at_most_once st st' f fs :
  rtc step st st' → futures st !! f = Some fs → done fs = true →
  futures st' !! f = Some fs.
Proof.
  induction 1 as [|st st1 st' Hstep _ IH]; [done|].
  intros Hf Hdone. apply IH; [|done]. by eapply done_future_step.
Qed.

Lemma resolved_at_most_once_witness :
  futures (send_ingress_finally st_answered "svc" (tk_correlation_id ticket))
    !! tk_future ticket = Some (FResult first_response).
Proof.
  apply (resolved_at_most_once st_answered
           (send_ingress_finally st_answered "svc" (tk_correlation_id ticket))
           (tk_future ticket) (FResult first_response)).
  - apply (rtc_l _ _ st_answered).
    + apply (step_handle st_answered 15%float 1%nat second_response st_answered).
      vm_compute. reflexivity.
    + eapply rtc_l; [apply step_send_finally | apply rtc_refl].
  - vm_compute. reflexivity.
  - reflexivity.
Defined.

Lemma handle_keeps_bindings st now ws message st' :
  handle_client_message st now ws message = Ok st' →
  _route_to_tunnel st' = _route_to_tunnel st
  ∧ _token_to_route st' = _token_to_route st
  ∧ _db_service st' = _db_service st
  ∧ closed st' = closed st ∧ sent st' = sent st
  ∧ (∀ o, binding <$> tunnels st' !! o = binding <$> tunnels st !! o).
Proof.
  unfold handle_client_message.
  destruct (get message "type") as [msg_type|]; [|done]. cbn.
  destruct (eq_str msg_type "pong").
  { intros [= <-].
    destruct (tunnel_of_websocket st ws) as [[o t]|] eqn:Hf; [|done].
    apply tunnel_of_websocket_Some in Hf as [[_ Ht] _]. cbn.
    repeat (split; [done|]). intros o'.
    destruct (decide (o = o')) as [<-|Hne].
    - by rewrite lookup_insert_eq, Ht.
    - by rewrite lookup_insert_ne. }
  destruct (eq_str msg_type "response"); [|by intros [= <-]]. cbn.
  destruct (get message "correlation_id") as [cid|]; [|done]. cbn.
  destruct (truthy cid); [|by intros [= <-]]. cbn.
  destruct (tunnel_of_websocket st ws) as [[o t]|]; [|by intros [= <-]].
  destruct cid; try (by intros [= <-]); try done.
  destruct (pending t !! s) as [p|]; [|by intros [= <-]].
  destruct (futures st !! future p) as [f|]; [|by intros [= <-]].
  destruct (done f); by intros [= <-].
Qed.

(** X6. Whatever message a client sends, handling it leaves the two
    indexes of the registry, the database and the record of closed and
    written connections as they are, and in every Tunnel object the route,
    the token, the connection, the connected flag and the pending table;
    and a future is as before, unless it had no result yet and now has
    this message as its result. So a client frame can only set last_seen
    or resolve a waiting call with itself. *)
Theorem client_frame_keeps_bindings st now ws message st' :
  handle_client_message st now ws message = Ok st' →
  _route_to_tunnel st' = _route_to_tunnel st
  ∧ _token_to_route st' = _token_to_route st
  ∧ _db_service st' = _db_service st
  ∧ closed st' = closed st ∧ sent st' = sent st
  ∧ (∀ o, binding <$> tunnels st' !! o = binding <$> tunnels st !! o)
  ∧ (∀ f, futures st' !! f = futures st !! f
          ∨ (futures st !! f = Some FPending
             ∧ futures st' !! f = Some (FResult message))).
Proof.
  intros H.
  destruct (handle_keeps_bindings _ _ _ _ _ H) as (H1 & H2 & H3 & H4 & H5 & H6).
  repeat (split; [done|]). intros f. revert H. unfold handle_client_message.
  destruct (get message "type") as [msg_type|]; [|done]. cbn.
  destruct (eq_str msg_type "pong").
  { intros [= <-]. left. by destruct (tunnel_of_websocket st ws) as [[o t]|]. }
  destruct (eq_str msg_type "response"); [|intros [= <-]; by left]. cbn.
  destruct (get message "correlation_id") as [cid|]; [|done]. cbn.
  destruct (truthy cid); [|intros [= <-]; by left]. cbn.
  destruct (tunnel_of_websocket st ws) as [[o t]|]; [|intros [= <-]; by left].
  destruct cid; try (intros [= <-]; by left); try done.
  destruct (pending t !! s) as [p|]; [|intros [= <-]; by left].
  destruct (futures st !! future p) as [f0|] eqn:Hf0; [|intros [= <-]; by left].
  destruct f0; cbn; try (intros [= <-]; by left).
  intros [= <-]. cbn. destruct (decide (future p = f)) as [<-|Hne].
  - right. by rewrite lookup_insert_eq.
  - left. by rewrite lookup_insert_ne.
Qed.

Lemma client_frame_keeps_bindings_witness :
  _route_to_tunnel st_answered = _route_to_tunnel st_inflight
  ∧ _token_to_route st_answered = _token_to_route st_inflight
  ∧ _db_service st_answered = _db_service st_inflight
  ∧ closed st_answered = closed st_inflight ∧ sent st_answered = sent st_inflight
  ∧ (∀ o, binding <$> tunnels st_answered !! o = binding <$> tunnels st_inflight !! o)
  ∧ (∀ f, futures st_answered !! f = futures st_inflight !! f
          ∨ (futures st_inflight !! f = Some FPending
             ∧ futures st_answered !! f = Some (FResult first_response))).
Proof.
  apply (client_frame_keeps_bindings st_inflight 14%float 1%nat first_response st_answered).
  vm_compute. reflexivity.
Defined.

(** X7. A message that arrives on a connection which no session of the
    registry holds (one that was replaced by a newer connection, detached,
    or whose route was deleted) changes nothing, whatever it says and
    whichever correlation id it names: nothing is raised and the state is
    as before. *)
Theorem stale_connection_is_ignored st now ws fields :
  tunnel_of_websocket st ws = None →
  handle_client_message st now ws (JObj fields) = Ok st.
Proof.
  intros Hf. unfold handle_client_message, get, get_default.
  cbn [mbind result_bind].
  destruct (eq_str _ "pong"); [by rewrite Hf|].
  destruct (eq_str _ "response"); [|done]. cbn [negb mbind result_bind].
  destruct (truthy _); [|done]. cbn [negb]. by rewrite Hf.
Qed.

Lemma stale_connection_is_ignored_witness :
  handle_client_message st_reattached 14%float 1%nat first_response = Ok st_reattached.
Proof.
  apply (stale_connection_is_ignored st_reattached 14%float 1%nat).
  vm_compute. reflexivity.
Defined.

End Connection_facts.
(* --------------------------------------------------------------------- *)
(** ** Tokens *)

Section Token_facts.
Import Exc Wire Registry TunnelService Endpoint Run Scenario Invariants Cases.

Lemma elem_of_dict_pop_ne {V} (d : Py.dict V) (k k' : string) (v : V) :
  (k, v) ∈ d → k ≠ k' → (k, v) ∈ Py.dict_pop d k'.
Proof.
  intros Hin Hne. induction d as [|[k1 v1] d IH]; [done|]. cbn.
  apply elem_of_cons in Hin as [[= <- <-]|Hin].
  - destruct (String.eqb_spec k k'); [done | left].
  - destruct (String.eqb k1 k'); [done | right; auto].
Qed.

Lemma tokens_update (ts : gmap nat Tunnel) (d : Py.dict nat) (m : gmap string string)
    (o : nat) (t t' : Tunnel) :
  (∀ tok r, m !! tok = Some r →
     ∃ o0 t0, (r, o0) ∈ d ∧ ts !! o0 = Some t0 ∧ token t0 = tok) →
  ts !! o = Some t → token t' = token t →
  ∀ tok r, m !! tok = Some r →
    ∃ o0 t0, (r, o0) ∈ d ∧ <[o := t']> ts !! o0 = Some t0 ∧ token t0 = tok.
Proof.
  intros H Ho Htok tok r Hm. destruct (H tok r Hm) as (o0 & t0 & Hin & Ht0 & Heq).
  destruct (decide (o = o0)) as [<-|Hne].
  - exists o, t'. rewrite lookup_insert_eq. split; [done|]. split; [done|]. congruence.
  - exists o0, t0. by rewrite lookup_insert_ne.
Qed.

Lemma tokens_create st now random r descr st' o :
  tokens_resolve st → create_tunnel st now random r descr = Ok (st', o) →
  tokens_resolve st'.
Proof.
  intros Htok. unfold create_tunnel.
  destruct (Py.dict_get (_route_to_tunnel st) r) eqn:Hget; [done|].
  intros [= <- <-] tok0 r0. cbn -[Uuid.uuid4_hex].
  rewrite dict_set_new by done.
  destruct (decide (Uuid.uuid4_hex random = tok0)) as [<-|Hne].
  - rewrite lookup_insert_eq. intros [= <-].
    eexists _, _. split; [apply elem_of_app; right; left|].
    by rewrite lookup_insert_eq.
  - rewrite lookup_insert_ne by done. intros Hm.
    destruct (Htok tok0 r0 Hm) as (o0 & t0 & Hin & Ht0 & Heq).
    exists o0, t0. split; [apply elem_of_app; by left|]. split; [|done].
    rewrite lookup_insert_ne; [done|]. intros <-.
    pose proof (is_fresh (dom (tunnels st))) as Hf.
    apply Hf, elem_of_dom. by eexists.
Qed.

Lemma tokens_delete st r :
  inv st → tokens_resolve st → tokens_resolve (fst (delete_tunnel st r)).
Proof.
  intros Hinv Htok. unfold delete_tunnel.
  destruct (lookup_route st r) as [[o t]|] eqn:Hl; [|done].
  assert (∀ tok0 r0, delete (token t) (_token_to_route st) !! tok0 = Some r0 →
            ∃ o0 t0, (r0, o0) ∈ Py.dict_pop (_route_to_tunnel st) r
                     ∧ tunnels st !! o0 = Some t0 ∧ token t0 = tok0) as H.
  { intros tok0 r0 Hm. apply lookup_delete_Some in Hm as [Hne Hm].
    destruct (Htok tok0 r0 Hm) as (o0 & t0 & Hin & Ht0 & Heq).
    exists o0, t0. split; [|done].
    apply elem_of_dict_pop_ne; [done|]. intros ->.
    apply lookup_route_Some in Hl as [Hin' Ht].
    destruct Hinv as [Hnd _ _].
    apply (dict_get_NoDup _ _ _ Hnd) in Hin, Hin'.
    assert (o0 = o) as -> by congruence. congruence. }
  by destruct (websocket t).
Qed.

Lemma tokens_step st st' : inv st → tokens_resolve st → step st st' → tokens_resolve st'.
Proof.
  intros Hinv Htok Hstep. destruct Hstep as
    [st now random r descr st' o H | st r | st utcnow tok st' H | st now tok ws st' o H
    | st now ws | st now random r payload st' tk H | st tk st' H
    | st fut elapsed st' res H | st r cid | st now ws message st' H
    | st now o failure | st ws code].
  - by eapply tokens_create.
  - by apply tokens_delete.
  - apply attach_validate_Ok in H as [db ->]. done.
  - unfold attach_bind in H.
    destruct (_token_to_route st !! tok) as [r|]; [|done].
    destruct (Py.str_truthy r); [|done]. cbn in H.
    destruct (lookup_route st r) as [[o' t]|] eqn:Hl; [|done]. injection H as <- <-.
    apply lookup_route_Some in Hl as [_ Ht].
    unfold tokens_resolve. cbn. by eapply tokens_update.
  - unfold detach_websocket.
    destruct (tunnel_of_websocket st ws) as [[o t]|] eqn:Hf; [|done].
    apply tunnel_of_websocket_Some in Hf as [[_ Ht] _].
    unfold tokens_resolve. cbn. by eapply tokens_update.
  - unfold send_ingress_begin in H.
    destruct (lookup_route st r) as [[o t]|] eqn:Hl; [|done].
    destruct (connected t); [|done]. cbn in H.
    destruct (websocket t); [|done]. injection H as <- <-.
    apply lookup_route_Some in Hl as [_ Ht].
    unfold tokens_resolve. cbn. by eapply tokens_update.
  - cbn in H. by injection H as <-.
  - unfold wait_for in H.
    destruct (futures st !! fut) as [[| |]|]; try done; try (by injection H as <- <-).
    destruct elapsed; [|done]. by injection H as <- <-.
  - unfold send_ingress_finally.
    destruct (lookup_route st r) as [[o t]|] eqn:Hl; [|done].
    apply lookup_route_Some in Hl as [_ Ht].
    unfold tokens_resolve. cbn. by eapply tokens_update.
  - destruct (handle_keeps_bindings _ _ _ _ _ H) as (Hd & Hm & _ & _ & _ & Hb).
    intros tok0 r0. rewrite Hm. intros Hm0.
    destruct (Htok tok0 r0 Hm0) as (o0 & t0 & Hin & Ht0 & Heq).
    specialize (Hb o0). rewrite Ht0 in Hb.
    destruct (tunnels st' !! o0) as [t0'|] eqn:Ht0'; [|done].
    exists o0, t0'. rewrite Hd. split; [done|]. split; [done|].
    unfold binding in Hb. cbn in Hb. injection Hb. intros. congruence.
  - unfold ping_one. destruct (tunnels st !! o) as [t|] eqn:Ht; [|done].
    assert (tokens_resolve (ping_failed st now o)) as Hfail.
    { unfold ping_failed. rewrite Ht. unfold tokens_resolve.
      destruct (websocket t); cbn; by eapply tokens_update. }
    destruct (websocket t), failure as [e|]; try destruct (is_Exception e); done.
  - done.
Qed.

Lemma tokens_reachable db st : reachable db st → tokens_resolve st.
Proof.
  induction 1 as [|st st' Hreach IH Hstep].
  - intros tok r H. cbn in H. by rewrite lookup_empty in H.
  - eapply tokens_step; [by eapply inv_reachable | done | done].
Qed.

(** A token of the index names a route that resolves. *)
Lemma token_route_resolves st tok r :
  inv st → tokens_resolve st → _token_to_route st !! tok = Some r →
  ∃ o t, lookup_route st r = Some (o, t) ∧ token t = tok.
Proof.
  intros [Hnd _ _] Htok Hm. destruct (Htok tok r Hm) as (o & t & Hin & Ht & Heq).
  exists o, t. split; [|done].
  unfold lookup_route. by rewrite (dict_get_NoDup _ _ _ Hnd Hin), Ht.
Qed.

(** X8. In every state that the process can reach, a token of the token
    index leads to a session of the registry that bears it; so an attach
    never fails with "Unknown route", and the WebSocket endpoint never
    closes a socket with code 4404: those branches are dead. *)
Theorem unknown_route_never db st :
  reachable db st →
  tokens_resolve st
  ∧ (∀ utcnow now tok ws,
       attach_bind st now tok ws ≠ Raise (Exn PermissionError "Unknown route")
       ∧ attach_websocket st utcnow now tok ws ≠ Raise (Exn PermissionError "Unknown route")
       ∧ (∀ st' accepted,
            tunnel_ws_open st utcnow now (Some tok) ws = Ok (st', accepted) →
            closed st' ≠ (ws, Some 4404%Z) :: closed st)).
Proof.
  intros Hreach. pose proof (inv_reachable _ _ Hreach) as Hinv.
  pose proof (tokens_reachable _ _ Hreach) as Htok. split; [done|].
  intros utcnow now tok ws.
  assert (∀ db', attach_bind (set_db st db') now tok ws
                 ≠ Raise (Exn PermissionError "Unknown route")) as Hbind.
  { intros db'. unfold attach_bind. cbn.
    destruct (_token_to_route st !! tok) as [r|] eqn:Hm; [|done].
    destruct (Py.str_truthy r); [|done]. cbn.
    destruct (token_route_resolves _ _ _ Hinv Htok Hm) as (o & t & Hl & _).
    unfold lookup_route in *. cbn.
    destruct (Py.dict_get (_route_to_tunnel st) r) as [o'|]; [|done].
    by destruct (tunnels st !! o'). }
  assert (attach_websocket st utcnow now tok ws
          ≠ Raise (Exn PermissionError "Unknown route")) as Hatt.
  { unfold attach_websocket.
    destruct (attach_validate st utcnow tok) as [st1|e] eqn:Hv.
    - apply attach_validate_Ok in Hv as [db' ->]. apply Hbind.
    - cbn. unfold attach_validate in Hv.
      destruct (_db_service st) as [rows|]; [|done].
      destruct (validate_token rows tok) as [row|]; [|by injection Hv as <-].
      destruct (tt_is_active row); [done | by injection Hv as <-]. }
  split; [|split; [done|]].
  - specialize (Hbind (_db_service st)). by destruct st.
  - intros st' accepted. unfold tunnel_ws_open, tunnel_ws_check, tunnel_ws_attach.
    destruct (Py.str_truthy tok); cbn; [|by intros [= <- <-] [=]].
    destruct (_token_to_route st !! tok) as [r|] eqn:Hm; [|by intros [= <- <-] [=]].
    destruct (Py.str_truthy r); cbn; [|by intros [= <- <-] [=]].
    destruct (token_route_resolves _ _ _ Hinv Htok Hm) as (o & t & Hl & _).
    rewrite Hl.
    destruct (attach_websocket st utcnow now tok ws) as [[st1 o1]|e] eqn:Ha; [|done].
    cbn. intros [= <- <-].
    unfold attach_websocket in Ha.
    destruct (attach_validate st utcnow tok) as [st0|] eqn:Hv; [|done].
    apply attach_validate_Ok in Hv as [db' ->]. cbn in Ha.
    unfold attach_bind in Ha. cbn in Ha.
    destruct (_token_to_route st !! tok) as [r1|]; [|done].
    destruct (Py.str_truthy r1); [|done]. cbn in Ha.
    destruct (lookup_route (set_db st db') r1) as [[o2 t2]|]; [|done].
    injection Ha as <- <-. cbn.
    intros Heq. apply (f_equal length) in Heq. cbn in Heq. lia.
Qed.

Lemma unknown_route_never_witness :
  tokens_resolve st_attached
  ∧ (∀ utcnow now tok ws,
       attach_bind st_attached now tok ws ≠ Raise (Exn PermissionError "Unknown route")
       ∧ attach_websocket st_attached utcnow now tok ws
         ≠ Raise (Exn PermissionError "Unknown route")
       ∧ (∀ st' accepted,
            tunnel_ws_open st_attached utcnow now (Some tok) ws = Ok (st', accepted) →
            closed st' ≠ (ws, Some 4404%Z) :: closed st_attached)).
Proof.
  exact (unknown_route_never None st_attached st_attached_reachable).
Defined.

End Token_facts.
(* --------------------------------------------------------------------- *)
(** ** The endpoint, the database and the pings *)

Section Endpoint_facts.
Import Exc Wire Registry TunnelService Endpoint Run Scenario Invariants Cases Loops.

Lemma reachable_without_db st : reachable None st → _db_service st = None.
Proof.
  induction 1 as [|st st' _ IH Hstep]; [done|].
  destruct Hstep as
    [st now random r descr st' o H | st r | st utcnow tok st' H | st now tok ws st' o H
    | st now ws | st now random r payload st' tk H | st tk st' H
    | st fut elapsed st' res H | st r cid | st now ws message st' H
    | st now o failure | st ws code].
  - unfold create_tunnel in H.
    destruct (Py.dict_get (_route_to_tunnel st) r); [done|]. by injection H as <- <-.
  - unfold delete_tunnel. destruct (lookup_route st r) as [[o t]|]; [|done].
    by destruct (websocket t).
  - unfold attach_validate in H. rewrite IH in H. by injection H as <-.
  - unfold attach_bind in H.
    destruct (_token_to_route st !! tok) as [r|]; [|done].
    destruct (Py.str_truthy r); [|done]. cbn in H.
    destruct (lookup_route st r) as [[o' t]|]; [|done]. by injection H as <- <-.
  - unfold detach_websocket. by destruct (tunnel_of_websocket st ws) as [[o t]|].
  - unfold send_ingress_begin in H.
    destruct (lookup_route st r) as [[o t]|]; [|done].
    destruct (connected t); [|done]. cbn in H.
    destruct (websocket t); [|done]. by injection H as <- <-.
  - cbn in H. by injection H as <-.
  - unfold wait_for in H.
    destruct (futures st !! fut) as [[| |]|]; try done; try (by injection H as <- <-).
    destruct elapsed; [|done]. by injection H as <- <-.
  - unfold send_ingress_finally. by destruct (lookup_route st r) as [[o t]|].
  - destruct (handle_keeps_bindings _ _ _ _ _ H) as (_ & _ & Hdb & _). congruence.
  - unfold ping_one. destruct (tunnels st !! o) as [t|] eqn:Ht; [|done].
    unfold ping_failed. rewrite Ht.
    destruct (websocket t), failure as [e|]; try destruct (is_Exception e); done.
  - done.
Qed.

(** X9. On a registry without database, in every state that the process
    can reach, the WebSocket endpoint before its receive loop does the
    following, in two stretches with [await websocket.accept()] between
    them.  The check refuses the socket with code 4401 (no token) or 4403
    (a token that the registry does not know), or passes it with a token
    whose route resolves.  The attach, which runs on the state of a later
    moment, either binds the route of the token to this very socket,
    closing nothing, or raises PermissionError "Invalid token" out of the
    handler when the token has left the index in between; it raises
    nothing else.  When no other task runs between the two, the endpoint
    does not raise: a refusal leaves the sessions, the indexes and the
    futures as they are, an accepted socket is attached. *)
Theorem endpoint_refuses_or_attaches st tok ws :
  reachable None st →
  (∀ code, tunnel_ws_check st tok = Refused code →
     (code = 4401%Z ∧ (tok = None ∨ tok = Some ""))
     ∨ (code = 4403%Z
        ∧ ∃ tk, tok = Some tk
                ∧ (_token_to_route st !! tk = None ∨ _token_to_route st !! tk = Some "")))
  ∧ (∀ tk, tunnel_ws_check st tok = Passed tk →
       tok = Some tk
       ∧ ∃ r o t, _token_to_route st !! tk = Some r ∧ lookup_route st r = Some (o, t))
  ∧ (∀ st2 utcnow now tk,
       reachable None st2 →
       (∃ r st' o t,
          _token_to_route st2 !! tk = Some r
          ∧ tunnel_ws_attach st2 utcnow now tk ws = Ok (st', true)
          ∧ closed st' = closed st2
          ∧ lookup_route st' r = Some (o, t)
          ∧ websocket t = Some ws ∧ connected t = true)
       ∨ ((_token_to_route st2 !! tk = None ∨ _token_to_route st2 !! tk = Some "")
          ∧ tunnel_ws_attach st2 utcnow now tk ws
            = Raise (Exn PermissionError "Invalid token")))
  ∧ (∀ utcnow now,
       ∃ st' accepted,
         tunnel_ws_open st utcnow now tok ws = Ok (st', accepted)
         ∧ (accepted = false →
              tunnels st' = tunnels st ∧ futures st' = futures st
              ∧ _route_to_tunnel st' = _route_to_tunnel st
              ∧ _token_to_route st' = _token_to_route st
              ∧ ((closed st' = (ws, Some 4401%Z) :: closed st
                  ∧ (tok = None ∨ tok = Some ""))
                 ∨ (closed st' = (ws, Some 4403%Z) :: closed st
                    ∧ ∃ tk, tok = Some tk
                            ∧ (_token_to_route st !! tk = None
                               ∨ _token_to_route st !! tk = Some ""))))
         ∧ (accepted = true →
              closed st' = closed st
              ∧ ∃ tk r o t, tok = Some tk ∧ _token_to_route st !! tk = Some r
                            ∧ lookup_route st' r = Some (o, t)
                            ∧ websocket t = Some ws ∧ connected t = true)).
Proof.
  intros Hreach. pose proof (inv_reachable _ _ Hreach) as Hinv.
  pose proof (tokens_reachable _ _ Hreach) as Htok.
  pose proof (reachable_without_db _ Hreach) as Hdb.
  split; [|split; [|split]].
  - intros code. unfold tunnel_ws_check. destruct tok as [tk|].
    2:{ intros [= <-]. left. split; [done | by left]. }
    destruct (Py.str_truthy tk) eqn:Htk; cbn.
    2:{ intros [= <-]. left. split; [done|]. right. by destruct tk. }
    destruct (_token_to_route st !! tk) as [r|] eqn:Hm.
    2:{ intros [= <-]. right. split; [done|]. exists tk. split; [done | by left]. }
    destruct (Py.str_truthy r) eqn:Hr; cbn.
    2:{ intros [= <-]. right. split; [done|]. exists tk. split; [done|].
        right. by destruct r. }
    destruct (token_route_resolves _ _ _ Hinv Htok Hm) as (o & t & Hl & _).
    by rewrite Hl.
  - intros tk0. unfold tunnel_ws_check. destruct tok as [tk|]; [|done].
    destruct (Py.str_truthy tk); cbn; [|done].
    destruct (_token_to_route st !! tk) as [r|] eqn:Hm; [|done].
    destruct (Py.str_truthy r); cbn; [|done].
    destruct (lookup_route st r) as [[o t]|] eqn:Hl; [|done].
    intros [= <-]. split; [done|]. by exists r, o, t.
  - intros st2 utcnow now tk Hreach2.
    pose proof (inv_reachable _ _ Hreach2) as Hinv2.
    pose proof (tokens_reachable _ _ Hreach2) as Htok2.
    pose proof (reachable_without_db _ Hreach2) as Hdb2.
    unfold tunnel_ws_attach, attach_websocket, attach_validate. rewrite Hdb2. cbn.
    unfold attach_bind.
    destruct (_token_to_route st2 !! tk) as [r|] eqn:Hm; [|right; split; [by left | done]].
    destruct (Py.str_truthy r) eqn:Hr; cbn.
    2:{ right. split; [|done]. right. by destruct r. }
    destruct (token_route_resolves _ _ _ Hinv2 Htok2 Hm) as (o & t & Hl & _).
    rewrite Hl. cbn. left.
    exists r, (set_tunnels st2 (<[o := with_connection t (Some ws) true now]> (tunnels st2))),
      o, (with_connection t (Some ws) true now).
    split; [done|]. split; [done|]. split; [done|]. split; [|done].
    exact (lookup_route_update st2 r o t _ Hl).
  - intros utcnow now.
    unfold tunnel_ws_open, tunnel_ws_check, tunnel_ws_attach. destruct tok as [tk|].
    2:{ do 2 eexists. split; [reflexivity|]. split; [|done]. intros _. cbn.
        repeat (split; [done|]). left. split; [done | by left]. }
    destruct (Py.str_truthy tk) eqn:Htk; cbn.
    2:{ do 2 eexists. split; [reflexivity|]. split; [|done]. intros _. cbn.
        repeat (split; [done|]). left. split; [done|]. right. by destruct tk. }
    destruct (_token_to_route st !! tk) as [r|] eqn:Hm.
    2:{ do 2 eexists. split; [reflexivity|]. split; [|done]. intros _. cbn.
        repeat (split; [done|]). right. split; [done|]. exists tk.
        split; [done | by left]. }
    destruct (Py.str_truthy r) eqn:Hr; cbn.
    2:{ do 2 eexists. split; [reflexivity|]. split; [|done]. intros _. cbn.
        repeat (split; [done|]). right. split; [done|]. exists tk. split; [done|].
        right. by destruct r. }
    destruct (token_route_resolves _ _ _ Hinv Htok Hm) as (o & t & Hl & _).
    rewrite Hl. unfold attach_websocket, attach_validate. rewrite Hdb. cbn.
    unfold attach_bind. rewrite Hm, Hr. cbn. rewrite Hl. cbn.
    do 2 eexists. split; [reflexivity|]. split; [done|]. intros _. split; [done|].
    exists tk, r, o, (with_connection t (Some ws) true now).
    split; [done|]. split; [done|]. split; [|done].
    exact (lookup_route_update st r o t _ Hl).
Qed.

Lemma endpoint_refuses_or_attaches_witness :
  (∀ code, tunnel_ws_check st_attached (Some svc_token) = Refused code →
     (code = 4401%Z ∧ (Some svc_token = None ∨ Some svc_token = Some ""))
     ∨ (code = 4403%Z
        ∧ ∃ tk, Some svc_token = Some tk
                ∧ (_token_to_route st_attached !! tk = None
                   ∨ _token_to_route st_attached !! tk = Some "")))
  ∧ (∀ tk, tunnel_ws_check st_attached (Some svc_token) = Passed tk →
       Some svc_token = Some tk
       ∧ ∃ r o t, _token_to_route st_attached !! tk = Some r
                  ∧ lookup_route st_attached r = Some (o, t))
  ∧ (∀ st2 utcnow now tk,
       reachable None st2 →
       (∃ r st' o t,
          _token_to_route st2 !! tk = Some r
          ∧ tunnel_ws_attach st2 utcnow now tk 2%nat = Ok (st', true)
          ∧ closed st' = closed st2
          ∧ lookup_route st' r = Some (o, t)
          ∧ websocket t = Some 2%nat ∧ connected t = true)
       ∨ ((_token_to_route st2 !! tk = None ∨ _token_to_route st2 !! tk = Some "")
          ∧ tunnel_ws_attach st2 utcnow now tk 2%nat
            = Raise (Exn PermissionError "Invalid token")))
  ∧ (∀ utcnow now,
       ∃ st' accepted,
         tunnel_ws_open st_attached utcnow now (Some svc_token) 2%nat = Ok (st', accepted)
         ∧ (accepted = false →
              tunnels st' = tunnels st_attached ∧ futures st' = futures st_attached
              ∧ _route_to_tunnel st' = _route_to_tunnel st_attached
              ∧ _token_to_route st' = _token_to_route st_attached
              ∧ ((closed st' = (2%nat, Some 4401%Z) :: closed st_attached
                  ∧ (Some svc_token = None ∨ Some svc_token = Some ""))
                 ∨ (closed st' = (2%nat, Some 4403%Z) :: closed st_attached
                    ∧ ∃ tk, Some svc_token = Some tk
                            ∧ (_token_to_route st_attached !! tk = None
                               ∨ _token_to_route st_attached !! tk = Some ""))))
         ∧ (accepted = true →
              closed st' = closed st_attached
              ∧ ∃ tk r o t, Some svc_token = Some tk
                            ∧ _token_to_route st_attached !! tk = Some r
                            ∧ lookup_route st' r = Some (o, t)
                            ∧ websocket t = Some 2%nat ∧ connected t = true)).
Proof.
  exact (endpoint_refuses_or_attaches st_attached (Some svc_token) 2%nat
           st_attached_reachable).
Defined.

(** The token passes the check, the tunnel is deleted while the handler
    awaits [accept], and the attach raises out of the handler. *)
Example endpoint_attach_after_delete :
  tunnel_ws_check st_attached (Some svc_token) = Passed svc_token
  ∧ tunnel_ws_attach (fst (delete_tunnel st_attached "svc")) 13%float 13%float svc_token 2%nat
    = Raise (Exn PermissionError "Invalid token").
Proof. split; vm_compute; reflexivity. Qed.

Lemma validate_token_Some db tok row :
  validate_token db tok = Some row →
  row ∈ db ∧ tt_token row = tok ∧ tt_is_active row = true.
Proof.
  unfold validate_token. intros H. apply find_some in H as [Hin Hb].
  apply andb_true_iff in Hb as [Ht Ha]. apply String.eqb_eq in Ht.
  split; [by apply list_elem_of_In | done].
Qed.

(** X10. With a database, a connection attaches only with a token that
    has an active row in the table: when every row of the token is
    inactive (or there is none) the attach fails with PermissionError
    "Invalid token", even for a token that the registry knows, and a
    successful attach shows an active row of the token. *)
Theorem attach_needs_active_row st utcnow now tok ws db :
  _db_service st = Some db →
  ((∀ row, row ∈ db → tt_token row = tok → tt_is_active row = false) →
   attach_websocket st utcnow now tok ws = Raise (Exn PermissionError "Invalid token"))
  ∧ (∀ st' o, attach_websocket st utcnow now tok ws = Ok (st', o) →
       ∃ row, row ∈ db ∧ tt_token row = tok ∧ tt_is_active row = true).
Proof.
  intros Hdb. unfold attach_websocket, attach_validate. rewrite Hdb. split.
  - intros Hnone. destruct (validate_token db tok) as [row|] eqn:Hv; [|done].
    apply validate_token_Some in Hv as (Hin & Ht & Ha).
    rewrite (Hnone row Hin Ht) in Ha. done.
  - intros st' o. destruct (validate_token db tok) as [row|] eqn:Hv; [|done].
    intros _. exists row. by apply validate_token_Some.
Qed.

Lemma attach_needs_active_row_witness :
  ((∀ row, row ∈ [mkTunnelToken "svc" svc_token false None] →
           tt_token row = svc_token → tt_is_active row = false) →
   attach_websocket st_revoked 11%float 11%float svc_token 1%nat
   = Raise (Exn PermissionError "Invalid token"))
  ∧ (∀ st' o, attach_websocket st_revoked 11%float 11%float svc_token 1%nat = Ok (st', o) →
       ∃ row, row ∈ [mkTunnelToken "svc" svc_token false None]
              ∧ tt_token row = svc_token ∧ tt_is_active row = true).
Proof.
  apply (attach_needs_active_row st_revoked 11%float 11%float svc_token 1%nat).
  reflexivity.
Defined.

(** X11. Recording a connection in the database changes no token, no
    route and no activity flag of the table, so the tokens that validate
    are the same before and after; the first row of the route, and only
    it, gets the new timestamp. *)
Theorem update_last_connected_keeps_tokens db r utcnow :
  tt_route <$> update_last_connected db r utcnow = tt_route <$> db
  ∧ tt_token <$> update_last_connected db r utcnow = tt_token <$> db
  ∧ tt_is_active <$> update_last_connected db r utcnow = tt_is_active <$> db
  ∧ (∀ tok, is_Some (validate_token (update_last_connected db r utcnow) tok)
            ↔ is_Some (validate_token db tok))
  ∧ (∀ row, Management.get_tunnel_token db r = Some row →
       Management.get_tunnel_token (update_last_connected db r utcnow) r
       = Some (mkTunnelToken (tt_route row) (tt_token row) (tt_is_active row) (Some utcnow)))
  ∧ (∀ r', r' ≠ r →
       Management.get_tunnel_token (update_last_connected db r utcnow) r'
       = Management.get_tunnel_token db r').
Proof.
  induction db as [|row db (IH1 & IH2 & IH3 & IH4 & IH5 & IH6)].
  { repeat split; try done. }
  cbn [update_last_connected].
  destruct (String.eqb_spec (tt_route row) r) as [Heq|Hne].
  - split; [done|]. split; [done|]. split; [done|]. split; [|split].
    + intros tok. unfold validate_token. cbn.
      by destruct (String.eqb (tt_token row) tok && tt_is_active row).
    + intros row'. unfold Management.get_tunnel_token. cbn.
      destruct (String.eqb_spec (tt_route row) r); [|done]. by intros [= <-].
    + intros r' Hr'. unfold Management.get_tunnel_token. cbn.
      destruct (String.eqb_spec (tt_route row) r'); [congruence | done].
  - cbn. rewrite IH1, IH2, IH3. split; [done|]. split; [done|]. split; [done|].
    split; [|split].
    + intros tok. unfold validate_token in *. cbn.
      destruct (String.eqb (tt_token row) tok && tt_is_active row); [done | apply IH4].
    + intros row'. unfold Management.get_tunnel_token in *. cbn.
      destruct (String.eqb_spec (tt_route row) r); [done | apply IH5].
    + intros r' Hr'. unfold Management.get_tunnel_token in *. cbn.
      destruct (String.eqb (tt_route row) r'); [done | by apply IH6].
Qed.



Lemma update_last_connected_keeps_tokens_witness :
  Management.get_tunnel_token
    (update_last_connected [mkTunnelToken "svc" svc_token true None] "svc" 11%float) "svc"
  = Some (mkTunnelToken "svc" svc_token true (Some 11%float))
  ∧ (is_Some (validate_token
                (update_last_connected [mkTunnelToken "svc" svc_token true None] "svc"
                   11%float) svc_token)
     ↔ is_Some (validate_token [mkTunnelToken "svc" svc_token true None] svc_token)).
Proof.
  destruct (update_last_connected_keeps_tokens
              [mkTunnelToken "svc" svc_token true None] "svc" 11%float)
    as (_ & _ & _ & H4 & H5 & _).
  split; [|apply H4].
  apply (H5 (mkTunnelToken "svc" svc_token true None)). reflexivity.
Defined.



(** X13. When the write of a ping to a session fails with an exception
    that [except Exception] catches (any but a CancelledError), the socket
    of the session is closed, the session is detached, so that its route
    is no longer attached, and nothing is written; the pending requests of
    the session and their futures are left as they are.  A CancelledError
    passes the [except] clause: the registry is left as it is, the session
    attached, and the round of pings ends there. *)
Theorem failed_ping_detaches st now o t w e :
  inv st → session st o t → websocket t = Some w → is_Exception e = true →
  ¬ attached (ping_one st now o (Some e)) (route t)
  ∧ closed (ping_one st now o (Some e)) = (w, None) :: closed st
  ∧ sent (ping_one st now o (Some e)) = sent st
  ∧ futures (ping_one st now o (Some e)) = futures st
  ∧ (∃ t', tunnels (ping_one st now o (Some e)) !! o = Some t'
           ∧ connected t' = false ∧ websocket t' = None ∧ pending t' = pending t)
  ∧ (∀ c, is_Exception c = false →
       ping_one st now o (Some c) = st
       ∧ ∀ clock failure l, failure o = Some c →
           ping_round clock failure (o :: l) st = st).
Proof.
  intros Hinv Hs Hw He. pose proof (lookup_route_session _ _ _ Hinv Hs) as Hl.
  destruct Hs as [_ Ht].
  unfold ping_one, ping_failed. rewrite Ht, Hw, He. cbn.
  split; [|split; [done|split; [done|split; [done|split]]]].
  - intros (o' & t' & w' & Hl' & Hc & _).
    unfold lookup_route in Hl, Hl'. cbn in Hl'.
    destruct (Py.dict_get (_route_to_tunnel st) (route t)) as [o1|]; [|done].
    destruct (tunnels st !! o1) as [t1|] eqn:Ht1; [|done].
    injection Hl as -> ->. rewrite lookup_insert_eq in Hl'. by injection Hl' as <- <-.
  - rewrite lookup_insert_eq. by eexists.
  - intros c Hc. rewrite Hc. split; [done|].
    intros clock failure l Hf. cbn [ping_round]. unfold ping_cancelled.
    by rewrite Ht, Hw, Hf, Hc.
Qed.

Lemma failed_ping_detaches_witness :
  ∃ t, tunnels st_inflight !! 0%nat = Some t
    ∧ ¬ attached (ping_one st_inflight 30%float 0%nat (Some write_error)) (route t)
    ∧ closed (ping_one st_inflight 30%float 0%nat (Some write_error))
      = (1%nat, None) :: closed st_inflight
    ∧ sent (ping_one st_inflight 30%float 0%nat (Some write_error)) = sent st_inflight
    ∧ futures (ping_one st_inflight 30%float 0%nat (Some write_error))
      = futures st_inflight
    ∧ (∃ t', tunnels (ping_one st_inflight 30%float 0%nat (Some write_error)) !! 0%nat
             = Some t'
             ∧ connected t' = false ∧ websocket t' = None ∧ pending t' = pending t)
    ∧ (∀ c, is_Exception c = false →
         ping_one st_inflight 30%float 0%nat (Some c) = st_inflight
         ∧ ∀ clock failure l, failure 0%nat = Some c →
             ping_round clock failure (0%nat :: l) st_inflight = st_inflight).
Proof.
  eexists. split; [vm_compute; reflexivity|].
  apply (failed_ping_detaches st_inflight 30%float 0%nat _ 1%nat write_error
           st_inflight_inv).
  - split; [vm_compute; apply list_elem_of_here | vm_compute; reflexivity].
  - reflexivity.
  - reflexivity.
Defined.

End Endpoint_facts.
(* --------------------------------------------------------------------- *)
(** ** Query parameters and headers of the request frame *)

Section Payload_facts.
Import Exc Wire Registry TunnelService Client Run Scenario Invariants Cases.

Lemma dict_set_keys_list {V} (d : Py.dict V) (k : string) (v : V) :
  Py.dict_keys (Py.dict_set d k v)
  = match Py.dict_get d k with
    | Some _ => Py.dict_keys d
    | None => Py.dict_keys d ++ [k]
    end.
Proof.
  unfold Py.dict_keys. induction d as [|[k1 v1] d IH]; cbn; [done|].
  destruct (String.eqb_spec k1 k) as [->|Hne]; cbn; [done|].
  rewrite IH. by destruct (Py.dict_get d k).
Qed.

Lemma dict_set_NoDup {V} (d : Py.dict V) (k : string) (v : V) :
  NoDup (Py.dict_keys d) → NoDup (Py.dict_keys (Py.dict_set d k v)).
Proof.
  intros Hnd. rewrite dict_set_keys_list.
  destruct (Py.dict_get d k) eqn:Hget; [done|].
  apply NoDup_app. split; [done|]. split; [|apply NoDup_singleton].
  intros k' Hk' ->%list_elem_of_singleton. by apply dict_get_None in Hget.
Qed.

Lemma fold_dict_set_NoDup {V A} (step : Py.dict V → A → string * V) (items : list A) :
  ∀ d, NoDup (Py.dict_keys d) →
       NoDup (Py.dict_keys
                (fold_left (λ d x, Py.dict_set d (fst (step d x)) (snd (step d x))) items d)).
Proof.
  induction items as [|x items IH]; intros d Hnd; [done|].
  cbn. apply IH. by apply dict_set_NoDup.
Qed.

Lemma collect_query_fold (items : list (string * string)) (k : string) :
  ∀ d : Py.dict (list string),
    Py.dict_get
      (fold_left
         (λ d kv, Py.dict_set d (fst kv)
                    (match Py.dict_get d (fst kv) with Some l => l | None => [] end
                     ++ [snd kv]))
         items d) k
    = collected (Py.dict_get d k) (values_of k items).
Proof.
  induction items as [|[k1 v1] items IH]; intros d.
  - cbn. by destruct (Py.dict_get d k); cbn; rewrite ?app_nil_r.
  - cbn [fold_left]. rewrite IH. unfold values_of. cbn.
    destruct (String.eqb_spec k1 k) as [->|Hne].
    + rewrite dict_get_set_eq. cbn.
      destruct (Py.dict_get d k) as [l|]; cbn; by rewrite <- ?app_assoc.
    + by rewrite dict_get_set_ne.
Qed.

Lemma values_of_app (k : string) (l1 l2 : list (string * string)) :
  values_of k (l1 ++ l2) = values_of k l1 ++ values_of k l2.
Proof. unfold values_of. by rewrite List.filter_app, fmap_app. Qed.

Lemma values_of_pairs (k k1 : string) (l : list string) :
  values_of k (map (λ item, (k1, item)) l) = if String.eqb k1 k then l else [].
Proof.
  unfold values_of. induction l as [|x l IH]; cbn.
  - by destruct (String.eqb k1 k).
  - destruct (String.eqb k1 k); cbn; [by rewrite IH | done].
Qed.

Lemma values_of_flatten (d : Py.dict (list string)) (k : string) :
  NoDup (Py.dict_keys d) →
  values_of k (flatten_query d) = default [] (Py.dict_get d k).
Proof.
  induction d as [|[k1 l1] d IH]; [done|].
  intros Hnd. apply NoDup_cons in Hnd as [Hk1 Hnd].
  change (flatten_query ((k1, l1) :: d))
    with (map (λ item, (k1, item)) l1 ++ flatten_query d).
  rewrite values_of_app, values_of_pairs, (IH Hnd). cbn [Py.dict_get].
  destruct (String.eqb_spec k1 k) as [->|Hne]; [|done].
  apply dict_get_None in Hk1. cbn in Hk1. rewrite Hk1. cbn. by rewrite app_nil_r.
Qed.

(** X14. The query parameters of a request reach the local server with
    their multiplicity: on the request frame a name is mapped to the list
    of its values in the order of the query string (absent when it has
    none), each name once; and in the parameters that the client passes
    on, the values of every name are again those of the query string, in
    the same order. *)
Theorem query_values_survive request rest_of_path k :
  Py.dict_get (query (build_payload request rest_of_path)) k
  = match values_of k (req_query_params request) with
    | [] => None
    | vs => Some vs
    end
  ∧ NoDup (Py.dict_keys (query (build_payload request rest_of_path)))
  ∧ values_of k (flatten_query (query (build_payload request rest_of_path)))
    = values_of k (req_query_params request).
Proof.
  assert (Py.dict_get (collect_query (req_query_params request)) k
          = match values_of k (req_query_params request) with
            | [] => None
            | vs => Some vs
            end) as Hget.
  { unfold collect_query. rewrite collect_query_fold. cbn.
    by destruct (values_of k (req_query_params request)). }
  assert (NoDup (Py.dict_keys (collect_query (req_query_params request)))) as Hnd.
  { unfold collect_query.
    apply (fold_dict_set_NoDup
             (λ d kv, (fst kv, (match Py.dict_get d (fst kv) with
                                | Some l => l | None => [] end ++ [snd kv])))).
    constructor. }
  unfold build_payload. cbn [query]. split; [done|]. split; [done|].
  rewrite values_of_flatten, Hget by done.
  by destruct (values_of k (req_query_params request)).
Qed.

Lemma lower_char_idempotent (c : ascii) :
  Py.lower_char (Py.lower_char c) = Py.lower_char c.
Proof.
  pose proof (forall_range1 256
    (λ n, Ascii.eqb (Py.lower_char (Py.lower_char (ascii_of_N n)))
                    (Py.lower_char (ascii_of_N n)))
    ltac:(vm_compute; reflexivity) (N_of_ascii c) (N_ascii_bounded c)) as H.
  cbv beta in H. rewrite ascii_N_embedding in H. by apply Ascii.eqb_eq.
Qed.

Lemma lower_idempotent (s : string) : Py.lower (Py.lower s) = Py.lower s.
Proof.
  induction s as [|c s IH]; [done|]. cbn. by rewrite lower_char_idempotent, IH.
Qed.

Lemma fold_dict_set_get_other {V} (f : string → string) (items : list (string * V))
    (k : string) :
  (∀ n v, (n, v) ∈ items → f n ≠ k) →
  ∀ d, Py.dict_get (fold_left (λ d kv, Py.dict_set d (f (fst kv)) (snd kv)) items d) k
       = Py.dict_get d k.
Proof.
  induction items as [|[n v] items IH]; intros Hne d; [done|].
  cbn. rewrite IH.
  - apply dict_get_set_ne. intros Heq. apply (Hne n v); [left | done].
  - intros n' v' Hin. apply (Hne n' v'). by right.
Qed.

(** X15. On the request frame every header name is in lower case and
    stands once; when a header is repeated in the request (also under
    names that differ by case only) the frame carries the value of its
    last occurrence: the values are not joined. *)
Theorem headers_last_value_wins request rest_of_path :
  NoDup (Py.dict_keys (headers (build_payload request rest_of_path)))
  ∧ (∀ k, k ∈ Py.dict_keys (headers (build_payload request rest_of_path)) →
          Py.lower k = k)
  ∧ (∀ before name value after,
       req_headers request = before ++ (name, value) :: after →
       (∀ n v, (n, v) ∈ after → Py.lower n ≠ Py.lower name) →
       Py.dict_get (headers (build_payload request rest_of_path)) (Py.lower name)
       = Some value).
Proof.
  unfold build_payload. cbn [headers]. unfold Py.dict_of_items. split; [|split].
  - apply (fold_dict_set_NoDup (λ _ kv, (Py.lower (fst kv), snd kv))). constructor.
  - intros k Hk. apply (dict_of_items_keys Py.lower) in Hk as (n & v & _ & ->).
    apply lower_idempotent.
  - intros before name value after -> Hafter.
    rewrite fold_left_app. cbn.
    rewrite (fold_dict_set_get_other Py.lower after _ Hafter).
    apply dict_get_set_eq.
Qed.

Lemma headers_last_value_wins_witness :
  NoDup (Py.dict_keys (headers (build_payload
           (mkHttpRequest "GET" [("Accept", "a"); ("X-Id", "1"); ("accept", "b")] [] [])
           "")))
  ∧ (∀ k, k ∈ Py.dict_keys (headers (build_payload
           (mkHttpRequest "GET" [("Accept", "a"); ("X-Id", "1"); ("accept", "b")] [] [])
           "")) → Py.lower k = k)
  ∧ Py.dict_get (headers (build_payload
           (mkHttpRequest "GET" [("Accept", "a"); ("X-Id", "1"); ("accept", "b")] [] [])
           "")) (Py.lower "accept") = Some "b".
Proof.
  destruct (headers_last_value_wins
              (mkHttpRequest "GET" [("Accept", "a"); ("X-Id", "1"); ("accept", "b")] [] [])
              "") as (H1 & H2 & H3).
  split; [exact H1|]. split; [exact H2|].
  apply (H3 [("Accept", "a"); ("X-Id", "1")] "accept" "b" []); [reflexivity|].
  intros n v Hin. by apply elem_of_nil in Hin.
Defined.

End Payload_facts.
(* --------------------------------------------------------------------- *)
(** ** The client in front of the local server, and the rendering *)

Section Client_facts.
Import Exc Wire Registry TunnelService Client Run Scenario Invariants Cases.

Variable int_of_str : string → result Z.
Variable int_of_float : float → result Z.

Lemma dict_pop_NoDup {V} (d : Py.dict V) (k : string) :
  NoDup (Py.dict_keys d) → NoDup (Py.dict_keys (Py.dict_pop d k)).
Proof.
  intros Hnd. eapply sublist_NoDup; [exact Hnd|].
  unfold Py.dict_keys. apply fmap_sublist, dict_pop_sublist.
Qed.

Lemma client_body (B : list byte) :
  match body_field B with
  | Some b =>
      if Py.str_truthy b
      then bytes ← b64decode_ascii b; Ok (Some bytes)
      else Ok None
  | None => Ok None
  end = Ok (if Py.bytes_truthy B then Some B else None).
Proof.
  unfold body_field. destruct (Py.bytes_truthy B) eqn:HB; [|done].
  by rewrite b64encode_truthy, HB, b64decode_ascii_b64encode.
Qed.

(** X16. For a request frame of the forwarder, the client sends one
    request to the local server: the method, path and query parameters of
    the frame, the decoded body, and the headers of the frame without
    [host] and [connection], every other header as it is on the frame.
    What the client answers is the answer of the local server to that
    request, or status 502 with the text of the error when the request
    raises an exception that [except Exception] catches; a CancelledError
    out of the request is not caught and leaves the client function. *)
Theorem client_local_request local_base p B :
  NoDup (Py.dict_keys (headers p)) → body_b64 p = body_field B →
  ∃ rq,
    lr_method rq = method p
    ∧ lr_url rq = (rstrip_slash local_base ++ path p)%string
    ∧ lr_params rq = flatten_query (query p)
    ∧ lr_content rq = (if Py.bytes_truthy B then Some B else None)
    ∧ Py.dict_get (lr_headers rq) "host" = None
    ∧ Py.dict_get (lr_headers rq) "connection" = None
    ∧ (∀ k, k ≠ "host" → k ≠ "connection" →
            Py.dict_get (lr_headers rq) k = Py.dict_get (headers p) k)
    ∧ (∀ local_server resp, local_server rq = Ok resp →
         forward_request_to_local local_server local_base p
         = Ok (response_dict (lresp_status_code resp)
                 (Py.dict_of_items (λ k, k) (lresp_headers resp))
                 (body_field (lresp_content resp))))
    ∧ (∀ local_server exc, local_server rq = Raise exc → is_Exception exc = true →
         forward_request_to_local local_server local_base p
         = Ok (response_dict 502 [("content-type", "text/plain")]
                 (Some (Base64.b64encode (Py.encode_utf8 (exn_msg exc))))))
    ∧ (∀ local_server exc, local_server rq = Raise exc → is_Exception exc = false →
         forward_request_to_local local_server local_base p = Raise exc).
Proof.
  intros Hnd Hbody.
  exists (mkLocalRequest (method p) (rstrip_slash local_base ++ path p)%string
            (flatten_query (query p))
            (Py.dict_pop (Py.dict_pop (headers p) "host") "connection")
            (if Py.bytes_truthy B then Some B else None)).
  cbn [lr_method lr_url lr_params lr_content lr_headers].
  repeat (split; [done|]). split; [|split; [|split; [|split; [|split]]]].
  - rewrite dict_get_pop_ne by done. by apply dict_pop_get.
  - apply dict_pop_get. by apply dict_pop_NoDup.
  - intros k Hh Hc. by rewrite !dict_get_pop_ne.
  - intros local_server resp Hsrv. unfold forward_request_to_local.
    rewrite Hbody, client_body. cbn [mbind result_bind]. by rewrite Hsrv.
  - intros local_server exc Hsrv He. unfold forward_request_to_local.
    rewrite Hbody, client_body. cbn [mbind result_bind]. by rewrite Hsrv, He.
  - intros local_server exc Hsrv He. unfold forward_request_to_local.
    rewrite Hbody, client_body. cbn [mbind result_bind]. by rewrite Hsrv, He.
Qed.

Lemma client_local_request_witness :
  ∃ rq,
    lr_method rq = method (tk_payload ticket)
    ∧ lr_url rq = (rstrip_slash "http://localhost:3000/" ++ path (tk_payload ticket))%string
    ∧ lr_params rq = flatten_query (query (tk_payload ticket))
    ∧ lr_content rq
      = (if Py.bytes_truthy ["h"%byte; "i"%byte] then Some ["h"%byte; "i"%byte] else None)
    ∧ Py.dict_get (lr_headers rq) "host" = None
    ∧ Py.dict_get (lr_headers rq) "connection" = None
    ∧ (∀ k, k ≠ "host" → k ≠ "connection" →
            Py.dict_get (lr_headers rq) k = Py.dict_get (headers (tk_payload ticket)) k)
    ∧ (∀ local_server resp, local_server rq = Ok resp →
         forward_request_to_local local_server "http://localhost:3000/" (tk_payload ticket)
         = Ok (response_dict (lresp_status_code resp)
                 (Py.dict_of_items (λ k, k) (lresp_headers resp))
                 (body_field (lresp_content resp))))
    ∧ (∀ local_server exc, local_server rq = Raise exc → is_Exception exc = true →
         forward_request_to_local local_server "http://localhost:3000/" (tk_payload ticket)
         = Ok (response_dict 502 [("content-type", "text/plain")]
                 (Some (Base64.b64encode (Py.encode_utf8 (exn_msg exc))))))
    ∧ (∀ local_server exc, local_server rq = Raise exc → is_Exception exc = false →
         forward_request_to_local local_server "http://localhost:3000/" (tk_payload ticket)
         = Raise exc).
Proof.
  apply (client_local_request "http://localhost:3000/" (tk_payload ticket)
           ["h"%byte; "i"%byte]).
  - vm_compute. repeat constructor; intros H;
      repeat (apply elem_of_cons in H as [H|H]; [discriminate H|]);
      by apply elem_of_nil in H.
  - vm_compute. reflexivity.
Defined.

(** X17. When the request to the local server raises an exception that
    [except Exception] catches (any but a CancelledError), as when the
    server cannot be reached, the answer of the client, rendered by the
    forwarder, is a response of status 502 with content type text/plain
    whose body is the text of the error in UTF-8; it bears the type
    [response] and the correlation id of the request. *)
Theorem unreachable_local_server_is_502 local_server local_base p B exc :
  body_b64 p = body_field B → (∀ rq, local_server rq = Raise exc) →
  is_Exception exc = true →
  ∃ msg,
    on_request local_server local_base p = Ok msg
    ∧ get msg "type" = Ok (JStr "response")
    ∧ get msg "correlation_id" = Ok (JStr (correlation_id p))
    ∧ render_response int_of_str int_of_float msg
      = Ok (mkResponse 502 [("content-type", "text/plain")]
              (Py.encode_utf8 (exn_msg exc))).
Proof.
  intros Hbody Hsrv He. unfold on_request, forward_request_to_local.
  rewrite Hbody, client_body. cbn [mbind result_bind]. rewrite Hsrv, He.
  cbn [mbind result_bind]. eexists. split; [reflexivity|].
  unfold response_dict.
  cbn [Py.dict_set Py.dict_get String.eqb Ascii.eqb Bool.eqb get get_default map fst snd].
  split; [done|]. split; [done|].
  unfold render_response, get, get_default.
  cbn [Py.dict_get String.eqb Ascii.eqb Bool.eqb mbind result_bind py_int].
  pose proof (decode_body_field (Py.encode_utf8 (exn_msg exc))) as Hdec.
  unfold body_field in Hdec.
  assert (decode_body (JStr (Base64.b64encode (Py.encode_utf8 (exn_msg exc))))
          = Ok (Py.encode_utf8 (exn_msg exc))) as ->.
  { destruct (Py.encode_utf8 (exn_msg exc)) as [|b bs] eqn:Hutf; [done|].
    exact Hdec. }
  reflexivity.
Qed.

(** X18. A response message without status, headers and body renders as
    status 502 with no headers and an empty body. A response message whose
    body is text that is not base64 does not render at all: the forwarder
    ends with the exception of the decoder, not with a response. *)
Theorem response_edge_cases fields :
  (Py.dict_get fields "status_code" = None →
   Py.dict_get fields "headers" = None →
   Py.dict_get fields "body_b64" = None →
   outcome_of int_of_str int_of_float (Ok (JObj fields)) = Returned (mkResponse 502 [] []))
  ∧ (∀ n s, Py.dict_get fields "status_code" = Some (JNum n) →
            Py.dict_get fields "body_b64" = Some (JStr s) →
            Py.str_truthy s = true → Base64.b64decode_str s = None →
            ∃ e, outcome_of int_of_str int_of_float (Ok (JObj fields)) = Raised e
                 ∧ (exn_class_of e = UnicodeEncodeError ∨ exn_class_of e = BinasciiError)).
Proof.
  split.
  - intros Hs Hh Hb. unfold outcome_of, render_response, get, get_default.
    by rewrite Hs, Hh, Hb.
  - intros n s Hs Hb Htruthy Hdec.
    unfold outcome_of, render_response, get, get_default.
    rewrite Hs, Hb. cbn [mbind result_bind py_int].
    unfold decode_body. cbn [truthy]. rewrite Htruthy. cbn [negb].
    unfold Base64.b64decode_str in Hdec.
    destruct (Py.encode_ascii s) as [data|].
    + rewrite Hdec. cbn. eexists. split; [reflexivity | by right].
    + cbn. eexists. split; [reflexivity | by left].
Qed.

End Client_facts.

Section Client_run.
Import Exc Wire Registry TunnelService Client Run Scenario Invariants Cases.

Lemma unreachable_local_server_is_502_witness :
  ∃ msg,
    on_request (λ _, Raise (Exn ConnectionError "All connection attempts failed"))
      "http://localhost:3000/" (tk_payload ticket) = Ok msg
    ∧ get msg "type" = Ok (JStr "response")
    ∧ get msg "correlation_id" = Ok (JStr (correlation_id (tk_payload ticket)))
    ∧ render_response no_int_of_str no_int_of_float msg
      = Ok (mkResponse 502 [("content-type", "text/plain")]
              (Py.encode_utf8 "All connection attempts failed")).
Proof.
  apply (unreachable_local_server_is_502 no_int_of_str no_int_of_float
           (λ _, Raise (Exn ConnectionError "All connection attempts failed"))
           "http://localhost:3000/" (tk_payload ticket) ["h"%byte; "i"%byte]
           (Exn ConnectionError "All connection attempts failed")).
  - vm_compute. reflexivity.
  - reflexivity.
  - reflexivity.
Defined.

(** A body field with a character above 127 ends the client function
    with UnicodeEncodeError, one that is ASCII but not base64 with
    binascii.Error; a cancelled request ends it with CancelledError. *)
Example client_raises :
  b64decode_ascii (String (ascii_of_N 233) "") = Raise (Exn UnicodeEncodeError
                                                          "'ascii' codec can't encode character")
  ∧ b64decode_ascii "aGk" = Raise (Exn BinasciiError "")
  ∧ forward_request_to_local (λ _, Raise (Exn CancelledError "")) "http://localhost:3000/"
      (tk_payload ticket)
    = Raise (Exn CancelledError "").
Proof. repeat split; vm_compute; reflexivity. Qed.

Lemma response_edge_cases_witness :
  outcome_of no_int_of_str no_int_of_float
    (Ok (JObj [("type", JStr "response"); ("correlation_id", JStr "c")]))
  = Returned (mkResponse 502 [] [])
  ∧ ∃ e, outcome_of no_int_of_str no_int_of_float
           (Ok (JObj [("status_code", JNum 200); ("body_b64", JStr "aGk")])) = Raised e
         ∧ (exn_class_of e = UnicodeEncodeError ∨ exn_class_of e = BinasciiError).
Proof.
  split.
  - by apply (response_edge_cases no_int_of_str no_int_of_float [("type", JStr "response"); ("correlation_id", JStr "c")]).
  - by apply (proj2 (response_edge_cases no_int_of_str no_int_of_float [("status_code", JNum 200); ("body_b64", JStr "aGk")])
                200%Z "aGk").
Defined.

End Client_run.

(* --------------------------------------------------------------------- *)
(** ** base64 text *)

Section Base64_text.
Import Base64.

(** X19. The base64 text of n bytes has 4 characters for every group of
    3 bytes, the last group padded: its length is 4 * ceil(n / 3), so a
    multiple of 4; and two byte strings with the same text are equal. *)
Theorem b64encode_length_injective (bs : list byte) :
  String.length (b64encode bs) = (4 * ((length bs + 2) / 3))%nat
  ∧ (∀ bs', b64encode bs' = b64encode bs → bs' = bs).
Proof.
  split.
  - induction bs as [bs IH] using (induction_ltof1 _ (@length byte)).
    unfold ltof in IH.
    destruct bs as [|a [|b [|c rest]]]; [done..|].
    cbn [b64encode String.length length]. rewrite IH by (cbn; lia).
    replace (S (S (S (length rest))) + 2)%nat with (1 * 3 + (length rest + 2))%nat by lia.
    rewrite Nat.div_add_l by lia. lia.
  - intros bs' Heq. pose proof (b64decode_b64encode bs') as H.
    rewrite Heq, b64decode_b64encode in H. by injection H.
Qed.

Lemma b64encode_length_injective_witness :
  String.length (b64encode ["h"%byte; "i"%byte]) = (4 * ((2 + 2) / 3))%nat
  ∧ ["h"%byte; "i"%byte] = ["h"%byte; "i"%byte].
Proof.
  destruct (b64encode_length_injective ["h"%byte; "i"%byte]) as [H1 H2].
  split; [exact H1 | apply H2; reflexivity].
Defined.

End Base64_text.
(* --------------------------------------------------------------------- *)
(** ** Base URLs and the management of routes *)

Section Management_facts.
Import Exc Wire Registry Client Run Scenario Invariants Cases Config.

Lemma rstrip_slash_spec (s : string) :
  ends_with_slash (rstrip_slash s) = false
  ∧ ∃ n, s = (rstrip_slash s ++ slashes n)%string.
Proof.
  induction s as [|c s [IH1 [n IH2]]]; [split; [done | by exists 0%nat]|].
  cbn [rstrip_slash]. destruct (rstrip_slash s) as [|c' r] eqn:Hr.
  - destruct (Ascii.eqb_spec c "/") as [->|Hne].
    + split; [done|]. exists (S n). rewrite IH2 at 1. reflexivity.
    + split.
      * cbn. by apply Ascii.eqb_neq.
      * exists n. rewrite IH2 at 1. reflexivity.
  - split; [exact IH1|]. exists n. rewrite IH2 at 1. reflexivity.
Qed.

(** X20. None of the three base URLs that [get_base_urls] returns ends
    with a slash; each is its setting with the trailing slashes taken off
    and nothing else changed; and the public base is the API base when no
    public base URL is set. *)
Theorem base_urls_have_no_trailing_slash (self : Settings) :
  ends_with_slash (api (get_base_urls self)) = false
  ∧ ends_with_slash (ws (get_base_urls self)) = false
  ∧ ends_with_slash (public (get_base_urls self)) = false
  ∧ (∃ n, api_base_url self = (api (get_base_urls self) ++ slashes n)%string)
  ∧ (∃ n, ws_base_url self = (ws (get_base_urls self) ++ slashes n)%string)
  ∧ (public_base_url self = "" → public (get_base_urls self) = api (get_base_urls self))
  ∧ (public_base_url self ≠ "" →
     ∃ n, public_base_url self = (public (get_base_urls self) ++ slashes n)%string).
Proof.
  unfold get_base_urls. cbn [api ws public].
  split; [apply rstrip_slash_spec|]. split; [apply rstrip_slash_spec|].
  split; [apply rstrip_slash_spec|]. split; [apply rstrip_slash_spec|].
  split; [apply rstrip_slash_spec|]. split.
  - by intros ->.
  - intros Hne. destruct (public_base_url self) eqn:Hp; [done|].
    cbn [Py.str_truthy]. apply rstrip_slash_spec.
Qed.

Lemma base_urls_have_no_trailing_slash_witness :
  api (get_base_urls settings) = "http://api.example"
  ∧ ws (get_base_urls settings) = "ws://api.example"
  ∧ ends_with_slash (public (get_base_urls settings)) = false
  ∧ public (get_base_urls settings) = api (get_base_urls settings).
Proof.
  destruct (base_urls_have_no_trailing_slash settings) as (_ & _ & H3 & _ & _ & H6 & _).
  split; [reflexivity|]. split; [reflexivity|]. split; [exact H3|].
  apply H6. reflexivity.
Defined.

Lemma find_app_None {A} (f : A → bool) (l1 l2 : list A) :
  List.find f l1 = None → List.find f (l1 ++ l2) = List.find f l2.
Proof.
  induction l1 as [|x l1 IH]; [done|]. cbn. destruct (f x); [done | exact IH].
Qed.

Lemma delete_tunnel_token_last db r tok :
  Management.get_tunnel_token db r = None →
  Management.delete_tunnel_token (db ++ [mkTunnelToken r tok true None]) r = (db, true).
Proof.
  unfold Management.get_tunnel_token.
  induction db as [|row db IH]; cbn.
  - by rewrite String.eqb_refl.
  - destruct (String.eqb (tt_route row) r); [done|]. intros H. by rewrite (IH H).
Qed.

Lemma dict_pop_set_new {V} (d : Py.dict V) (k : string) (v : V) :
  Py.dict_get d k = None → Py.dict_pop (Py.dict_set d k v) k = d.
Proof.
  induction d as [|[k1 v1] d IH]; cbn.
  - by rewrite String.eqb_refl.
  - destruct (String.eqb k1 k) eqn:Hk; [done|]. cbn. rewrite Hk. intros H. by rewrite IH.
Qed.

Lemma existsb_false_iff {A} (f : A → bool) (l : list A) :
  (∀ x, x ∈ l → f x = false) → existsb f l = false.
Proof.
  induction l as [|x l IH]; [done|]. intros H. cbn.
  rewrite (H x) by left. apply IH. intros y Hy. apply H. by right.
Qed.

Lemma get_tunnel_token_None db r :
  Management.get_tunnel_token db r = None →
  ∀ row, row ∈ db → String.eqb (tt_route row) r = false.
Proof.
  unfold Management.get_tunnel_token. intros H row Hin.
  exact (find_none _ _ H row (proj1 (list_elem_of_In _ _) Hin)).
Qed.

(** X21. A route that is neither in the table nor in the registry, with a
    token that is not in the table, is created by the service: the
    response bears the route, the token and the two URLs made of the base
    URLs; the token validates in the table and leads to the route; the
    registry has the session, not connected. Deleting the route then
    answers that it was removed and puts the table and the route index of
    the registry back as they were. *)
Theorem service_create_then_delete settings sv now random r descr :
  Management.get_tunnel_token (Management.table sv) r = None →
  Py.dict_get (_route_to_tunnel (Management.registry sv)) r = None →
  (∀ row, row ∈ Management.table sv → tt_token row ≠ Uuid.uuid4_hex random) →
  ∃ sv' resp,
    Management.create_tunnel settings sv now random r descr
    = (sv', Management.Returned resp)
    ∧ resp = Management.mkCreateTunnelResponse r (Uuid.uuid4_hex random)
               (public (get_base_urls settings) ++ "/r/" ++ r)%string
               (ws (get_base_urls settings) ++ "/ws/tunnel?token="
                  ++ Uuid.uuid4_hex random)%string
    ∧ validate_token (Management.table sv') (Uuid.uuid4_hex random)
      = Some (mkTunnelToken r (Uuid.uuid4_hex random) true None)
    ∧ Management.get_tunnel_token (Management.table sv') r
      = Some (mkTunnelToken r (Uuid.uuid4_hex random) true None)
    ∧ get_tunnel (Management.registry sv') r
      = Some (mkTunnel r (Uuid.uuid4_hex random) descr now None None false ∅)
    ∧ ∃ sv'',
        Management.delete_tunnel sv' r = (sv'', Management.Returned (r, true))
        ∧ Management.table sv'' = Management.table sv
        ∧ _route_to_tunnel (Management.registry sv'')
          = _route_to_tunnel (Management.registry sv)
        ∧ get_tunnel (Management.registry sv'') r = None.
Proof.
  intros Hrow Hreg Htok. destruct sv as [reg db].
  cbn [Management.table Management.registry] in *.
  unfold Management.create_tunnel. cbn [Management.table Management.registry].
  rewrite Hrow. unfold create_tunnel. rewrite Hreg.
  unfold Management.create_tunnel_token.
  rewrite existsb_false_iff.
  2:{ intros row Hin. apply orb_false_iff. split.
      - by apply (get_tunnel_token_None db r).
      - apply String.eqb_neq. by apply Htok. }
  do 2 eexists. split; [reflexivity|]. split; [done|].
  cbn [Management.table Management.registry].
  assert (validate_token db (Uuid.uuid4_hex random) = None) as Hv.
  { unfold validate_token.
    destruct (List.find _ db) as [row|] eqn:Hf; [|done].
    apply find_some in Hf as [Hin Hb]. apply andb_true_iff in Hb as [Hb _].
    apply String.eqb_eq in Hb. exfalso. by apply (Htok row); [apply list_elem_of_In|]. }
  split.
  { unfold validate_token in *. rewrite find_app_None by done.
    cbn -[Uuid.uuid4_hex]. by rewrite String.eqb_refl. }
  split.
  { unfold Management.get_tunnel_token in *. rewrite find_app_None by done. cbn.
    by rewrite String.eqb_refl. }
  split.
  { unfold get_tunnel, lookup_route. cbn -[Uuid.uuid4_hex].
    by rewrite dict_get_set_eq, lookup_insert_eq. }
  unfold Management.delete_tunnel, delete_tunnel.
  cbn [Management.table Management.registry].
  unfold lookup_route. cbn -[Uuid.uuid4_hex].
  rewrite dict_get_set_eq, lookup_insert_eq. cbn -[Uuid.uuid4_hex].
  rewrite delete_tunnel_token_last by done.
  eexists. split; [reflexivity|]. cbn -[Uuid.uuid4_hex].
  split; [done|]. rewrite dict_pop_set_new by done. split; [done|].
  unfold get_tunnel, lookup_route. cbn -[Uuid.uuid4_hex]. by rewrite Hreg.
Qed.

Lemma service_create_then_delete_witness :
  ∃ sv' resp,
    Management.create_tunnel settings sv_empty 10%float random_token "svc" None
    = (sv', Management.Returned resp)
    ∧ resp = Management.mkCreateTunnelResponse "svc" (Uuid.uuid4_hex random_token)
               (public (get_base_urls settings) ++ "/r/" ++ "svc")%string
               (ws (get_base_urls settings) ++ "/ws/tunnel?token="
                  ++ Uuid.uuid4_hex random_token)%string
    ∧ validate_token (Management.table sv') (Uuid.uuid4_hex random_token)
      = Some (mkTunnelToken "svc" (Uuid.uuid4_hex random_token) true None)
    ∧ Management.get_tunnel_token (Management.table sv') "svc"
      = Some (mkTunnelToken "svc" (Uuid.uuid4_hex random_token) true None)
    ∧ get_tunnel (Management.registry sv') "svc"
      = Some (mkTunnel "svc" (Uuid.uuid4_hex random_token) None 10%float None None false ∅)
    ∧ ∃ sv'',
        Management.delete_tunnel sv' "svc" = (sv'', Management.Returned ("svc", true))
        ∧ Management.table sv'' = Management.table sv_empty
        ∧ _route_to_tunnel (Management.registry sv'')
          = _route_to_tunnel (Management.registry sv_empty)
        ∧ get_tunnel (Management.registry sv'') "svc" = None.
Proof.
  apply (service_create_then_delete settings sv_empty 10%float random_token "svc" None).
  - reflexivity.
  - reflexivity.
  - intros row Hin. by apply elem_of_nil in Hin.
Defined.

(** X22. What the service refuses. Creating a route that the table has
    answers 409 and changes nothing. Creating a route that only the
    registry has ends with the ValueError of the registry, not with 409,
    and changes nothing. Deleting a route that the registry does not hold
    answers 404 and leaves the table as it is, also when the table has the
    route: after a restart, with an empty registry, no route of the table
    can be deleted. *)
Theorem service_refusals settings sv now random r descr :
  (is_Some (Management.get_tunnel_token (Management.table sv) r) →
   Management.create_tunnel settings sv now random r descr
   = (sv, Management.RaisedHTTPException 409 "Route already exists"))
  ∧ (Management.get_tunnel_token (Management.table sv) r = None →
     is_Some (Py.dict_get (_route_to_tunnel (Management.registry sv)) r) →
     Management.create_tunnel settings sv now random r descr
     = (sv, Management.Raised (Exn ValueError "Route already exists")))
  ∧ (lookup_route (Management.registry sv) r = None →
     Management.delete_tunnel sv r
     = (sv, Management.RaisedHTTPException 404 "Not found")).
Proof.
  unfold Management.create_tunnel, Management.delete_tunnel. split; [|split].
  - by intros [row ->].
  - intros -> [o Ho]. unfold create_tunnel. by rewrite Ho.
  - intros Hl. unfold delete_tunnel. rewrite Hl. by destruct sv.
Qed.

Lemma service_refusals_witness :
  Management.create_tunnel settings sv_restarted 20%float 7 "svc" None
  = (sv_restarted, Management.RaisedHTTPException 409 "Route already exists")
  ∧ Management.create_tunnel settings sv_orphan 20%float 7 "svc" None
    = (sv_orphan, Management.Raised (Exn ValueError "Route already exists"))
  ∧ Management.delete_tunnel sv_restarted "svc"
    = (sv_restarted, Management.RaisedHTTPException 404 "Not found").
Proof.
  split; [|split].
  - apply (service_refusals settings sv_restarted 20%float 7 "svc" None).
    eexists. vm_compute. reflexivity.
  - apply (service_refusals settings sv_orphan 20%float 7 "svc" None).
    + reflexivity.
    + eexists. vm_compute. reflexivity.
  - apply (service_refusals settings sv_restarted 20%float 7 "svc" None).
    reflexivity.
Defined.

End Management_facts.

(* --------------------------------------------------------------------- *)
(** ** The reconnection delay of the client *)

Section Connector_facts.
Import Loops.
Local Open Scope Z_scope.

Lemma connector_turn_bounds d connected :
  1 ≤ d ≤ 30 →
  1 ≤ fst (connector_turn d connected) ≤ 30
  ∧ 1 ≤ snd (connector_turn d connected) ≤ 30.
Proof. unfold connector_turn. destruct connected; cbn; lia. Qed.

Lemma connector_sleeps_failures (n : nat) : ∀ k : nat,
  connector_sleeps (Z.min (2 ^ Z.of_nat k) 30) (repeat false n)
  = map (λ i, Z.min (2 ^ Z.of_nat (k + i)) 30) (seq 0 n).
Proof.
  induction n as [|n IH]; intros k; [done|].
  cbn [repeat connector_sleeps connector_turn seq map].
  rewrite Nat.add_0_r. f_equal.
  assert (Z.min (Z.min (2 ^ Z.of_nat k) 30 * 2) 30 = Z.min (2 ^ Z.of_nat (S k)) 30) as ->.
  { rewrite Nat2Z.inj_succ, Z.pow_succ_r by lia.
    pose proof (Z.pow_pos_nonneg 2 (Z.of_nat k)). lia. }
  rewrite IH, <- seq_shift, map_map. apply map_ext. intros i.
  by rewrite Nat.add_succ_comm.
Qed.

(** X23. The client never sleeps less than 1 second nor more than 30
    between two attempts to connect, whatever the attempts give; after a
    connection the next sleep is 1 second; and when it keeps failing from
    the start, the sleeps are 1, 2, 4, 8, 16 and then 30 seconds for
    ever. *)
Theorem reconnect_delay_is_bounded (turns : list bool) :
  Forall (λ slept, 1 ≤ slept ≤ 30) (connector_sleeps 1 turns)
  ∧ (∀ d turns', 1 ≤ d ≤ 30 → hd_error (connector_sleeps d (true :: turns')) = Some 1)
  ∧ (∀ n, connector_sleeps 1 (repeat false n)
          = map (λ i, Z.min (2 ^ Z.of_nat i) 30) (seq 0 n)).
Proof.
  split; [|split].
  - assert (∀ d, 1 ≤ d ≤ 30 → Forall (λ slept, 1 ≤ slept ≤ 30) (connector_sleeps d turns))
      as H; [|apply H; lia].
    induction turns as [|c turns IH]; intros d Hd; [constructor|].
    cbn [connector_sleeps].
    destruct (connector_turn d c) as [slept next] eqn:Ht.
    pose proof (connector_turn_bounds d c Hd) as [H1 H2]. rewrite Ht in H1, H2.
    constructor; [done | by apply IH].
  - done.
  - intros n. exact (connector_sleeps_failures n 0).
Qed.

Lemma reconnect_delay_is_bounded_witness :
  Forall (λ slept, 1 ≤ slept ≤ 30)
    (connector_sleeps 1 [false; false; false; false; false; false; true; false])
  ∧ hd_error (connector_sleeps 30 [true; false]) = Some 1
  ∧ connector_sleeps 1 (repeat false 7) = [1; 2; 4; 8; 16; 30; 30].
Proof.
  destruct (reconnect_delay_is_bounded
              [false; false; false; false; false; false; true; false]) as (H1 & H2 & H3).
  split; [exact H1|]. split.
  - apply (H2 30 [false]). lia.
  - rewrite (H3 7%nat). reflexivity.
Defined.

End Connector_facts.
(* --------------------------------------------------------------------- *)
(** ** Tokens and correlation ids are version-4 UUIDs *)

Section Uuid_facts.
Import Uuid.

Lemma hex32_digit_12 (n : N) :
  String.get 12 (hex32 n) = Some (hexdigit (N.land (N.shiftr n 76) 15)).
Proof. reflexivity. Qed.

Lemma hex32_digit_16 (n : N) :
  String.get 16 (hex32 n) = Some (hexdigit (N.land (N.shiftr n 60) 15)).
Proof. reflexivity. Qed.

Lemma testbit_15 (k : N) : N.testbit 15 k = (k <? 4).
Proof.
  destruct (N.ltb_spec k 4) as [H|H].
  - assert (k = 0 ∨ k = 1 ∨ k = 2 ∨ k = 3) as [->|[->|[->| ->]]] by lia; reflexivity.
  - change 15 with (N.ones 4). by apply N.ones_spec_high.
Qed.

Lemma version_nibble (random : N) : N.land (N.shiftr (uuid4_int random) 76) 15 = 4.
Proof.
  apply N.bits_inj. intros k.
  rewrite N.land_spec, N.shiftr_spec', testbit_15.
  destruct (N.ltb_spec k 4) as [H|H].
  - unfold uuid4_int. rewrite N.lor_spec, N.ldiff_spec.
    assert (k = 0 ∨ k = 1 ∨ k = 2 ∨ k = 3) as [->|[->|[->| ->]]] by lia;
      cbn -[N.testbit N.shiftl N.ldiff N.lor N.pow N.modulo];
      match goal with |- context [N.testbit (N.shiftl 61440 64) ?i] =>
        change (N.testbit (N.shiftl 61440 64) i) with true end;
      match goal with |- context [N.testbit (N.shiftl 4 76) ?i] =>
        let b := eval vm_compute in (N.testbit (N.shiftl 4 76) i) in
        change (N.testbit (N.shiftl 4 76) i) with b end;
      rewrite andb_false_r; reflexivity.
  - rewrite andb_false_r. symmetry.
    change 4 with (2 ^ 2). apply N.pow2_bits_false. lia.
Qed.

Lemma variant_nibble (random : N) :
  N.testbit (uuid4_int random) 63 = true ∧ N.testbit (uuid4_int random) 62 = false.
Proof.
  unfold uuid4_int. rewrite !N.lor_spec, !N.ldiff_spec, !N.lor_spec, !N.ldiff_spec.
  change (N.testbit (N.shiftl 4 76) 63) with false.
  change (N.testbit (N.shiftl 4 76) 62) with false.
  change (N.testbit (N.shiftl 61440 64) 63) with false.
  change (N.testbit (N.shiftl 61440 64) 62) with false.
  change (N.testbit (N.shiftl 32768 48) 63) with true.
  change (N.testbit (N.shiftl 32768 48) 62) with false.
  change (N.testbit (N.shiftl 49152 48) 63) with true.
  change (N.testbit (N.shiftl 49152 48) 62) with true.
  cbn [negb andb orb]. by rewrite !andb_false_r, !orb_true_r.
Qed.

(** X24. The hex text minted by [uuid4] is that of a version-4 UUID,
    whatever the random bytes: its 13th digit is 4 and its 17th digit is
    8, 9, a or b. So every token of a route and every correlation id minted
    by the registry has this form. *)
Theorem uuid4_hex_is_version_4 (random : N) :
  String.get 12 (uuid4_hex random) = Some "4"%char
  ∧ ∃ c, String.get 16 (uuid4_hex random) = Some c
         ∧ (c = "8" ∨ c = "9" ∨ c = "a" ∨ c = "b")%char.
Proof.
  unfold uuid4_hex. rewrite hex32_digit_12, hex32_digit_16, version_nibble.
  split; [reflexivity|]. eexists. split; [reflexivity|].
  set (v := N.land (N.shiftr (uuid4_int random) 60) 15).
  assert (v < 16) as Hv.
  { unfold v. pose proof (N.land_ones (N.shiftr (uuid4_int random) 60) 4) as H.
    change (N.ones 4) with 15 in H. rewrite H. by apply N.mod_lt. }
  assert (N.testbit v 3 = true ∧ N.testbit v 2 = false) as [H3 H2].
  { unfold v. rewrite !N.land_spec, !N.shiftr_spec'.
    change (3 + 60) with 63. change (2 + 60) with 62.
    destruct (variant_nibble random) as [-> ->]. done. }
  pose proof (forall_range1 16
    (λ v, implb (N.testbit v 3 && negb (N.testbit v 2))
            (Ascii.eqb (hexdigit v) "8" || Ascii.eqb (hexdigit v) "9"
             || Ascii.eqb (hexdigit v) "a" || Ascii.eqb (hexdigit v) "b"))
    ltac:(vm_compute; reflexivity) v Hv) as H.
  cbv beta in H. rewrite H3, H2 in H. cbn [negb andb implb] in H.
  repeat (apply orb_true_iff in H as [H|H]); apply Ascii.eqb_eq in H; tauto.
Qed.

End Uuid_facts.

(* --------------------------------------------------------------------- *)
(** ** A call through the registry, and frames that end a connection *)

Section Call_facts.
Import Exc Wire Registry TunnelService Endpoint Run Scenario Invariants Cases.

Lemma begin_state st now random r payload st1 tk :
  send_ingress_begin st now random r payload = Ok (st1, tk) →
  ∃ o t,
    lookup_route st r = Some (o, t)
    ∧ websocket t = Some (tk_websocket tk)
    ∧ Py.str_truthy (tk_correlation_id tk) = true
    ∧ futures st1 = <[tk_future tk := FPending]> (futures st)
    ∧ lookup_route st1 r
      = Some (o, with_pending t (<[tk_correlation_id tk := mkPendingRequest (tk_future tk) now]>
                                   (pending t))).
Proof.
  unfold send_ingress_begin.
  destruct (lookup_route st r) as [[o t]|] eqn:Hl; [|done].
  destruct (connected t); [|done]. cbn -[Uuid.uuid4_hex].
  destruct (websocket t) as [w|] eqn:Hw; [|done].
  intros [= <- <-]. exists o, t. cbn -[Uuid.uuid4_hex].
  split; [done|]. split; [done|]. split.
  - destruct (Py.str_truthy (correlation_id payload)) eqn:Hc; cbn -[Uuid.uuid4_hex];
      [done | apply uuid4_hex_truthy].
  - split; [done|].
    exact (lookup_route_update st r o t _ Hl).
Qed.

(** X25. A call of [send_ingress_request] gets the response that bears
    its correlation id: when such a message arrives on the connection of
    the session (the first session of the registry that holds it), the
    registry hands that very message to the waiting call, which returns
    it, whatever else the message holds; afterwards the correlation id is
    no longer pending in the session and the rest of its pending table is
    as before the call. *)
Theorem response_reaches_its_caller st now random r payload st1 tk fields now2 :
  send_ingress_begin st now random r payload = Ok (st1, tk) →
  tunnel_of_websocket st1 (tk_websocket tk) = lookup_route st1 r →
  Py.dict_get fields "type" = Some (JStr "response") →
  Py.dict_get fields "correlation_id" = Some (JStr (tk_correlation_id tk)) →
  ∃ st2 st3,
    handle_client_message st1 now2 (tk_websocket tk) (JObj fields) = Ok st2
    ∧ send_ingress_finish st2 r tk false = Some (st3, Ok (JObj fields))
    ∧ futures st3 !! tk_future tk = Some (FResult (JObj fields))
    ∧ (∀ o t, lookup_route st r = Some (o, t) →
         lookup_route st3 r
         = Some (o, with_pending t (delete (tk_correlation_id tk) (pending t)))).
Proof.
  intros Hbegin Hfirst Hty Hcid.
  destruct (begin_state _ _ _ _ _ _ _ Hbegin) as (o & t & Hl & Hw & Htruthy & Hfut & Hl1).
  rewrite Hl1 in Hfirst.
  set (t1 := with_pending t (<[tk_correlation_id tk := mkPendingRequest (tk_future tk) now]>
                               (pending t))) in *.
  set (st2 := set_futures st1 (<[tk_future tk := FResult (JObj fields)]> (futures st1))).
  assert (handle_client_message st1 now2 (tk_websocket tk) (JObj fields) = Ok st2) as Hh.
  { unfold handle_client_message, get, get_default. rewrite Hty, Hcid.
    cbn [mbind result_bind eq_str String.eqb Ascii.eqb Bool.eqb negb truthy].
    rewrite Htruthy. cbn [negb]. rewrite Hfirst.
    unfold t1 at 1. cbn [pending with_pending]. rewrite lookup_insert_eq.
    cbn [future]. rewrite Hfut, lookup_insert_eq. cbn [done negb].
    unfold st2. by rewrite Hfut. }
  exists st2. eexists. split; [exact Hh|].
  assert (lookup_route st2 r = Some (o, t1)) as Hl2 by exact Hl1.
  unfold send_ingress_finish, wait_for. unfold st2 at 1. cbn [futures set_futures].
  rewrite lookup_insert_eq. unfold send_ingress_finally. rewrite Hl2.
  split; [reflexivity|]. split.
  - cbn. apply lookup_insert_eq.
  - intros o' t' Hl'. rewrite Hl in Hl'. injection Hl' as <- <-.
    rewrite (lookup_route_update st2 r o t1 _ Hl2). unfold t1.
    cbn [with_pending pending route token description created_at last_seen websocket connected].
    by rewrite delete_insert_eq.
Qed.

Lemma response_reaches_its_caller_witness :
  ∃ st2 st3,
    handle_client_message st_inflight 14%float (tk_websocket ticket) first_response = Ok st2
    ∧ send_ingress_finish st2 "svc" ticket false = Some (st3, Ok first_response)
    ∧ futures st3 !! tk_future ticket = Some (FResult first_response)
    ∧ (∀ o t, lookup_route st_attached "svc" = Some (o, t) →
         lookup_route st3 "svc"
         = Some (o, with_pending t (delete (tk_correlation_id ticket) (pending t)))).
Proof.
  apply (response_reaches_its_caller st_attached 12%float random_cid "svc"
           (build_payload post_request "echo") st_inflight ticket _ 14%float).
  - vm_compute. reflexivity.
  - vm_compute. reflexivity.
  - reflexivity.
  - reflexivity.
Defined.

(** X26. A frame that is JSON but not an object (a number, a string, a
    list, null), and a response frame on a held connection whose
    correlation id is a non-empty list or object, are not ignored: handling
    them raises, so the receive loop ends, the session of the connection is
    detached and the connection is closed. *)
Theorem frames_that_end_the_connection st now ws :
  (∀ message, (∀ fields, message ≠ JObj fields) →
     tunnel_ws_turn st now ws (RecvJson message)
     = (ws_close (detach_websocket st now ws) ws None, false))
  ∧ (∀ fields cid,
       Py.dict_get fields "type" = Some (JStr "response") →
       Py.dict_get fields "correlation_id" = Some cid →
       truthy cid = true →
       ((∃ l, cid = JArr l) ∨ (∃ d, cid = JObj d)) →
       is_Some (tunnel_of_websocket st ws) →
       tunnel_ws_turn st now ws (RecvJson (JObj fields))
       = (ws_close (detach_websocket st now ws) ws None, false)).
Proof.
  split.
  - intros message Hno. unfold tunnel_ws_turn, handle_client_message.
    destruct message; try done. by destruct (Hno fields).
  - intros fields cid Hty Hcid Htruthy Hkind [[o t] Hf].
    unfold tunnel_ws_turn, handle_client_message, get, get_default.
    rewrite Hty, Hcid.
    cbn [mbind result_bind eq_str String.eqb Ascii.eqb Bool.eqb negb].
    rewrite Htruthy. cbn [negb]. rewrite Hf.
    by destruct Hkind as [[l ->]|[d ->]].
Qed.

Lemma frames_that_end_the_connection_witness :
  tunnel_ws_turn st_inflight 14%float 1%nat (RecvJson (JArr [JNum 1]))
  = (ws_close (detach_websocket st_inflight 14%float 1%nat) 1%nat None, false)
  ∧ tunnel_ws_turn st_inflight 14%float 1%nat
      (RecvJson (JObj [("type", JStr "response"); ("correlation_id", JArr [JNum 1])]))
    = (ws_close (detach_websocket st_inflight 14%float 1%nat) 1%nat None, false).
Proof.
  destruct (frames_that_end_the_connection st_inflight 14%float 1%nat) as [H1 H2].
  split.
  - apply H1. intros fields. discriminate.
  - apply (H2 _ (JArr [JNum 1])); [reflexivity | reflexivity | reflexivity | |].
    + left. by eexists.
    + eexists. vm_compute. reflexivity.
Defined.

End Call_facts.
(* --------------------------------------------------------------------- *)
(** ** Pending requests and their futures *)

Section Pending_facts.
Import Exc Wire Registry TunnelService Endpoint Run Scenario Invariants Cases.

(** A stretch of code that adds no pending request and drops no future
    keeps [pending_futures]. *)
Lemma pending_futures_shrink st st' :
  pending_futures st →
  (∀ o t' cid p, tunnels st' !! o = Some t' → pending t' !! cid = Some p →
     ∃ t, tunnels st !! o = Some t ∧ pending t !! cid = Some p) →
  (∀ f, is_Some (futures st !! f) → is_Some (futures st' !! f)) →
  pending_futures st'.
Proof.
  intros [HP HQ] Hpend Hfut. split.
  - intros o t' cid p Ht' Hp. destruct (Hpend o t' cid p Ht' Hp) as (t & Ht & Hp0).
    apply Hfut. by eapply HP.
  - intros o1 t1 cid1 p1 o2 t2 cid2 p2 Ht1 Hp1 Ht2 Hp2 Heq.
    destruct (Hpend _ _ _ _ Ht1 Hp1) as (t1' & ? & ?).
    destruct (Hpend _ _ _ _ Ht2 Hp2) as (t2' & ? & ?).
    by eapply HQ.
Qed.

(** An assignment to one Tunnel object under which its pending table
    does not grow. *)
Lemma pending_shrink_update (ts : gmap nat Tunnel) o t t' :
  ts !! o = Some t →
  (∀ cid p, pending t' !! cid = Some p → pending t !! cid = Some p) →
  ∀ o0 t0' cid p, <[o := t']> ts !! o0 = Some t0' → pending t0' !! cid = Some p →
    ∃ t0, ts !! o0 = Some t0 ∧ pending t0 !! cid = Some p.
Proof.
  intros Ht Hsub o0 t0' cid p. destruct (decide (o = o0)) as [<-|Hne].
  - rewrite lookup_insert_eq. intros [= <-] Hp. exists t. split; [done | by apply Hsub].
  - rewrite lookup_insert_ne by done. intros Ht0 Hp. by exists t0'.
Qed.

Lemma pending_futures_step st st' : pending_futures st → step st st' → pending_futures st'.
Proof.
  intros Hpf Hstep. destruct Hstep as
    [st now random r descr st' o H | st r | st utcnow tok st' H | st now tok ws st' o H
    | st now ws | st now random r payload st' tk H | st tk st' H
    | st fut elapsed st' res H | st r cid | st now ws message st' H
    | st now o failure | st ws code].
  - unfold create_tunnel in H.
    destruct (Py.dict_get (_route_to_tunnel st) r); [done|]. injection H as <- <-.
    apply (pending_futures_shrink st); [done| |done].
    intros o0 t0' cid p. cbn.
    destruct (decide (fresh (dom (tunnels st)) = o0)) as [<-|Hne].
    + rewrite lookup_insert_eq. intros [= <-]. cbn. by rewrite lookup_empty.
    + rewrite lookup_insert_ne by done. intros Ht0 Hp. by exists t0'.
  - unfold delete_tunnel. destruct (lookup_route st r) as [[o t]|]; [|done].
    apply (pending_futures_shrink st); [done| |by destruct (websocket t)].
    intros o0 t0' cid p. destruct (websocket t); cbn; intros ? ?; by exists t0'.
  - apply attach_validate_Ok in H as [db ->]. done.
  - unfold attach_bind in H.
    destruct (_token_to_route st !! tok) as [r|]; [|done].
    destruct (Py.str_truthy r); [|done]. cbn in H.
    destruct (lookup_route st r) as [[o' t]|] eqn:Hl; [|done]. injection H as <- <-.
    apply lookup_route_Some in Hl as [_ Ht].
    apply (pending_futures_shrink st); [done| |done].
    cbn. by apply (pending_shrink_update _ _ t).
  - unfold detach_websocket.
    destruct (tunnel_of_websocket st ws) as [[o t]|] eqn:Hf; [|done].
    apply tunnel_of_websocket_Some in Hf as [[_ Ht] _].
    apply (pending_futures_shrink st); [done| |done].
    cbn. by apply (pending_shrink_update _ _ t).
  - destruct (begin_state _ _ _ _ _ _ _ H) as (o & t & Hl & _ & _ & Hfut & _).
    apply lookup_route_Some in Hl as [_ Ht].
    unfold send_ingress_begin in H.
    destruct (lookup_route st r) as [[o1 t1]|] eqn:Hl1; [|done].
    destruct (connected t1); [|done]. cbn -[Uuid.uuid4_hex] in H.
    destruct (websocket t1); [|done]. injection H as <- <-.
    apply lookup_route_Some in Hl1 as [_ Ht1].
    destruct Hpf as [HP HQ].
    assert (futures st !! fresh (dom (futures st)) = None) as Hfresh
      by (apply not_elem_of_dom, is_fresh).
    set (cid0 := if negb (Py.str_truthy (correlation_id payload))
                 then Uuid.uuid4_hex random else correlation_id payload) in *.
    (* every pending entry of the new state is the new one or an old one *)
    assert (∀ o0 t0' cid p,
              <[o1 := with_pending t1
                        (<[cid0 := mkPendingRequest (fresh (dom (futures st))) now]>
                           (pending t1))]> (tunnels st) !! o0 = Some t0' →
              pending t0' !! cid = Some p →
              (o0 = o1 ∧ cid = cid0 ∧ future p = fresh (dom (futures st)))
              ∨ (∃ t0, tunnels st !! o0 = Some t0 ∧ pending t0 !! cid = Some p
                       ∧ ¬ (o0 = o1 ∧ cid = cid0))) as Hcase.
    { intros o0 t0' cid p. destruct (decide (o1 = o0)) as [<-|Hne].
      - rewrite lookup_insert_eq. intros [= <-]. cbn.
        destruct (decide (cid0 = cid)) as [<-|Hnc].
        + rewrite lookup_insert_eq. intros [= <-]. by left.
        + rewrite lookup_insert_ne by done. intros Hp. right. exists t1.
          split; [done|]. split; [done|]. intros [_ ?]. congruence.
      - rewrite lookup_insert_ne by done. intros Ht0 Hp. right. exists t0'.
        split; [done|]. split; [done|]. intros [? _]. congruence. }
    split; cbn -[Uuid.uuid4_hex].
    + intros o0 t0' cid p Ht0 Hp.
      destruct (Hcase _ _ _ _ Ht0 Hp) as [(_ & _ & ->)|(t0 & Ht00 & Hp0 & _)].
      * by rewrite lookup_insert_eq.
      * destruct (HP _ _ _ _ Ht00 Hp0) as [f Hf].
        rewrite lookup_insert_ne; [by eexists|]. intros Heq. congruence.
    + intros o2 t2 c2 p2 o3 t3 c3 p3 Ht2 Hp2 Ht3 Hp3 Heq.
      destruct (Hcase _ _ _ _ Ht2 Hp2) as [(-> & -> & Hf2)|(t2' & Ht2' & Hp2' & _)];
        destruct (Hcase _ _ _ _ Ht3 Hp3) as [(-> & -> & Hf3)|(t3' & Ht3' & Hp3' & _)].
      * done.
      * exfalso. destruct (HP _ _ _ _ Ht3' Hp3') as [f Hf]. congruence.
      * exfalso. destruct (HP _ _ _ _ Ht2' Hp2') as [f Hf]. congruence.
      * by eapply HQ.
  - cbn in H. by injection H as <-.
  - unfold wait_for in H.
    destruct (futures st !! fut) as [[| |]|] eqn:Hfut; try done;
      try (by injection H as <- <-).
    destruct elapsed; [|done]. injection H as <- <-.
    apply (pending_futures_shrink st); [done| |].
    + intros o0 t0' cid p ? ?. by exists t0'.
    + intros f. cbn. destruct (decide (fut = f)) as [<-|Hne].
      * rewrite lookup_insert_eq. by eexists.
      * by rewrite lookup_insert_ne.
  - unfold send_ingress_finally.
    destruct (lookup_route st r) as [[o t]|] eqn:Hl; [|done].
    apply lookup_route_Some in Hl as [_ Ht].
    apply (pending_futures_shrink st); [done| |done].
    cbn. apply (pending_shrink_update _ _ t); [done|]. cbn.
    intros cid0 p Hp. by apply lookup_delete_Some in Hp as [_ Hp].
  - destruct (handle_keeps_bindings _ _ _ _ _ H) as (_ & _ & _ & _ & _ & Hb).
    apply (pending_futures_shrink st); [done| |].
    + intros o0 t0' cid p Ht0 Hp. specialize (Hb o0). rewrite Ht0 in Hb.
      destruct (tunnels st !! o0) as [t0|]; [|done]. exists t0. split; [done|].
      unfold binding in Hb. cbn in Hb. injection Hb. intros. congruence.
    + intros f Hf. unfold handle_client_message in H.
      destruct (get message "type") as [msg_type|]; [|done]. cbn in H.
      destruct (eq_str msg_type "pong").
      { injection H as <-. by destruct (tunnel_of_websocket st ws) as [[o t]|]. }
      destruct (eq_str msg_type "response"); [|by injection H as <-]. cbn in H.
      destruct (get message "correlation_id") as [cid|]; [|done]. cbn in H.
      destruct (truthy cid); [|by injection H as <-]. cbn in H.
      destruct (tunnel_of_websocket st ws) as [[o t]|]; [|by injection H as <-].
      destruct cid; try (by injection H as <-); try done.
      destruct (pending t !! s) as [p|]; [|by injection H as <-].
      destruct (futures st !! future p) as [f0|] eqn:Hf0; [|by injection H as <-].
      destruct (done f0); [by injection H as <-|].
      injection H as <-. cbn. destruct (decide (future p = f)) as [<-|Hne].
      * rewrite lookup_insert_eq. by eexists.
      * by rewrite lookup_insert_ne.
  - unfold ping_one. destruct (tunnels st !! o) as [t|] eqn:Ht; [|done].
    assert (pending_futures (ping_failed st now o)) as Hfail.
    { unfold ping_failed. rewrite Ht.
      apply (pending_futures_shrink st); [done| |by destruct (websocket t)].
      destruct (websocket t); cbn; by apply (pending_shrink_update _ _ t). }
    destruct (websocket t), failure as [e|]; try destruct (is_Exception e); done.
  - done.
Qed.

(** X27. In every state that the process can reach, every pending
    request of every session has a future, and no two pending requests
    share one: a response resolves the future of one waiting call and of
    no other. *)
Theorem pending_futures_are_distinct db st : reachable db st → pending_futures st.
Proof.
  induction 1 as [|st st' _ IH Hstep]; [|by eapply pending_futures_step].
  split.
  - intros o t cid p H. cbn in H. by rewrite lookup_empty in H.
  - intros o1 t1 cid1 p1 o2 t2 cid2 p2 H. cbn in H. by rewrite lookup_empty in H.
Qed.

Lemma st_inflight_reachable : reachable None st_inflight.
Proof.
  eapply reachable_step; [exact st_attached_reachable|].
  apply (step_send_begin st_attached 12%float random_cid "svc"
           (build_payload post_request "echo") st_inflight ticket).
  vm_compute. reflexivity.
Defined.

Lemma pending_futures_are_distinct_witness : pending_futures st_inflight.
Proof. exact (pending_futures_are_distinct None st_inflight st_inflight_reachable). Defined.

End Pending_facts.
